(** * R1-Control: the accessory protocol layer and the device manager

    A shallow embedding of [aoa/aoa.go] (package [aoa]) and of the device
    manager (package [device]), with the properties of the design
    document stated over it, and of how a hotkey is named and shown
    (packages [hotkey] and [config]).

    Conventions of the embedding:
    - Go's [uint16], [byte] and [int64] are [Z] with the wrap-around
      written out ([wrap16], [wrap8], [wrap64]);
    - a byte slice is a [list Z]; [GetDescriptor] returning [nil] is [None];
    - the USB bus, the clock and the observer callback form the [World]:
      every control transfer, serial-number read, handle release and
      observer notification is appended to [trace], in program order; the
      success of each transfer is read from [oracle] (the behaviour of the
      accessory), one entry per transfer, success once it is exhausted;
    - [time.Sleep d] advances the clock [now] by [d] nanoseconds; a
      transfer takes no time on this clock, so that within an operation
      the clock advances by the operation's own sleeps only and the time
      an operation takes is a lower bound of the time it takes on a bus;
      the time between two operations is an [EvWait] of the environment;
    - the manager's mutex makes its operations atomic, so each one is a
      function from the manager and the world to a result, a manager and a
      world; log output is left out. *)

From Stdlib Require Import ZArith List Bool String Lia Floats.
Import ListNotations.
Open Scope Z_scope.

(** ** Machine integers *)

Definition wrap8 (z : Z) : Z := z mod 256.
Definition wrap16 (z : Z) : Z := z mod 65536.
Definition maxInt64 : Z := 2 ^ 63 - 1.
Definition minInt64 : Z := - 2 ^ 63.
Definition wrap64 (z : Z) : Z := (z + 2 ^ 63) mod 2 ^ 64 - 2 ^ 63.

(** ** Time: [time.Time], [time.Duration] (int64 nanoseconds) *)

Definition Millisecond : Z := 1000000.
Definition Second : Z := 1000 * Millisecond.
Definition Minute : Z := 60 * Second.

(** A [time.Time] is either the zero value of the type or a reading of the
    monotonic clock. *)
Inductive Time : Type :=
| ZeroTime
| At (ns : Z).

(** [Time.Sub] saturates at the bounds of [Duration]. *)
Definition saturate64 (d : Z) : Z :=
  if d >? maxInt64 then maxInt64 else if d <? minInt64 then minInt64 else d.

(** ** Errors and results *)

Inductive error : Type :=
| ErrUsb                                             (* the transport's own error *)
| ErrControlTransfer (bRequest wValue wIndex : Z) (cause : error)
| ErrUnknownDescriptor (dt : Z)
| ErrRegisterHID (cause : error)
| ErrSetHIDReportDesc (cause : error)
| ErrNoR1Found
| ErrSerialNotFound (serial : string)
| ErrKeyDown (cause : error)
| ErrKeyUp (cause : error)
| ErrNoDevice                                        (* "no device connected" *)
| ErrSwipeStep (i : Z) (cause : error)
| ErrSwipeLift (cause : error).

Inductive result (A : Type) : Type :=
| Ok (a : A)
| Err (e : error).
Arguments Ok {A} a.
Arguments Err {A} e.

(** ** The world: bus, clock, observer *)

(** What the bus enumerates: [usb_serial] is what [SerialNumber()] reads
    from the device, [None] when the read fails. *)
Record UsbDev : Type := mkUsbDev {
  usb_addr : Z;
  usb_vendor : Z;
  usb_product : Z;
  usb_serial : option string
}.

(** The state reported to [onChange]. *)
Inductive State : Type :=
| Disconnected
| Connected
| PTTActive.

Inductive IO : Type :=
| Control (h : UsbDev) (bmRequestType bRequest wValue wIndex : Z)
          (data : list Z) (ok : bool)
| ReadSerial (h : UsbDev) (ok : bool)
| CloseHandle (h : UsbDev)
| CloseContext
| Notify (s : State).

Record World : Type := mkWorld {
  now : Z;
  trace : list IO;
  oracle : list bool
}.

(** A computation over the world. *)
Definition M (A : Type) : Type := World -> A * World.

Definition ret {A : Type} (a : A) : M A := fun w => (a, w).

Definition bind {A B : Type} (c : M A) (k : A -> M B) : M B :=
  fun w => let (a, w') := c w in k a w'.

Declare Scope io_scope.
Delimit Scope io_scope with io.
Notation "x <- c ;; k" := (bind c (fun x => k))
  (at level 61, c at next level, right associativity) : io_scope.
Notation "c ;;; k" := (bind c (fun _ => k))
  (at level 61, right associativity) : io_scope.
Notation "' pat <- c ;; k" :=
  (bind c (fun x => match x with pat => k end))
  (at level 61, pat pattern, c at next level, right associativity) : io_scope.
Open Scope io_scope.

Definition emit (e : IO) : M unit :=
  fun w => (tt, mkWorld (now w) (trace w ++ [e]) (oracle w)).

Definition usb_outcome : M bool :=
  fun w =>
    match oracle w with
    | [] => (true, w)
    | b :: rest => (b, mkWorld (now w) (trace w) rest)
    end.

(** [time.Sleep] *)
Definition sleep (d : Z) : M unit :=
  fun w => (tt, mkWorld (now w + d) (trace w) (oracle w)).

(** [time.Now] *)
Definition Now : M Time := fun w => (At (now w), w).

(** [time.Since] *)
Definition Since (t : Time) : M Z :=
  fun w =>
    (match t with
     | ZeroTime => maxInt64
     | At u => saturate64 (now w - u)
     end, w).

(** ** Package aoa *)

Module aoa.

Definition R1VendorID : Z := 0x0e8d.
Definition R1ProductID : Z := 0x2304.

Definition reqRegisterHID : Z := 54.
Definition reqUnregisterHID : Z := 55.
Definition reqSetHIDDesc : Z := 56.
Definition reqSendHIDEvent : Z := 57.

Definition bmRequestTypeOut : Z := 0x40.

Definition usbTimeout : Z := 1000 * Millisecond.

(** [DescriptorType] is an [int] with five named values. *)
Definition DescriptorType : Type := Z.
Definition DescKeyboard : DescriptorType := 0.
Definition DescConsumerControl : DescriptorType := 1.
Definition DescSystemControl : DescriptorType := 2.
Definition DescCameraControl : DescriptorType := 3.
Definition DescTouchScreen : DescriptorType := 4.

Definition keyboardDescriptor : list Z :=
  [0x05; 0x01; 0x09; 0x06; 0xA1; 0x01; 0x05; 0x07; 0x19; 0xE0; 0x29; 0xE7;
   0x15; 0x00; 0x25; 0x01; 0x75; 0x01; 0x95; 0x08; 0x81; 0x02; 0x95; 0x01;
   0x75; 0x08; 0x81; 0x01; 0x95; 0x06; 0x75; 0x08; 0x15; 0x00; 0x26; 0xFF;
   0x00; 0x05; 0x07; 0x19; 0x00; 0x29; 0xFF; 0x81; 0x00; 0xC0].

Definition consumerDescriptor : list Z :=
  [0x05; 0x0C; 0x09; 0x01; 0xA1; 0x01; 0x15; 0x00; 0x26; 0xFF; 0x0F; 0x19;
   0x00; 0x2A; 0xFF; 0x0F; 0x75; 0x10; 0x95; 0x01; 0x81; 0x00; 0xC0].

Definition systemControlDescriptor : list Z :=
  [0x05; 0x01; 0x09; 0x80; 0xA1; 0x01; 0x15; 0x01; 0x25; 0x03; 0x09; 0x81;
   0x09; 0x82; 0x09; 0x83; 0x75; 0x08; 0x95; 0x01; 0x81; 0x00; 0xC0].

Definition cameraControlDescriptor : list Z :=
  [0x05; 0x90; 0x09; 0x20; 0xA1; 0x01; 0x15; 0x00; 0x25; 0x01; 0x75; 0x01;
   0x95; 0x01; 0x09; 0x20; 0x81; 0x02; 0x09; 0x21; 0x81; 0x02; 0x95; 0x06;
   0x81; 0x03; 0xC0].

Definition touchScreenDescriptor : list Z :=
  [0x05; 0x0D; 0x09; 0x04; 0xA1; 0x01; 0x09; 0x22; 0xA1; 0x02; 0x09; 0x42;
   0x15; 0x00; 0x25; 0x01; 0x75; 0x01; 0x95; 0x01; 0x81; 0x02; 0x09; 0x32;
   0x81; 0x02; 0x75; 0x06; 0x95; 0x01; 0x81; 0x03; 0x05; 0x01; 0x09; 0x30;
   0x15; 0x00; 0x26; 0xFF; 0x7F; 0x75; 0x10; 0x95; 0x01; 0x81; 0x02; 0x09;
   0x31; 0x81; 0x02; 0xC0; 0xC0].

(** [TouchReport]: [x] and [y] are [uint16]; [byte(_)] keeps the low eight
    bits. *)
Definition TouchReport (tip : bool) (x y : Z) : list Z :=
  let flags := if tip then 0x03 else 0x00 in
  [flags;
   wrap8 (Z.land x 0xFF); wrap8 (Z.shiftr x 8);
   wrap8 (Z.land y 0xFF); wrap8 (Z.shiftr y 8)].

Definition GetDescriptor (dt : DescriptorType) : option (list Z) :=
  if dt =? DescKeyboard then Some keyboardDescriptor
  else if dt =? DescConsumerControl then Some consumerDescriptor
  else if dt =? DescSystemControl then Some systemControlDescriptor
  else if dt =? DescCameraControl then Some cameraControlDescriptor
  else if dt =? DescTouchScreen then Some touchScreenDescriptor
  else None.

(** [Device]: the libusb context and handle are the [UsbDev] the session
    was opened on; [serial] is never assigned. *)
Record Device : Type := mkDevice {
  handle : UsbDev;
  serial : string;
  nextHIDID : Z;
  registered : list Z;
  lastHIDID : Z
}.

Definition set_nextHIDID (v : Z) (d : Device) : Device :=
  mkDevice (handle d) (serial d) v (registered d) (lastHIDID d).
Definition set_registered (v : list Z) (d : Device) : Device :=
  mkDevice (handle d) (serial d) (nextHIDID d) v (lastHIDID d).
Definition set_lastHIDID (v : Z) (d : Device) : Device :=
  mkDevice (handle d) (serial d) (nextHIDID d) (registered d) v.

(** [OpenDevices]' filter. *)
Definition isR1 (u : UsbDev) : bool :=
  (usb_vendor u =? R1VendorID) && (usb_product u =? R1ProductID).

(** The loop of [Open] over the opened devices; [dev] is the variable it
    assigns. *)
Fixpoint Open_select (filter : string) (devs : list UsbDev)
         (dev : option UsbDev) : M (option UsbDev) :=
  match devs with
  | [] => ret dev
  | d :: rest =>
      emit (ReadSerial d (match usb_serial d with Some _ => true | None => false end)) ;;;
      let s := match usb_serial d with Some s => s | None => EmptyString end in
      if String.eqb filter EmptyString || String.eqb s filter
      then Open_select filter rest (Some d)
      else emit (CloseHandle d) ;;; Open_select filter rest dev
  end.

(** [Open]: [bus] is what is plugged in, [enum_err] whether [OpenDevices]
    reports an error besides the devices it opened. [SetAutoDetach] only
    configures the handle and leaves no entry in the trace. *)
Definition Open (bus : list UsbDev) (enum_err : bool) (filter : string)
  : M (result Device) :=
  let devs := List.filter isR1 bus in
  if enum_err && (Nat.eqb (List.length devs) 0)
  then emit CloseContext ;;; ret (Err ErrNoR1Found)
  else
    dev <- Open_select filter devs None ;;
    match dev with
    | None => emit CloseContext ;;; ret (Err (ErrSerialNotFound filter))
    | Some h => ret (Ok (mkDevice h EmptyString 1 [] 0))
    end.

Definition controlTransfer (d : Device) (bRequest wValue wIndex : Z)
           (data : list Z) : M (option error) :=
  ok <- usb_outcome ;;
  emit (Control (handle d) bmRequestTypeOut bRequest wValue wIndex data ok) ;;;
  ret (if ok then None
       else Some (ErrControlTransfer bRequest wValue wIndex ErrUsb)).

(** [RegisterDescriptor]; the Go function returns [(0, err)] on failure. *)
Definition RegisterDescriptor (dt : DescriptorType) (d : Device)
  : M (result Z * Device) :=
  match GetDescriptor dt with
  | None => ret (Err (ErrUnknownDescriptor dt), d)
  | Some desc =>
      let id := nextHIDID d in
      let d := set_nextHIDID (wrap16 (nextHIDID d + 1)) d in
      e <- controlTransfer d reqRegisterHID id
             (wrap16 (Z.of_nat (List.length desc))) [] ;;
      match e with
      | Some e => ret (Err (ErrRegisterHID e), d)
      | None =>
          e <- controlTransfer d reqSetHIDDesc id 0 desc ;;
          match e with
          | Some e =>
              controlTransfer d reqUnregisterHID id 0 [] ;;;
              ret (Err (ErrSetHIDReportDesc e), d)
          | None =>
              sleep (300 * Millisecond) ;;;
              ret (Ok id,
                   set_lastHIDID id (set_registered (registered d ++ [id]) d))
          end
      end
  end.

Definition UnregisterDescriptor (d : Device) : M (option error * Device) :=
  match List.length (registered d) with
  | O => ret (None, d)
  | S _ =>
      let id := List.last (registered d) 0 in
      let d := set_registered (List.removelast (registered d)) d in
      err <- controlTransfer d reqUnregisterHID id 0 [] ;;
      sleep (200 * Millisecond) ;;;
      ret (err, d)
  end.

Definition SendReportTo (d : Device) (hidID : Z) (report : list Z)
  : M (option error) :=
  controlTransfer d reqSendHIDEvent hidID 0 report.

Definition SendReport (d : Device) (report : list Z) : M (option error) :=
  SendReportTo d (lastHIDID d) report.

Definition TapTo (d : Device) (hidID : Z) (down up : list Z)
  : M (option error) :=
  e <- SendReportTo d hidID down ;;
  match e with
  | Some e => ret (Some (ErrKeyDown e))
  | None =>
      sleep (80 * Millisecond) ;;;
      e <- SendReportTo d hidID up ;;
      match e with
      | Some e => ret (Some (ErrKeyUp e))
      | None => ret None
      end
  end.

Definition Ping (d : Device) : M (option error) :=
  ok <- usb_outcome ;;
  emit (ReadSerial (handle d) ok) ;;;
  ret (if ok then None else Some ErrUsb).

(** The loop of [Close] over [d.registered]. *)
Fixpoint Close_unregister (d : Device) (ids : list Z) : M unit :=
  match ids with
  | [] => ret tt
  | id :: rest =>
      controlTransfer d reqUnregisterHID id 0 [] ;;;
      Close_unregister d rest
  end.

Definition Close (d : Device) : M Device :=
  Close_unregister d (registered d) ;;;
  emit (CloseHandle (handle d)) ;;;
  emit CloseContext ;;;
  ret (set_registered [] d).

(** The remaining entry points of the session. *)

Definition Tap (d : Device) (down up : list Z) : M (option error) :=
  TapTo d (lastHIDID d) down up.

Definition HoldDown (d : Device) (down : list Z) : M (option error) :=
  SendReport d down.

Definition Release (d : Device) (up : list Z) : M (option error) :=
  SendReport d up.

(** Report builders of the key tests: [scancode] is a [byte], [usage] a
    [uint16]. *)
Definition kbDown (scancode : Z) : list Z := [0; 0; scancode; 0; 0; 0; 0; 0].

Definition ccDown (usage : Z) : list Z :=
  [wrap8 (Z.land usage 0xFF); wrap8 (Z.shiftr usage 8)].

End aoa.

(** ** Package device *)

Module device.

(** System Control reports. *)
Definition powerDown : list Z := [0x01].
Definition powerUp : list Z := [0x00].
Definition wakeUp : list Z := [0x03].

Definition toggleThreshold : Z := 300 * Millisecond.
Definition keepAwakeInterval : Z := 25 * Second.

(** [Manager]; [onChange] records whether a callback is installed, its
    calls are the [Notify] entries of the trace. *)
Record Manager : Type := mkManager {
  dev : option aoa.Device;
  state : State;
  onChange : bool;
  serial : string;
  pttHIDID : Z;
  touchHIDID : Z;
  pttToggled : bool;
  pttPressTime : Time;
  swipeLeft : bool;
  keepAwake : bool;
  sleepAfterMinutes : Z;
  lastActivity : Time;
  sleeping : bool
}.

Definition set_dev (v : option aoa.Device) (m : Manager) : Manager :=
  mkManager v (state m) (onChange m) (serial m) (pttHIDID m) (touchHIDID m)
    (pttToggled m) (pttPressTime m) (swipeLeft m) (keepAwake m)
    (sleepAfterMinutes m) (lastActivity m) (sleeping m).
Definition set_state (v : State) (m : Manager) : Manager :=
  mkManager (dev m) v (onChange m) (serial m) (pttHIDID m) (touchHIDID m)
    (pttToggled m) (pttPressTime m) (swipeLeft m) (keepAwake m)
    (sleepAfterMinutes m) (lastActivity m) (sleeping m).
Definition set_pttHIDID (v : Z) (m : Manager) : Manager :=
  mkManager (dev m) (state m) (onChange m) (serial m) v (touchHIDID m)
    (pttToggled m) (pttPressTime m) (swipeLeft m) (keepAwake m)
    (sleepAfterMinutes m) (lastActivity m) (sleeping m).
Definition set_touchHIDID (v : Z) (m : Manager) : Manager :=
  mkManager (dev m) (state m) (onChange m) (serial m) (pttHIDID m) v
    (pttToggled m) (pttPressTime m) (swipeLeft m) (keepAwake m)
    (sleepAfterMinutes m) (lastActivity m) (sleeping m).
Definition set_pttToggled (v : bool) (m : Manager) : Manager :=
  mkManager (dev m) (state m) (onChange m) (serial m) (pttHIDID m)
    (touchHIDID m) v (pttPressTime m) (swipeLeft m) (keepAwake m)
    (sleepAfterMinutes m) (lastActivity m) (sleeping m).
Definition set_pttPressTime (v : Time) (m : Manager) : Manager :=
  mkManager (dev m) (state m) (onChange m) (serial m) (pttHIDID m)
    (touchHIDID m) (pttToggled m) v (swipeLeft m) (keepAwake m)
    (sleepAfterMinutes m) (lastActivity m) (sleeping m).
Definition set_swipeLeft (v : bool) (m : Manager) : Manager :=
  mkManager (dev m) (state m) (onChange m) (serial m) (pttHIDID m)
    (touchHIDID m) (pttToggled m) (pttPressTime m) v (keepAwake m)
    (sleepAfterMinutes m) (lastActivity m) (sleeping m).
Definition set_keepAwake (v : bool) (m : Manager) : Manager :=
  mkManager (dev m) (state m) (onChange m) (serial m) (pttHIDID m)
    (touchHIDID m) (pttToggled m) (pttPressTime m) (swipeLeft m) v
    (sleepAfterMinutes m) (lastActivity m) (sleeping m).
Definition set_sleepAfterMinutes (v : Z) (m : Manager) : Manager :=
  mkManager (dev m) (state m) (onChange m) (serial m) (pttHIDID m)
    (touchHIDID m) (pttToggled m) (pttPressTime m) (swipeLeft m) (keepAwake m) v (lastActivity m) (sleeping m).
Definition set_lastActivity (v : Time) (m : Manager) : Manager :=
  mkManager (dev m) (state m) (onChange m) (serial m) (pttHIDID m)
    (touchHIDID m) (pttToggled m) (pttPressTime m) (swipeLeft m) (keepAwake m) (sleepAfterMinutes m) v (sleeping m).
Definition set_sleeping (v : bool) (m : Manager) : Manager :=
  mkManager (dev m) (state m) (onChange m) (serial m) (pttHIDID m)
    (touchHIDID m) (pttToggled m) (pttPressTime m) (swipeLeft m) (keepAwake m) (sleepAfterMinutes m) (lastActivity m) v.

Definition State_eqb (a b : State) : bool :=
  match a, b with
  | Disconnected, Disconnected | Connected, Connected
  | PTTActive, PTTActive => true
  | _, _ => false
  end.

(** [float64(z)] for an integer [z] of magnitude below [2^63]. *)
Definition float64_of_Z (z : Z) : float :=
  match z with
  | Z0 => PrimFloat.zero
  | Zpos _ => PrimFloat.of_uint63 (Uint63.of_Z z)
  | Zneg p => PrimFloat.opp (PrimFloat.of_uint63 (Uint63.of_Z (Zpos p)))
  end.

(** The integer part of a finite float, rounded toward zero. *)
Definition trunc_float64 (f : float) : Z :=
  match Prim2SF f with
  | S754_finite s mant e =>
      let mag := if 0 <=? e then Zpos mant * 2 ^ e
                 else Z.quot (Zpos mant) (2 ^ (- e)) in
      if s then - mag else mag
  | _ => 0
  end.

(** [uint16(f)] *)
Definition uint16_of_float64 (f : float) : Z := wrap16 (trunc_float64 f).

Definition NewManager (serial : string) (onChange : bool) : M Manager :=
  t <- Now ;;
  ret (mkManager None Disconnected onChange serial 0 0 false ZeroTime
         true true 60 t false).

Definition SetKeepAwake (enabled : bool) (sleepAfterMinutes : Z)
           (m : Manager) : M Manager :=
  let m := set_keepAwake enabled m in
  let m := set_sleepAfterMinutes sleepAfterMinutes m in
  t <- Now ;;
  ret (set_sleeping false (set_lastActivity t m)).

Definition touchActivity (m : Manager) : M Manager :=
  t <- Now ;;
  ret (set_sleeping false (set_lastActivity t m)).

(** [if m.onChange != nil { m.onChange(s) }] *)
Definition notify (m : Manager) (s : State) : M unit :=
  if onChange m then emit (Notify s) else ret tt.

Definition keepAwakePing (m : Manager) : M Manager :=
  match dev m with
  | None => ret m
  | Some d =>
      if negb (State_eqb (state m) Connected) then ret m
      else if negb (keepAwake m) then ret m
      else
        expired <-
          (if sleepAfterMinutes m >? 0
           then
             let idleLimit := wrap64 (sleepAfterMinutes m * Minute) in
             idle <- Since (lastActivity m) ;;
             ret (idle >=? idleLimit)
           else ret false) ;;
        if expired
        then ret (if negb (sleeping m) then set_sleeping true m else m)
        else
          aoa.SendReportTo d (pttHIDID m) wakeUp ;;;
          sleep (50 * Millisecond) ;;;
          aoa.SendReportTo d (pttHIDID m) powerUp ;;;
          sleep (150 * Millisecond) ;;;
          let touchDown := aoa.TouchReport true 32590 32590 in
          let touchUp := aoa.TouchReport false 32590 32590 in
          aoa.SendReportTo d (touchHIDID m) touchDown ;;;
          sleep (30 * Millisecond) ;;;
          aoa.SendReportTo d (touchHIDID m) touchUp ;;;
          ret m
  end.

(** [tryConnect]; [bus] and [enum_err] are what [aoa.Open] finds. *)
Definition tryConnect (bus : list UsbDev) (enum_err : bool) (m : Manager)
  : M Manager :=
  r <- aoa.Open bus enum_err (serial m) ;;
  match r with
  | Err _ => ret m
  | Ok d =>
      '(r, d) <- aoa.RegisterDescriptor aoa.DescSystemControl d ;;
      match r with
      | Err _ => aoa.Close d ;;; ret m
      | Ok pttID =>
          '(r, d) <- aoa.RegisterDescriptor aoa.DescTouchScreen d ;;
          match r with
          | Err _ => aoa.Close d ;;; ret m
          | Ok touchID =>
              let m := set_dev (Some d) m in
              let m := set_state Connected m in
              let m := set_pttHIDID pttID m in
              let m := set_touchHIDID touchID m in
              let m := set_pttToggled false m in
              t <- Now ;;
              let m := set_lastActivity t m in
              let m := set_sleeping false m in
              notify m Connected ;;;
              keepAwakePing m
          end
      end
  end.

Definition healthCheck (m : Manager) : M Manager :=
  match dev m with
  | None => ret m
  | Some d =>
      e <- aoa.Ping d ;;
      match e with
      | None => ret m
      | Some _ =>
          aoa.Close d ;;;
          let m := set_dev None m in
          let m := set_state Disconnected m in
          let m := set_pttToggled false m in
          notify m Disconnected ;;;
          ret m
      end
  end.

(** [wake]: called with [m.dev = d]. *)
Definition wake (m : Manager) (d : aoa.Device) : M unit :=
  e <- aoa.SendReportTo d (pttHIDID m) wakeUp ;;
  match e with
  | Some _ => ret tt
  | None =>
      sleep (50 * Millisecond) ;;;
      aoa.SendReportTo d (pttHIDID m) powerUp ;;;
      sleep (100 * Millisecond)
  end.

Definition handleError (m : Manager) : M Manager :=
  m <- match dev m with
       | Some d => aoa.Close d ;;; ret (set_dev None m)
       | None => ret m
       end ;;
  let m := set_state Disconnected m in
  let m := set_pttToggled false m in
  notify m Disconnected ;;;
  ret m.

Definition PTTDown (m : Manager) : M (option error * Manager) :=
  match dev m with
  | None => ret (Some ErrNoDevice, m)
  | Some d =>
      t <- Now ;;
      let m := set_pttPressTime t m in
      m <- touchActivity m ;;
      if pttToggled m then ret (None, m)
      else
        wake m d ;;;
        e <- aoa.SendReportTo d (pttHIDID m) powerDown ;;
        match e with
        | Some err => m <- handleError m ;; ret (Some err, m)
        | None =>
            let m := set_state PTTActive m in
            notify m PTTActive ;;;
            ret (None, m)
        end
  end.

Definition PTTUp (m : Manager) : M (option error * Manager) :=
  match dev m with
  | None => ret (Some ErrNoDevice, m)
  | Some d =>
      duration <- Since (pttPressTime m) ;;
      if duration <? toggleThreshold
      then
        if pttToggled m
        then
          let m := set_pttToggled false m in
          e <- aoa.SendReportTo d (pttHIDID m) powerUp ;;
          match e with
          | Some err => m <- handleError m ;; ret (Some err, m)
          | None =>
              let m := set_state Connected m in
              notify m Connected ;;;
              ret (None, m)
          end
        else ret (None, set_pttToggled true m)
      else
        let m := set_pttToggled false m in
        e <- aoa.SendReportTo d (pttHIDID m) powerUp ;;
        match e with
        | Some err => m <- handleError m ;; ret (Some err, m)
        | None =>
            let m := set_state Connected m in
            notify m Connected ;;;
            ret (None, m)
        end
  end.

Definition swipe_y : Z := 32590.
Definition swipe_steps : Z := 8.

(** [x := uint16(float64(startX) + t*float64(int(endX)-int(startX)))] with
    [t := float64(i) / float64(steps)], in IEEE binary64. *)
Definition swipe_x (startX endX i : Z) : Z :=
  let t := PrimFloat.div (float64_of_Z i) (float64_of_Z swipe_steps) in
  uint16_of_float64
    (PrimFloat.add (float64_of_Z startX)
                   (PrimFloat.mul t (float64_of_Z (endX - startX)))).

(** The loop [for i := 0; i <= steps; i++] of [Swipe], with [n] iterations
    left to run from index [i]. *)
Fixpoint Swipe_loop (n : nat) (i : Z) (startX endX : Z) (d : aoa.Device)
         (m : Manager) : M (option error * Manager) :=
  match n with
  | O => ret (None, m)
  | S n' =>
      let report := aoa.TouchReport true (swipe_x startX endX i) swipe_y in
      e <- aoa.SendReportTo d (touchHIDID m) report ;;
      match e with
      | Some err => m <- handleError m ;; ret (Some (ErrSwipeStep i err), m)
      | None =>
          (if i <? swipe_steps then sleep (25 * Millisecond) else ret tt) ;;;
          Swipe_loop n' (i + 1) startX endX d m
      end
  end.

Definition Swipe (m : Manager) : M (option error * Manager) :=
  match dev m with
  | None => ret (Some ErrNoDevice, m)
  | Some d =>
      m <- touchActivity m ;;
      wake m d ;;;
      let '(startX, endX) :=
        if swipeLeft m then (27000, 5000) else (5000, 27000) in
      let m := set_swipeLeft (negb (swipeLeft m)) m in
      '(e, m) <- Swipe_loop 9 0 startX endX d m ;;
      match e with
      | Some err => ret (Some err, m)
      | None =>
          let liftReport := aoa.TouchReport false endX swipe_y in
          e <- aoa.SendReportTo d (touchHIDID m) liftReport ;;
          match e with
          | Some err => m <- handleError m ;; ret (Some (ErrSwipeLift err), m)
          | None => ret (None, m)
          end
      end
  end.

Definition Close (m : Manager) : M Manager :=
  m <- match dev m with
       | Some d =>
           (if State_eqb (state m) PTTActive
            then aoa.SendReportTo d (pttHIDID m) powerUp ;;; ret tt
            else ret tt) ;;;
           aoa.Close d ;;;
           ret (set_dev None m)
       | None => ret m
       end ;;
  let m := set_state Disconnected m in
  ret (set_pttToggled false m).

(** One poll tick of [Run]. *)
Definition Run_poll (bus : list UsbDev) (enum_err : bool) (m : Manager)
  : M Manager :=
  if State_eqb (state m) Disconnected
  then tryConnect bus enum_err m
  else healthCheck m.

(** What can happen to a manager: the calls of its callers and of its own
    loop, and time passing. *)
Inductive Event : Type :=
| EvWait (ns : N)
| EvConnect (bus : list UsbDev) (enum_err : bool)
| EvHealth
| EvPoll (bus : list UsbDev) (enum_err : bool)
| EvTick
| EvPTTDown
| EvPTTUp
| EvSwipe
| EvSetKeepAwake (enabled : bool) (sleepAfterMinutes : Z)
| EvClose.

Definition step (e : Event) (m : Manager) : M Manager :=
  match e with
  | EvWait ns => sleep (Z.of_N ns) ;;; ret m
  | EvConnect bus enum_err => tryConnect bus enum_err m
  | EvHealth => healthCheck m
  | EvPoll bus enum_err => Run_poll bus enum_err m
  | EvTick => keepAwakePing m
  | EvPTTDown => '(_, m) <- PTTDown m ;; ret m
  | EvPTTUp => '(_, m) <- PTTUp m ;; ret m
  | EvSwipe => '(_, m) <- Swipe m ;; ret m
  | EvSetKeepAwake enabled mins => SetKeepAwake enabled mins m
  | EvClose => Close m
  end.

Fixpoint run (evs : list Event) (m : Manager) : M Manager :=
  match evs with
  | [] => ret m
  | e :: rest => m <- step e m ;; run rest m
  end.

End device.

(** ** Package config: how a hotkey is shown *)

(** A Go string is its bytes, a Rocq [string]. *)

Module config.

Record HotkeyConfig : Type := mkHotkeyConfig {
  Modifiers : list string;
  Key : string
}.

(** [string(b)] for a byte [b]: the UTF-8 encoding of the code point. *)
Definition string_of_byte (b : Z) : string :=
  if b <? 128
  then String (Ascii.ascii_of_N (Z.to_N b)) EmptyString
  else String (Ascii.ascii_of_N (Z.to_N (Z.lor 192 (Z.shiftr b 6))))
         (String (Ascii.ascii_of_N (Z.to_N (Z.lor 128 (Z.land b 63))))
            EmptyString).

(** [HotkeyConfig.String] *)
Definition HotkeyConfig_String (h : HotkeyConfig) : string :=
  let s :=
    fold_left
      (fun (s m : string) =>
         if String.eqb m "ctrl" then s ++ "Ctrl+"
         else if String.eqb m "shift" then s ++ "Shift+"
         else if String.eqb m "alt" then s ++ "Alt+"
         else if String.eqb m "super" then s ++ "Super+"
         else s)%string
      (Modifiers h) EmptyString in
  if Nat.eqb (String.length (Key h)) 1
  then
    match Key h with
    | String c _ =>
        (s ++ string_of_byte (wrap8 (Z.of_N (Ascii.N_of_ascii c) - 32)))%string
    | EmptyString => s
    end
  else (s ++ Key h)%string.

End config.

(** ** Package hotkey: key names *)

Module hotkey.

Inductive error : Type :=
| ErrUnsupportedKeyCode (jsCode : string).

Definition jsCodeToName : list (string * string) :=
  [("KeyA", "a"); ("KeyB", "b"); ("KeyC", "c"); ("KeyD", "d");
   ("KeyE", "e"); ("KeyF", "f"); ("KeyG", "g"); ("KeyH", "h");
   ("KeyI", "i"); ("KeyJ", "j"); ("KeyK", "k"); ("KeyL", "l");
   ("KeyM", "m"); ("KeyN", "n"); ("KeyO", "o"); ("KeyP", "p");
   ("KeyQ", "q"); ("KeyR", "r"); ("KeyS", "s"); ("KeyT", "t");
   ("KeyU", "u"); ("KeyV", "v"); ("KeyW", "w"); ("KeyX", "x");
   ("KeyY", "y"); ("KeyZ", "z");
   ("Digit0", "0"); ("Digit1", "1"); ("Digit2", "2"); ("Digit3", "3");
   ("Digit4", "4"); ("Digit5", "5"); ("Digit6", "6"); ("Digit7", "7");
   ("Digit8", "8"); ("Digit9", "9");
   ("F1", "f1"); ("F2", "f2"); ("F3", "f3"); ("F4", "f4");
   ("F5", "f5"); ("F6", "f6"); ("F7", "f7"); ("F8", "f8");
   ("F9", "f9"); ("F10", "f10"); ("F11", "f11"); ("F12", "f12");
   ("F13", "f13"); ("F14", "f14"); ("F15", "f15"); ("F16", "f16");
   ("F17", "f17"); ("F18", "f18"); ("F19", "f19"); ("F20", "f20");
   ("Space", "space"); ("Enter", "return"); ("Escape", "escape");
   ("Backspace", "delete"); ("Tab", "tab");
   ("ArrowUp", "up"); ("ArrowDown", "down");
   ("ArrowLeft", "left"); ("ArrowRight", "right")]%string.

(** [JSCodeToKeyName]: the name and [nil], or the empty string and an
    error. *)
Definition JSCodeToKeyName (jsCode : string) : string * option error :=
  match find (fun p => String.eqb (fst p) jsCode) jsCodeToName with
  | Some (_, name) => (name, None)
  | None => (EmptyString, Some (ErrUnsupportedKeyCode jsCode))
  end.

End hotkey.

(** ** Observations on worlds and traces *)

(** What a computation appends to the trace. *)
Definition emitted {A : Type} (c : M A) (w : World) : list IO :=
  skipn (List.length (trace w)) (trace (snd (c w))).

(** A computation that never sets the clock back. *)
Definition Mono {A : Type} (c : M A) : Prop :=
  forall w : World, now w <= now (snd (c w)).

(** The outcome of the next transfer, and of the [n] next ones. *)
Definition next_ok (w : World) : bool := hd true (oracle w).

Fixpoint outcomes (n : nat) (o : list bool) : list bool :=
  match n with
  | O => []
  | S n' => hd true o :: outcomes n' (tl o)
  end.

(** The ids ([wValue]) of the control requests with code [req], in the
    order of the trace. *)
Definition request_ids (req : Z) (tr : list IO) : list Z :=
  flat_map (fun e =>
              match e with
              | Control _ _ bRequest wValue _ _ _ =>
                  if bRequest =? req then [wValue] else []
              | _ => []
              end) tr.

Definition is_send_event (e : IO) : bool :=
  match e with
  | Control _ _ bRequest _ _ _ _ => bRequest =? aoa.reqSendHIDEvent
  | _ => false
  end.

(** The unregister request of [Close] for the id [fst p], with outcome
    [snd p]. *)
Definition unregister_request (d : aoa.Device) (p : Z * bool) : IO :=
  Control (aoa.handle d) aoa.bmRequestTypeOut aoa.reqUnregisterHID
          (fst p) 0 [] (snd p).

(** An enumerated device passes the serial filter of [Open]. *)
Definition serial_matches (filter : string) (u : UsbDev) : bool :=
  String.eqb filter EmptyString
  || String.eqb (match usb_serial u with Some s => s | None => EmptyString end)
                filter.

Definition candidates (filter : string) (bus : list UsbDev) : list UsbDev :=
  List.filter (serial_matches filter) (List.filter aoa.isR1 bus).

(** The session [Open] returns on the device [h]. *)
Definition fresh_session (h : UsbDev) : aoa.Device :=
  aoa.mkDevice h EmptyString 1 [] 0.

(** Successive [RegisterDescriptor] calls on one session. *)
Fixpoint register_all (dts : list aoa.DescriptorType) (d : aoa.Device)
  : M (list (result Z) * aoa.Device) :=
  match dts with
  | [] => ret ([], d)
  | dt :: rest =>
      '(r, d) <- aoa.RegisterDescriptor dt d ;;
      '(rs, d) <- register_all rest d ;;
      ret (r :: rs, d)
  end.

Definition known (dt : aoa.DescriptorType) : Prop :=
  aoa.GetDescriptor dt <> None.

(** The ids of the successful registrations among [rs]. *)
Definition granted (rs : list (result Z)) : list Z :=
  flat_map (fun r => match r with Ok id => [id] | Err _ => [] end) rs.

(** The ids [n] id-consuming calls draw from a counter that stands at
    [n0]. *)
Definition drawn_ids (n0 : Z) (n : nat) : list Z :=
  map (fun k => wrap16 (n0 + Z.of_nat k)) (seq 0 n).

(** The touch-report contract in the words of the design document. *)
Definition encodeTouchReport_spec (touching : bool) (x y : Z) : list Z :=
  [if touching then 0x03 else 0x00;
   Z.land x 0xFF; Z.shiftr x 8; Z.land y 0xFF; Z.shiftr y 8].

(** The send-event transfer of [report] to the HID id [hid]. *)
Definition send_event (d : aoa.Device) (hid : Z) (ok : bool)
           (report : list Z) : IO :=
  Control (aoa.handle d) aoa.bmRequestTypeOut aoa.reqSendHIDEvent hid 0
          report ok.

(** The observer's share of a transition. *)
Definition notes (m : device.Manager) (s : State) : list IO :=
  if device.onChange m then [Notify s] else [].

(** The manager after [touchActivity] at the time of [w]. *)
Definition touched (m : device.Manager) (w : World) : device.Manager :=
  device.set_sleeping false (device.set_lastActivity (At (now w)) m).

(** The manager after [handleError]. *)
Definition dropped (m : device.Manager) : device.Manager :=
  device.set_pttToggled false
    (device.set_state Disconnected (device.set_dev None m)).

(** The manager after a release that went through. *)
Definition released (m : device.Manager) : device.Manager :=
  device.set_state Connected (device.set_pttToggled false m).

(** Time between the recorded press and the clock of [w], as [PTTUp]
    measures it. *)
Definition elapsed_since_press (m : device.Manager) (w : World) : Z :=
  fst (Since (device.pttPressTime m) w).

(** The index of the first failing transfer among the [n] next ones. *)
Fixpoint first_failure (n : nat) (o : list bool) : option nat :=
  match n with
  | O => None
  | S n' =>
      if hd true o then option_map S (first_failure n' (tl o)) else Some O
  end.

(** [i, i+1, ..., i+n-1] *)
Definition zseq (i : Z) (n : nat) : list Z :=
  map (fun k => i + Z.of_nat k) (seq 0 n).

(** The reports of one swipe gesture, as [Swipe] computes them: nine
    touch-downs and the lift. *)
Definition down_report (startX endX i : Z) : list Z :=
  aoa.TouchReport true (device.swipe_x startX endX i) device.swipe_y.

Definition swipe_reports (startX endX : Z) : list (list Z) :=
  map (down_report startX endX) (zseq 0 9)
  ++ [aoa.TouchReport false endX device.swipe_y].

(** The interpolation in the words of the design document: the value
    [start + (i/8)(end - start)], truncated toward zero. *)
Definition swipe_x_spec (startX endX i : Z) : Z :=
  Z.quot (8 * startX + i * (endX - startX)) 8.

(** The ten reports of a gesture in the words of the design document. *)
Definition swipe_reports_spec (startX endX : Z) : list (list Z) :=
  map (fun i => aoa.TouchReport true (swipe_x_spec startX endX i) 32590)
      [0; 1; 2; 3; 4; 5; 6; 7; 8]
  ++ [aoa.TouchReport false endX 32590].

Definition swipe_start (m : device.Manager) : Z :=
  if device.swipeLeft m then 27000 else 5000.
Definition swipe_end (m : device.Manager) : Z :=
  if device.swipeLeft m then 5000 else 27000.

(** The manager after a gesture that went through. *)
Definition swiped (m : device.Manager) (w : World) : device.Manager :=
  device.set_swipeLeft (negb (device.swipeLeft m)) (touched m w).

(** The [Swipe] invocations of [evs] that find a session. *)
Fixpoint swipes_served (evs : list device.Event) (m : device.Manager)
         (w : World) : nat :=
  match evs with
  | [] => O
  | e :: rest =>
      (match e, device.dev m with
       | device.EvSwipe, Some _ => 1
       | _, _ => 0
       end
       + swipes_served rest (fst (device.step e m w))
                       (snd (device.step e m w)))%nat
  end.

(** Press and release come in pairs: a key-up is delivered only after a
    key-down that no key-up has answered yet. [pending] tells whether a
    key-down is waiting for its key-up. *)
Definition next_pending (e : device.Event) (pending : bool) : bool :=
  match e with
  | device.EvPTTDown => true
  | device.EvPTTUp => false
  | _ => pending
  end.

Fixpoint paired_from (pending : bool) (evs : list device.Event) : bool :=
  match evs with
  | [] => true
  | e :: rest =>
      match e with device.EvPTTUp => pending | _ => true end
      && paired_from (next_pending e pending) rest
  end.

Definition paired (evs : list device.Event) : bool := paired_from false evs.

(** Time since the last recorded activity; for the zero time, which
    [NewManager] never leaves in [lastActivity], the bound at which
    [time.Since] saturates. *)
Definition idle_time (m : device.Manager) (w : World) : Z :=
  match device.lastActivity m with
  | ZeroTime => maxInt64
  | At t => now w - t
  end.

(** The manager after a successful [tryConnect], before its first
    keep-awake ping. *)
Definition connected_as (m : device.Manager) (d : aoa.Device)
           (pttID touchID : Z) (t : Time) : device.Manager :=
  device.mkManager (Some d) Connected (device.onChange m) (device.serial m)
    pttID touchID false (device.pttPressTime m) (device.swipeLeft m)
    (device.keepAwake m) (device.sleepAfterMinutes m) t false.

(** A session is held exactly in the states other than Disconnected. *)
Definition session_iff_connected (m : device.Manager) : Prop :=
  device.dev m = None <-> device.state m = Disconnected.

(** What holds of a manager driven by paired presses and releases. *)
Definition paired_inv (pending : bool) (m : device.Manager) (w : World)
  : Prop :=
  (device.pttToggled m = true -> device.state m = PTTActive)
  /\ session_iff_connected m
  /\ (forall t, device.pttPressTime m = At t -> t <= now w)
  /\ (pending = true -> device.state m = Connected ->
      device.toggleThreshold <= elapsed_since_press m w).

(** A manager from [NewManager] taken through [evs], with the world it
    ends in. *)
Definition history (filter : string) (cb : bool) (evs : list device.Event)
           (w : World) : device.Manager * World :=
  (m <- device.NewManager filter cb ;; device.run evs m) w.

(** The handles a trace releases, in order. *)
Definition closed_handles (tr : list IO) : list UsbDev :=
  flat_map (fun e => match e with CloseHandle h => [h] | _ => [] end) tr.

Definition is_notify (e : IO) : bool :=
  match e with
  | Notify _ => true
  | _ => false
  end.

(** The two requests of a registration of [desc] under [id]. *)
Definition register_request (d : aoa.Device) (id : Z) (desc : list Z)
           (ok : bool) : IO :=
  Control (aoa.handle d) aoa.bmRequestTypeOut aoa.reqRegisterHID id
          (Z.of_nat (List.length desc)) [] ok.

Definition set_descriptor_request (d : aoa.Device) (id : Z) (desc : list Z)
           (ok : bool) : IO :=
  Control (aoa.handle d) aoa.bmRequestTypeOut aoa.reqSetHIDDesc id 0 desc ok.

(** The session after a call of [RegisterDescriptor] that drew the id
    [nextHIDID d]: when it failed, and when it succeeded. *)
Definition id_drawn (d : aoa.Device) : aoa.Device :=
  aoa.set_nextHIDID (wrap16 (aoa.nextHIDID d + 1)) d.

Definition id_registered (d : aoa.Device) : aoa.Device :=
  aoa.set_lastHIDID (aoa.nextHIDID d)
    (aoa.set_registered (aoa.registered d ++ [aoa.nextHIDID d]) (id_drawn d)).

(** What the loop of [Open] does with one opened device. *)
Definition Open_visit (filter : string) (u : UsbDev) : list IO :=
  ReadSerial u (match usb_serial u with Some _ => true | None => false end)
  :: (if serial_matches filter u then [] else [CloseHandle u]).

(** What [aoa.Close] appends to the trace when the next outcomes are [o]. *)
Definition teardown (d : aoa.Device) (o : list bool) : list IO :=
  map (unregister_request d)
      (combine (aoa.registered d)
               (outcomes (List.length (aoa.registered d)) o))
  ++ [CloseHandle (aoa.handle d); CloseContext].

(** The manager after [PTTDown] has recorded the press, at the time of
    [w]. *)
Definition pressed (m : device.Manager) (w : World) : device.Manager :=
  touched (device.set_pttPressTime (At (now w)) m) w.

(** The four reports of a keep-awake ping, the last three with the
    outcomes [o2], [o3], [o4]. *)
Definition ping_reports (m : device.Manager) (d : aoa.Device)
           (o1 o2 o3 o4 : bool) : list IO :=
  [send_event d (device.pttHIDID m) o1 device.wakeUp;
   send_event d (device.pttHIDID m) o2 device.powerUp;
   send_event d (device.touchHIDID m) o3
              (aoa.TouchReport true 32590 32590);
   send_event d (device.touchHIDID m) o4
              (aoa.TouchReport false 32590 32590)].

(** The clock once [evs] are through, that is, at the call that comes
    next. *)
Definition clock_after (evs : list device.Event) (m : device.Manager)
           (w : World) : Z :=
  now (snd (device.run evs m w)).

(** The session the manager holds once connected: ids 1 and 2 registered
    on the handle [h]. *)
Definition session_12 (h : UsbDev) : aoa.Device :=
  aoa.mkDevice h EmptyString 3 [1; 2] 2.

(** What holds of every manager made by [NewManager] for [filter] and
    [cb], whatever it is taken through. *)
Definition reachable_inv (filter : string) (cb : bool) (m : device.Manager)
  : Prop :=
  session_iff_connected m
  /\ (forall d, device.dev m = Some d ->
                d = session_12 (aoa.handle d)
                /\ device.pttHIDID m = 1 /\ device.touchHIDID m = 2)
  /\ (device.state m = Disconnected -> device.pttToggled m = false)
  /\ device.serial m = filter
  /\ device.onChange m = cb.

(** The labels [HotkeyConfig.String] knows, and the prefix they make. *)
Definition modifier_labels : list (string * string) :=
  [("ctrl", "Ctrl+"); ("shift", "Shift+"); ("alt", "Alt+");
   ("super", "Super+")]%string.

Definition shown_modifiers (mods : list string) : string :=
  String.concat EmptyString
    (flat_map (fun m =>
                 match find (fun p => String.eqb (fst p) m) modifier_labels with
                 | Some (_, l) => [l]
                 | None => []
                 end) mods).

(** The one-byte string of the character [n] places before [c]. *)
Definition shifted (c : Ascii.ascii) (n : N) : string :=
  String (Ascii.ascii_of_N (Ascii.N_of_ascii c - n)) EmptyString.

(** An initial world, a plugged R1, a session with two registrations, and
    a manager toggled on by a tap and pressed again, for the examples. *)
Definition w0 : World := mkWorld 0 [] [].

Definition r1 (addr : Z) (sn : string) : UsbDev :=
  mkUsbDev addr aoa.R1VendorID aoa.R1ProductID (Some sn).

Definition toggled_on : device.Manager * World :=
  history "" true [device.EvConnect [r1 1 "R1A"] false;
           device.EvPTTDown; device.EvPTTUp; device.EvPTTDown] w0.

Definition tapped_thrice : device.Manager * World :=
  history "" true [device.EvConnect [r1 1 "R1A"] false; device.EvPTTDown;
           device.EvPTTUp; device.EvPTTUp; device.EvPTTUp] w0.

(** Connected, then left alone for 61 minutes. *)
Definition idle_61_minutes : device.Manager * World :=
  history "" true [device.EvConnect [r1 1 "R1A"] false;
           device.EvWait 3660000000000] w0.

Definition connected : device.Manager * World :=
  history "" true [device.EvConnect [r1 1 "R1A"] false] w0.

Definition two_registrations : aoa.Device * World :=
  let '(_, d, w) :=
    register_all [aoa.DescSystemControl; aoa.DescTouchScreen]
                 (fresh_session (r1 1 "R1A")) w0 in
  (d, w).

(** * Properties *)

(** ** Running computations *)

Lemma skipn_length_app {A : Type} (l l' : list A) :
  skipn (List.length l) (l ++ l') = l'.
Proof. induction l as [|a l IH]; simpl; auto. Qed.

Lemma emitted_intro {A : Type} (c : M A) (w : World) (evs : list IO) :
  trace (snd (c w)) = trace w ++ evs -> emitted c w = evs.
Proof. unfold emitted. intros ->. apply skipn_length_app. Qed.

Lemma controlTransfer_run d req v i data w :
  aoa.controlTransfer d req v i data w =
  (if next_ok w then None else Some (ErrControlTransfer req v i ErrUsb),
   mkWorld (now w)
     (trace w ++ [Control (aoa.handle d) aoa.bmRequestTypeOut req v i data
                          (next_ok w)])
     (tl (oracle w))).
Proof. destruct w as [n t [|b o]]; reflexivity. Qed.

Lemma bind_run {A B : Type} (c : M A) (k : A -> M B) (w : World) :
  bind c k w = k (fst (c w)) (snd (c w)).
Proof. unfold bind. destruct (c w); reflexivity. Qed.

(** ** The clock only moves forward *)

Lemma Mono_ret {A : Type} (a : A) : Mono (ret a).
Proof. intros w. cbn. lia. Qed.

Lemma Mono_bind {A B : Type} (c : M A) (k : A -> M B) :
  Mono c -> (forall a, Mono (k a)) -> Mono (bind c k).
Proof.
  intros Hc Hk w. rewrite bind_run.
  specialize (Hc w). specialize (Hk (fst (c w)) (snd (c w))). lia.
Qed.

Lemma Mono_emit (e : IO) : Mono (emit e).
Proof. intros w. cbn. lia. Qed.

Lemma Mono_usb_outcome : Mono usb_outcome.
Proof. intros w. unfold usb_outcome. destruct (oracle w); cbn; lia. Qed.

Lemma Mono_sleep (d : Z) : 0 <= d -> Mono (sleep d).
Proof. intros H w. cbn. lia. Qed.

Lemma Mono_Now : Mono Now.
Proof. intros w. cbn. lia. Qed.

Lemma Mono_Since (t : Time) : Mono (Since t).
Proof. intros w. cbn. lia. Qed.

Create HintDb mono.
#[global] Hint Resolve Mono_ret Mono_emit Mono_usb_outcome Mono_Now
  Mono_Since : mono.

(** Decompose a computation along its binds and case distinctions. *)
Ltac mono_step :=
  match goal with
  | |- Mono (bind _ _) => apply Mono_bind; [|intros ?]
  | |- Mono (sleep _) => apply Mono_sleep; unfold Millisecond; lia
  | |- Mono (match ?x with _ => _ end) => destruct x
  | |- Mono _ => solve [eauto with mono]
  | |- Mono _ => progress cbv zeta
  end.
Ltac mono := repeat mono_step.

Arguments wrap8 : simpl never.
Arguments wrap16 : simpl never.
Arguments wrap64 : simpl never.
Arguments saturate64 : simpl never.

Module aoa_facts.
Import aoa.

(** ** The touch report *)

Lemma byte_land (x : Z) : wrap8 (Z.land x 0xFF) = Z.land x 0xFF.
Proof.
  unfold wrap8. change 0xFF with (Z.ones 8). rewrite Z.land_ones by lia.
  change (2 ^ 8) with 256. apply Z.mod_mod. lia.
Qed.

Lemma byte_high (x : Z) : 0 <= x < 65536 -> wrap8 (Z.shiftr x 8) = Z.shiftr x 8.
Proof.
  intros H. unfold wrap8. rewrite Z.shiftr_div_pow2 by lia.
  change (2 ^ 8) with 256. apply Z.mod_small.
  split; [apply Z.div_pos; lia | apply Z.div_lt_upper_bound; lia].
Qed.

(** C8: [TouchReport] is a total function of [(tip, x, y)] which, for
    [uint16] coordinates, returns exactly the five bytes
    [flags, x&0xFF, x>>8, y&0xFF, y>>8], each one a byte, with [flags] 0x03
    when touching and 0x00 otherwise; [(true, 100, 200)] gives
    [03 64 00 C8 00] and [(false, 100, 200)] gives [00 64 00 C8 00]. *)
Theorem TouchReport_encoding :
  (forall (tip : bool) (x y : Z),
      0 <= x < 65536 -> 0 <= y < 65536 ->
      TouchReport tip x y = encodeTouchReport_spec tip x y
      /\ List.length (TouchReport tip x y) = 5%nat
      /\ Forall (fun b => 0 <= b < 256) (TouchReport tip x y))
  /\ TouchReport true 100 200 = [0x03; 0x64; 0x00; 0xC8; 0x00]
  /\ TouchReport false 100 200 = [0x00; 0x64; 0x00; 0xC8; 0x00].
Proof.
  split; [|split; reflexivity].
  intros tip x y Hx Hy. split; [|split].
  - unfold TouchReport, encodeTouchReport_spec.
    rewrite !byte_land, !byte_high by assumption. reflexivity.
  - reflexivity.
  - unfold TouchReport, wrap8.
    repeat constructor; try (destruct tip; lia);
      apply Z.mod_pos_bound; lia.
Qed.

Lemma TouchReport_encoding_witness :
  TouchReport true 27000 32590 = encodeTouchReport_spec true 27000 32590
  /\ List.length (TouchReport true 27000 32590) = 5%nat
  /\ Forall (fun b => 0 <= b < 256) (TouchReport true 27000 32590).
Proof.
  apply (proj1 TouchReport_encoding true 27000 32590); lia.
Defined.

(** ** Open *)

Lemma last_cons {A : Type} (x : A) (l : list A) (d : A) :
  last (x :: l) d = last l x.
Proof.
  revert x d. induction l as [|y l IH]; intros x d; [reflexivity|].
  change (last (x :: y :: l) d) with (last (y :: l) d).
  rewrite (IH y d), (IH y x). reflexivity.
Qed.

Lemma last_map_Some {A : Type} (l : list A) :
  forall (x : A) (d : option A), last (map Some (x :: l)) d = Some (last l x).
Proof.
  induction l as [|y l IH]; intros x d; [reflexivity|].
  cbn [map] in *. rewrite !last_cons. rewrite <- (IH y (Some x)).
  rewrite last_cons. reflexivity.
Qed.

Lemma Open_select_run (filter : string) (devs : list UsbDev) :
  forall (dev : option UsbDev) (w : World),
    fst (Open_select filter devs dev w) =
    last (map Some (List.filter (serial_matches filter) devs)) dev.
Proof.
  induction devs as [|u devs IH]; intros dev w; [reflexivity|].
  simpl. rewrite bind_run. fold (serial_matches filter u).
  destruct (serial_matches filter u).
  - rewrite IH. cbn [map]. rewrite last_cons. reflexivity.
  - rewrite bind_run, IH. reflexivity.
Qed.

Lemma Open_run (bus : list UsbDev) (enum_err : bool) (filter : string)
      (w : World) :
  fst (Open bus enum_err filter w) =
  match candidates filter bus with
  | [] => Err (if enum_err && Nat.eqb (List.length (List.filter isR1 bus)) 0
               then ErrNoR1Found else ErrSerialNotFound filter)
  | c :: cs => Ok (fresh_session (last cs c))
  end.
Proof.
  unfold Open, candidates.
  destruct (enum_err && Nat.eqb (List.length (List.filter isR1 bus)) 0) eqn:E.
  - apply andb_prop in E. destruct E as [_ E].
    destruct (List.filter isR1 bus); [reflexivity|discriminate].
  - rewrite bind_run. rewrite Open_select_run.
    destruct (List.filter (serial_matches filter) (List.filter isR1 bus))
      as [|c cs]; [reflexivity|].
    rewrite last_map_Some. reflexivity.
Qed.

Lemma last_In {A : Type} (l : list A) (x : A) : In (last l x) (x :: l).
Proof.
  revert x. induction l as [|y l IH]; intros x; [left; reflexivity|].
  rewrite last_cons. right. apply IH.
Qed.

(** C4, as the code has it: over any enumeration [bus], [Open] considers
    the devices of the R1 vendor/product identity that pass the serial
    filter (every one when the filter is empty, those whose serial equals
    it otherwise); it fails with a not-found error when there is none, and
    otherwise opens a fresh session (next id 1, nothing registered) on the
    LAST of them in enumeration order. The accepted device has the R1
    identity and, under a non-empty filter, exactly the filter's serial. *)
Theorem Open_accepts_last_candidate
        (bus : list UsbDev) (enum_err : bool) (filter : string) (w : World) :
  match candidates filter bus with
  | [] => fst (Open bus enum_err filter w) = Err ErrNoR1Found
          \/ fst (Open bus enum_err filter w) = Err (ErrSerialNotFound filter)
  | c :: cs =>
      let h := last cs c in
      fst (Open bus enum_err filter w) = Ok (fresh_session h)
      /\ In h bus /\ isR1 h = true
      /\ (filter <> EmptyString -> usb_serial h = Some filter)
      /\ (filter = EmptyString ->
          h = last (List.filter isR1 bus) c)
  end.
Proof.
  rewrite Open_run.
  destruct (candidates filter bus) as [|c cs] eqn:E.
  - destruct (enum_err && _); auto.
  - cbv zeta. split; [reflexivity|].
    assert (Hin : In (last cs c) (candidates filter bus))
      by (rewrite E; apply last_In).
    unfold candidates in Hin.
    apply filter_In in Hin. destruct Hin as [Hin Hs].
    apply filter_In in Hin. destruct Hin as [Hin Hr].
    repeat split; auto.
    + intros Hne. unfold serial_matches in Hs.
      apply orb_prop in Hs. destruct Hs as [Hs|Hs].
      * apply String.eqb_eq in Hs. contradiction.
      * apply String.eqb_eq in Hs.
        destruct (usb_serial (last cs c)); congruence.
    + intros ->. unfold candidates in E.
      assert (Hall : forall l : list UsbDev,
                 List.filter (serial_matches EmptyString) l = l).
      { induction l as [|y l IH]; [reflexivity|]. simpl. now rewrite IH. }
      rewrite Hall in E. rewrite E. now rewrite last_cons.
Qed.

(** C4, a case with a hypothesis discharged: a filter ["R1B"] on a bus
    with two R1s. *)
Lemma Open_accepts_last_candidate_witness :
  fst (Open [r1 1 "R1A"; r1 2 "R1B"] false "R1B" w0)
  = Ok (fresh_session (r1 2 "R1B"))
  /\ usb_serial (r1 2 "R1B") = Some "R1B"%string.
Proof.
  pose proof (Open_accepts_last_candidate
                [r1 1 "R1A"; r1 2 "R1B"] false "R1B" w0) as H.
  simpl in H. destruct H as (H1 & _ & _ & H2 & _).
  split; [exact H1|]. apply H2. discriminate.
Defined.

(** C4, as stated, fails: with an empty filter and two R1s plugged in,
    the first match is [r1 1], yet the session is opened on the second. *)
Lemma Open_empty_filter_not_first :
  let bus := [r1 1 "R1A"; r1 2 "R1B"] in
  hd_error (List.filter isR1 bus) = Some (r1 1 "R1A")
  /\ fst (Open bus false "" w0) = Ok (fresh_session (r1 2 "R1B"))
  /\ fresh_session (r1 2 "R1B") <> fresh_session (r1 1 "R1A").
Proof.
  split; [reflexivity|]. split; [reflexivity|]. discriminate.
Qed.

(** ** Close *)

Lemma Close_unregister_run (d : Device) (ids : list Z) :
  forall w : World,
    Close_unregister d ids w =
    (tt, mkWorld (now w)
           (trace w ++ map (unregister_request d)
                           (combine ids (outcomes (List.length ids) (oracle w))))
           (skipn (List.length ids) (oracle w))).
Proof.
  induction ids as [|id ids IH]; intros w.
  - destruct w. simpl. rewrite app_nil_r. reflexivity.
  - cbn [Close_unregister]. rewrite bind_run, controlTransfer_run.
    cbn [fst snd]. rewrite IH. cbn [now trace oracle].
    rewrite <- app_assoc. unfold next_ok.
    destruct (oracle w); [rewrite skipn_nil|]; reflexivity.
Qed.

Lemma length_outcomes (n : nat) : forall o, List.length (outcomes n o) = n.
Proof. induction n as [|n IH]; intros o; simpl; auto. Qed.

Lemma request_ids_unregister (d : Device) (ids : list Z) :
  forall oks : list bool,
    List.length oks = List.length ids ->
    request_ids reqUnregisterHID (map (unregister_request d) (combine ids oks))
    = ids.
Proof.
  induction ids as [|id ids IH]; intros [|ok oks] H; try discriminate;
    [reflexivity|].
  simpl. f_equal. apply IH. simpl in H. congruence.
Qed.

Lemma request_ids_app (req : Z) (l l' : list IO) :
  request_ids req (l ++ l') = request_ids req l ++ request_ids req l'.
Proof. apply flat_map_app. Qed.

Lemma Close_run (d : Device) (w : World) :
  Close d w =
  (set_registered [] d,
   mkWorld (now w)
     (trace w ++ map (unregister_request d)
                     (combine (registered d)
                              (outcomes (List.length (registered d)) (oracle w)))
              ++ [CloseHandle (handle d); CloseContext])
     (skipn (List.length (registered d)) (oracle w))).
Proof.
  unfold Close. rewrite bind_run, Close_unregister_run.
  cbn. rewrite <- !app_assoc. reflexivity.
Qed.

(** C3, as the code has it: [Close] issues one unregister request for
    every outstanding id, whatever the outcome of the others, in the order
    of registration (earliest first), then releases the handle and the
    context, and leaves no id registered. *)
Theorem Close_unregisters_in_registration_order (d : Device) (w : World) :
  emitted (Close d) w =
    map (unregister_request d)
        (combine (registered d)
                 (outcomes (List.length (registered d)) (oracle w)))
    ++ [CloseHandle (handle d); CloseContext]
  /\ request_ids reqUnregisterHID (emitted (Close d) w) = registered d
  /\ registered (fst (Close d w)) = [].
Proof.
  assert (E : emitted (Close d) w =
              map (unregister_request d)
                  (combine (registered d)
                     (outcomes (List.length (registered d)) (oracle w)))
              ++ [CloseHandle (handle d); CloseContext]).
  { apply emitted_intro. rewrite Close_run. reflexivity. }
  split; [exact E|]. split.
  - rewrite E, request_ids_app, request_ids_unregister.
    + apply app_nil_r.
    + apply length_outcomes.
  - rewrite Close_run. reflexivity.
Qed.

(** C3, as stated, fails: on a session that registered id 1 and then id 2,
    [Close] unregisters 1, the earliest, before 2, the most recent. *)
Lemma Close_not_LIFO :
  let '(d, w) := two_registrations in
  registered d = [1; 2]
  /\ request_ids reqUnregisterHID (emitted (Close d) w) = [1; 2]
  /\ request_ids reqUnregisterHID (emitted (Close d) w) <> rev (registered d).
Proof. vm_compute. repeat split; discriminate. Qed.

(** [UnregisterDescriptor] removes the most recent registration only. *)
Lemma UnregisterDescriptor_LIFO (d : Device) (ids : list Z) (id : Z)
      (w : World) :
  registered d = ids ++ [id] ->
  registered (snd (fst (UnregisterDescriptor d w))) = ids
  /\ request_ids reqUnregisterHID (emitted (UnregisterDescriptor d) w) = [id].
Proof.
  intros H. unfold emitted, UnregisterDescriptor. rewrite H.
  rewrite length_app, Nat.add_comm. cbn [List.length Nat.add].
  rewrite last_last, removelast_last.
  rewrite !bind_run, controlTransfer_run. cbn.
  rewrite skipn_length_app. split; reflexivity.
Qed.

(** ** RegisterDescriptor *)

Lemma RegisterDescriptor_step (dt : DescriptorType) (d : Device) (w : World) :
  known dt ->
  exists evs,
    trace (snd (RegisterDescriptor dt d w)) = trace w ++ evs
    /\ request_ids reqRegisterHID evs = [nextHIDID d]
    /\ nextHIDID (snd (fst (RegisterDescriptor dt d w)))
       = wrap16 (nextHIDID d + 1)
    /\ handle (snd (fst (RegisterDescriptor dt d w))) = handle d
    /\ (fst (fst (RegisterDescriptor dt d w)) = Ok (nextHIDID d)
        \/ exists e, fst (fst (RegisterDescriptor dt d w)) = Err e)
    /\ registered (snd (fst (RegisterDescriptor dt d w)))
       = registered d ++ granted [fst (fst (RegisterDescriptor dt d w))]
    /\ now w <= now (snd (RegisterDescriptor dt d w)).
Proof.
  unfold known, RegisterDescriptor. intros Hk.
  destruct (GetDescriptor dt) as [desc|]; [clear Hk|congruence].
  destruct w as [n t o].
  destruct o as [|[|] [|[|] [|b3 o]]]; cbn;
    eexists; (split; [rewrite <- ?app_assoc; reflexivity|]);
    cbn; rewrite ?app_nil_r; unfold Millisecond;
    repeat split; eauto; lia.
Qed.

Lemma wrap16_add_l (a k : Z) : wrap16 (wrap16 a + k) = wrap16 (a + k).
Proof. unfold wrap16. apply Zplus_mod_idemp_l. Qed.

Lemma drawn_ids_S (n0 : Z) (n : nat) :
  drawn_ids n0 (S n) = wrap16 n0 :: drawn_ids (wrap16 (n0 + 1)) n.
Proof.
  unfold drawn_ids. cbn [seq map]. rewrite Z.add_0_r. f_equal.
  rewrite <- seq_shift, map_map. apply map_ext. intros k.
  rewrite wrap16_add_l. f_equal. lia.
Qed.

Lemma register_all_run (dts : list DescriptorType) :
  forall (d : Device) (w : World),
    Forall known dts ->
    0 <= nextHIDID d < 65536 ->
    exists evs,
      trace (snd (register_all dts d w)) = trace w ++ evs
      /\ request_ids reqRegisterHID evs
         = drawn_ids (nextHIDID d) (List.length dts)
      /\ Forall2 (fun r id => r = Ok id \/ exists e, r = Err e)
                 (fst (fst (register_all dts d w)))
                 (drawn_ids (nextHIDID d) (List.length dts))
      /\ registered (snd (fst (register_all dts d w)))
         = registered d ++ granted (fst (fst (register_all dts d w)))
      /\ nextHIDID (snd (fst (register_all dts d w)))
         = wrap16 (nextHIDID d + Z.of_nat (List.length dts)).
Proof.
  induction dts as [|dt dts IH]; intros d w Hk Hn.
  - exists []. cbn. rewrite !app_nil_r, Z.add_0_r.
    repeat split; auto. unfold wrap16. now rewrite Z.mod_small.
  - inversion Hk as [|? ? Hdt Hdts]; subst.
    destruct (RegisterDescriptor_step dt d w Hdt)
      as (ev1 & Ht & Hr & Hnext & _ & Hres & Hreg & _).
    cbn [register_all]. rewrite bind_run.
    destruct (RegisterDescriptor dt d w) as [[r d1] w1]. cbn [fst snd] in *.
    rewrite bind_run.
    assert (Hn1 : 0 <= nextHIDID d1 < 65536).
    { rewrite Hnext. unfold wrap16. apply Z.mod_pos_bound. lia. }
    destruct (IH d1 w1 Hdts Hn1) as (ev2 & Ht2 & Hr2 & Hres2 & Hreg2 & Hnext2).
    destruct (register_all dts d1 w1) as [[rs d2] w2].
    unfold ret. cbn [fst snd] in *.
    exists (ev1 ++ ev2). cbn [List.length]. rewrite drawn_ids_S.
    assert (Hw : wrap16 (nextHIDID d) = nextHIDID d)
      by (unfold wrap16; now rewrite Z.mod_small).
    rewrite Hw, <- Hnext.
    split; [rewrite Ht2, Ht, app_assoc; reflexivity|].
    split; [rewrite request_ids_app, Hr, Hr2; reflexivity|].
    split; [constructor; assumption|].
    split.
    + rewrite Hreg2, Hreg. unfold granted. cbn [flat_map].
      rewrite app_nil_r, <- app_assoc. reflexivity.
    + rewrite Hnext2, Hnext, wrap16_add_l. f_equal. lia.
Qed.

Lemma drawn_ids_fresh (n : nat) :
  Z.of_nat n <= 65535 -> drawn_ids 1 n = map Z.of_nat (seq 1 n).
Proof.
  intros Hn. unfold drawn_ids. rewrite <- seq_shift, map_map.
  apply map_ext_in. intros k Hk. apply in_seq in Hk.
  unfold wrap16. rewrite Z.mod_small; lia.
Qed.

(** C5, within the range of the 16-bit counter: on a session fresh from
    [Open], any [n <= 65535] successive [RegisterDescriptor] calls (on known
    descriptor types, whatever the transfers' outcomes) issue their
    REGISTER_HID requests with the ids 1, 2, ..., n in this order; call
    [k] either returns id [k] or fails, and a failed call has consumed its
    id all the same; the registered list holds the returned ids in
    ascending order. *)
Theorem RegisterDescriptor_ids_ascend
        (dts : list DescriptorType) (h : UsbDev) (w : World) :
  Forall known dts ->
  Z.of_nat (List.length dts) <= 65535 ->
  let run := register_all dts (fresh_session h) in
  let ids := map Z.of_nat (seq 1 (List.length dts)) in
  request_ids reqRegisterHID (emitted run w) = ids
  /\ Forall2 (fun r id => r = Ok id \/ exists e, r = Err e)
             (fst (fst (run w))) ids
  /\ registered (snd (fst (run w))) = granted (fst (fst (run w)))
  /\ nextHIDID (snd (fst (run w))) = wrap16 (1 + Z.of_nat (List.length dts))
  /\ (forall i j : nat,
         (i < j < List.length dts)%nat -> nth i ids 0 < nth j ids 0).
Proof.
  intros Hk Hn run ids.
  destruct (register_all_run dts (fresh_session h) w Hk)
    as (evs & Ht & Hr & Hres & Hreg & Hnext); [cbn; lia|].
  cbn [nextHIDID registered fresh_session app] in *.
  rewrite drawn_ids_fresh in Hr, Hres by assumption.
  split; [unfold run; rewrite (emitted_intro _ _ _ Ht); exact Hr|].
  repeat split; try assumption.
  assert (Hnth : forall k : nat,
             (k < List.length dts)%nat -> nth k ids 0 = Z.of_nat (1 + k)).
  { intros k Hlt. unfold ids. change 0 with (Z.of_nat 0).
    rewrite map_nth, seq_nth by lia. reflexivity. }
  intros i j Hij. rewrite !Hnth by lia. lia.
Qed.

(** C5 on two calls of which the first fails at its first transfer: the
    second call still gets id 2. *)
Lemma RegisterDescriptor_ids_ascend_witness :
  let run := register_all [DescSystemControl; DescTouchScreen]
                          (fresh_session (r1 1 "R1A")) in
  let w := mkWorld 0 [] [false] in
  request_ids reqRegisterHID (emitted run w) = [1; 2]
  /\ fst (fst (run w))
     = [Err (ErrRegisterHID (ErrControlTransfer 54 1 23 ErrUsb)); Ok 2]
  /\ registered (snd (fst (run w))) = [2].
Proof.
  assert (Hk : Forall known [DescSystemControl; DescTouchScreen])
    by (repeat constructor; discriminate).
  destruct (RegisterDescriptor_ids_ascend
              [DescSystemControl; DescTouchScreen] (r1 1 "R1A")
              (mkWorld 0 [] [false]) Hk ltac:(simpl; lia))
    as (H1 & _ & _).
  split; [exact H1|]. split; reflexivity.
Defined.

(** C5, as stated, fails beyond the range of [uint16]: on one session the
    65536th call is given id 0, below the 65535 of the call before it, and
    the 65537th call is given id 1 again, the id of the first call. *)
Lemma RegisterDescriptor_id_reused :
  let dts := repeat DescSystemControl (Z.to_nat 65537) in
  let ids := request_ids reqRegisterHID
               (emitted (register_all dts (fresh_session (r1 1 "R1A"))) w0) in
  nth_error ids 0 = Some 1
  /\ nth_error ids (Z.to_nat 65534) = Some 65535
  /\ nth_error ids (Z.to_nat 65535) = Some 0
  /\ nth_error ids (Z.to_nat 65536) = Some 1.
Proof.
  intros dts ids.
  assert (Hk : Forall known dts).
  { apply Forall_forall. intros dt Hin. apply repeat_spec in Hin.
    subst dt. discriminate. }
  destruct (register_all_run dts (fresh_session (r1 1 "R1A")) w0 Hk)
    as (evs & Ht & Hr & _); [cbn; lia|].
  assert (E : ids = drawn_ids 1 (Z.to_nat 65537)).
  { unfold ids. rewrite (emitted_intro _ _ _ Ht), Hr.
    unfold dts. rewrite repeat_length. reflexivity. }
  rewrite E. unfold drawn_ids.
  assert (Hnth : forall k : nat,
             (k < Z.to_nat 65537)%nat ->
             nth_error (map (fun k => wrap16 (1 + Z.of_nat k))
                            (seq 0 (Z.to_nat 65537))) k
             = Some (wrap16 (1 + Z.of_nat k))).
  { intros k Hlt. rewrite nth_error_map, nth_error_seq.
    destruct (Nat.ltb_spec k (Z.to_nat 65537)); [reflexivity|lia]. }
  split; [|split; [|split]].
  - rewrite (Hnth 0%nat) by lia. reflexivity.
  - rewrite Hnth by lia. rewrite Z2Nat.id by lia. reflexivity.
  - rewrite Hnth by lia. rewrite Z2Nat.id by lia. reflexivity.
  - rewrite Hnth by lia. rewrite Z2Nat.id by lia. reflexivity.
Qed.

(** ** The clock across the session's operations *)

Lemma Mono_controlTransfer d req v i data :
  Mono (controlTransfer d req v i data).
Proof. unfold controlTransfer. mono. Qed.
#[global] Hint Resolve Mono_controlTransfer : mono.

Lemma Mono_Open_select (filter : string) (devs : list UsbDev) :
  forall dev, Mono (Open_select filter devs dev).
Proof. induction devs as [|u devs IH]; intros dev; cbn [Open_select]; mono. Qed.
#[global] Hint Resolve Mono_Open_select : mono.

Lemma Mono_Open bus enum_err filter : Mono (Open bus enum_err filter).
Proof. unfold Open. mono. Qed.

Lemma Mono_RegisterDescriptor dt d : Mono (RegisterDescriptor dt d).
Proof. unfold RegisterDescriptor. mono. Qed.

Lemma Mono_SendReportTo d hid report : Mono (SendReportTo d hid report).
Proof. unfold SendReportTo. mono. Qed.

Lemma Mono_Ping d : Mono (Ping d).
Proof. unfold Ping. mono. Qed.

Lemma Mono_Close_unregister d ids : Mono (Close_unregister d ids).
Proof. induction ids as [|id ids IH]; cbn [Close_unregister]; mono. Qed.
#[global] Hint Resolve Mono_Close_unregister : mono.

Lemma Mono_Close d : Mono (Close d).
Proof. unfold Close. mono. Qed.
#[global] Hint Resolve Mono_Open Mono_RegisterDescriptor Mono_SendReportTo
  Mono_Ping Mono_Close : mono.

(** A registration that succeeds has waited out its settle delay. *)
Lemma RegisterDescriptor_settle (dt : DescriptorType) (d : Device) (w : World)
      (id : Z) :
  fst (fst (RegisterDescriptor dt d w)) = Ok id ->
  now w + 300 * Millisecond <= now (snd (RegisterDescriptor dt d w)).
Proof.
  unfold RegisterDescriptor.
  destruct (GetDescriptor dt) as [desc|]; [|discriminate].
  destruct w as [n t o].
  destruct o as [|[|] [|[|] [|b3 o]]]; cbn; intros H;
    try discriminate; lia.
Qed.

End aoa_facts.

Arguments down_report : simpl never.

Module device_facts.
Import device.

(** ** Without a session *)

(** C10: when the manager holds no device, [PTTDown], [PTTUp] and [Swipe]
    each return the "no device connected" error and leave the manager and
    the world as they were: nothing is sent, [swipeLeft] does not flip, the
    press time and the idle timer are not touched. *)
Theorem no_session_no_effect (m : Manager) (w : World) :
  dev m = None ->
  PTTDown m w = (Some ErrNoDevice, m, w)
  /\ PTTUp m w = (Some ErrNoDevice, m, w)
  /\ Swipe m w = (Some ErrNoDevice, m, w).
Proof.
  intros H. unfold PTTDown, PTTUp, Swipe. rewrite H. repeat split.
Qed.

Lemma no_session_no_effect_witness :
  let m := fst (NewManager "" true w0) in
  PTTDown m w0 = (Some ErrNoDevice, m, w0)
  /\ PTTUp m w0 = (Some ErrNoDevice, m, w0)
  /\ Swipe m w0 = (Some ErrNoDevice, m, w0).
Proof.
  apply (no_session_no_effect (fst (NewManager "" true w0)) w0).
  reflexivity.
Defined.

(** ** Building blocks *)

Lemma notify_run (m : Manager) (s : State) (w : World) :
  notify m s w = (tt, mkWorld (now w) (trace w ++ notes m s) (oracle w)).
Proof.
  unfold notify, notes. destruct (onChange m); [reflexivity|].
  destruct w. unfold ret. cbn. now rewrite app_nil_r.
Qed.

Lemma SendReportTo_run d hid report w :
  aoa.SendReportTo d hid report w =
  (if next_ok w then None
   else Some (ErrControlTransfer aoa.reqSendHIDEvent hid 0 ErrUsb),
   mkWorld (now w) (trace w ++ [send_event d hid (next_ok w) report])
           (tl (oracle w))).
Proof. apply controlTransfer_run. Qed.

Lemma not_send_unregister (d : aoa.Device) (l : list (Z * bool)) :
  Forall (fun e => is_send_event e = false) (map (unregister_request d) l).
Proof. apply Forall_forall. intros e H. apply in_map_iff in H.
  destruct H as (p & <- & _). reflexivity. Qed.

(** [handleError] on a manager with a session: the session is closed, the
    manager dropped to Disconnected, and no report is sent. *)
Lemma handleError_run (m : Manager) (d : aoa.Device) (w : World) :
  dev m = Some d ->
  exists evs,
    fst (handleError m w) = dropped m
    /\ trace (snd (handleError m w)) = trace w ++ evs
    /\ Forall (fun e => is_send_event e = false) evs
    /\ now (snd (handleError m w)) = now w.
Proof.
  intros H. unfold handleError. rewrite H.
  rewrite !bind_run, aoa_facts.Close_run. cbn [fst snd ret].
  rewrite notify_run. cbn [fst snd ret now trace].
  eexists. split; [reflexivity|]. split; [rewrite <- !app_assoc; reflexivity|].
  split; [|reflexivity].
  apply Forall_app. split; [apply not_send_unregister|].
  apply Forall_app. split; [repeat constructor|].
  unfold notes. cbn. destruct (onChange m); repeat constructor.
Qed.

(** ** PTT release *)

Lemma PTTUp_release (m : Manager) (d : aoa.Device) (w : World) :
  dev m = Some d ->
  (elapsed_since_press m w <? toggleThreshold) && negb (pttToggled m) = false ->
  next_ok w = true ->
  fst (PTTUp m w) = (None, released m)
  /\ emitted (PTTUp m) w
     = send_event d (pttHIDID m) true powerUp :: notes m Connected.
Proof.
  intros Hd Hc Hok. unfold emitted, PTTUp, elapsed_since_press in *.
  rewrite Hd, bind_run.
  destruct (fst (Since (pttPressTime m) w) <? toggleThreshold) eqn:E;
    [destruct (pttToggled m) eqn:T; [|discriminate]|];
    unfold Since; cbn [fst snd];
    rewrite bind_run, SendReportTo_run, Hok; cbn [fst snd];
    rewrite bind_run, notify_run; cbn [fst snd ret trace];
    rewrite <- app_assoc, skipn_length_app;
    (split; [|reflexivity]); unfold released.
  - destruct m; cbn in *; subst; reflexivity.
  - reflexivity.
Qed.

(** C1: on a manager that holds a session, [PTTUp] measures the time since
    the recorded press. Below 300 ms with the toggle flag set, and at or
    above 300 ms whatever the flag, it sends the release report on the PTT
    channel, clears the flag and goes to Connected (the device being
    connected, the transfer goes through). Below 300 ms with the flag clear
    it sets the flag, sends nothing and leaves the state as it was,
    PTTActive after a press. *)
Theorem PTTUp_toggle_hold (m : Manager) (d : aoa.Device) (w : World) :
  dev m = Some d ->
  let release := send_event d (pttHIDID m) true powerUp in
  (elapsed_since_press m w < toggleThreshold ->
   pttToggled m = true -> next_ok w = true ->
   fst (PTTUp m w) = (None, released m)
   /\ emitted (PTTUp m) w = release :: notes m Connected
   /\ pttToggled (released m) = false /\ state (released m) = Connected)
  /\ (elapsed_since_press m w < toggleThreshold ->
      pttToggled m = false ->
      PTTUp m w = (None, set_pttToggled true m, w)
      /\ pttToggled (set_pttToggled true m) = true
      /\ (state m = PTTActive -> state (set_pttToggled true m) = PTTActive))
  /\ (toggleThreshold <= elapsed_since_press m w ->
      next_ok w = true ->
      fst (PTTUp m w) = (None, released m)
      /\ emitted (PTTUp m) w = release :: notes m Connected
      /\ pttToggled (released m) = false /\ state (released m) = Connected).
Proof.
  intros Hd release. split; [|split].
  - intros He Ht Hok.
    destruct (PTTUp_release m d w Hd) as [H1 H2]; auto.
    now rewrite Ht, andb_false_r.
  - intros He Ht. unfold PTTUp, elapsed_since_press in *.
    rewrite Hd, bind_run.
    apply Z.ltb_lt in He. rewrite He, Ht. unfold Since. cbn.
    repeat split; auto.
  - intros He Hok.
    destruct (PTTUp_release m d w Hd) as [H1 H2]; auto.
    apply Z.ltb_ge in He. now rewrite He.
Qed.

(** When the release transfer fails instead, the manager is dropped to
    Disconnected and the error returned. *)
Lemma PTTUp_transfer_failure (m : Manager) (d : aoa.Device) (w : World) :
  dev m = Some d ->
  (elapsed_since_press m w <? toggleThreshold) && negb (pttToggled m) = false ->
  next_ok w = false ->
  fst (PTTUp m w)
  = (Some (ErrControlTransfer aoa.reqSendHIDEvent (pttHIDID m) 0 ErrUsb),
     dropped m).
Proof.
  intros Hd Hc Hok. unfold PTTUp, elapsed_since_press in *.
  rewrite Hd, bind_run.
  assert (Hdrop : forall w', fst (handleError (set_pttToggled false m) w')
                             = dropped m).
  { intros w'.
    destruct (handleError_run (set_pttToggled false m) d w') as (? & H & _).
    - destruct m; cbn in *; assumption.
    - rewrite H. destruct m; reflexivity. }
  destruct (fst (Since (pttPressTime m) w) <? toggleThreshold) eqn:E;
    [destruct (pttToggled m) eqn:T; [|discriminate]|];
    unfold Since; cbn [fst snd];
    rewrite bind_run, SendReportTo_run, Hok; cbn [fst snd];
    rewrite bind_run, Hdrop; reflexivity.
Qed.

Lemma PTTUp_toggle_hold_witness :
  let m := fst toggled_on in
  let w := snd toggled_on in
  fst (PTTUp m w) = (None, released m)
  /\ emitted (PTTUp m) w
     = send_event (fresh_session (r1 1 "R1A")) 1 true powerUp
       :: notes m Connected
  /\ pttToggled (released m) = false /\ state (released m) = Connected.
Proof.
  pose proof (PTTUp_toggle_hold (fst toggled_on)
                (aoa.mkDevice (r1 1 "R1A") "" 3 [1; 2] 2)
                (snd toggled_on) eq_refl) as (H & _ & _).
  apply H; reflexivity.
Defined.

(** ** Swipe *)

Lemma wake_run (m : Manager) (d : aoa.Device) (w : World) :
  wake m d w =
  (tt,
   if next_ok w
   then mkWorld (now w + 50 * Millisecond + 100 * Millisecond)
          (trace w ++ [send_event d (pttHIDID m) true wakeUp;
                       send_event d (pttHIDID m) (hd true (tl (oracle w)))
                                  powerUp])
          (tl (tl (oracle w)))
   else mkWorld (now w) (trace w ++ [send_event d (pttHIDID m) false wakeUp])
          (tl (oracle w))).
Proof.
  unfold wake. rewrite bind_run, SendReportTo_run.
  destruct (next_ok w); cbn [fst snd]; [|reflexivity].
  rewrite !bind_run, SendReportTo_run. unfold sleep, next_ok. cbn.
  rewrite <- app_assoc. reflexivity.
Qed.

Lemma wake_trace (m : Manager) (d : aoa.Device) (w : World) :
  trace (snd (wake m d w)) = trace w ++ emitted (wake m d) w.
Proof.
  unfold emitted. rewrite wake_run. cbn [snd].
  destruct (next_ok w); cbn [trace]; now rewrite skipn_length_app.
Qed.

Lemma wake_now (m : Manager) (d : aoa.Device) (w : World) :
  now w <= now (snd (wake m d w)).
Proof.
  rewrite wake_run. cbn [snd]. destruct (next_ok w); cbn [now];
    unfold Millisecond; lia.
Qed.

Lemma zseq_S (i : Z) (n : nat) : zseq i (S n) = i :: zseq (i + 1) n.
Proof.
  unfold zseq. cbn [seq map]. rewrite Z.add_0_r. f_equal.
  rewrite <- seq_shift, map_map. apply map_ext. intros k. lia.
Qed.

Lemma first_failure_S (n : nat) :
  forall o : list bool,
    first_failure (S n) o =
    match first_failure n o with
    | Some k => Some k
    | None => if hd true (skipn n o) then None else Some n
    end.
Proof.
  induction n as [|n IH]; intros o.
  - cbn. destruct (hd true o); reflexivity.
  - change (first_failure (S (S n)) o)
      with (if hd true o then option_map S (first_failure (S n) (tl o))
            else Some O).
    rewrite IH. cbn [first_failure].
    destruct (hd true o); [|reflexivity].
    assert (E : skipn (S n) o = skipn n (tl o))
      by (destruct o; [cbn; now rewrite skipn_nil|reflexivity]).
    rewrite E.
    destruct (first_failure n (tl o)); [reflexivity|].
    destruct (hd true (skipn n (tl o))); reflexivity.
Qed.

Lemma first_failure_lt (n : nat) :
  forall (o : list bool) (k : nat), first_failure n o = Some k -> (k < n)%nat.
Proof.
  induction n as [|n IH]; intros o k H; [discriminate|].
  cbn in H. destruct (hd true o); [|injection H as <-; lia].
  destruct (first_failure n (tl o)) eqn:E; [|discriminate].
  injection H as <-. apply IH in E. lia.
Qed.

(** The loop of [Swipe]: the touch-downs go out in order until one fails;
    the failure drops the session and ends the loop. *)
Lemma Swipe_loop_run (startX endX : Z) (d d0 : aoa.Device) (m : Manager)
      (Hd : dev m = Some d0) (n : nat) :
  forall (i : Z) (w : World),
    let r := Swipe_loop n i startX endX d m w in
    let sent := fun k =>
      map (send_event d (touchHIDID m) true)
          (map (down_report startX endX) (zseq i k)) in
    match first_failure n (oracle w) with
    | None =>
        fst r = (None, m)
        /\ trace (snd r) = trace w ++ sent n
        /\ oracle (snd r) = skipn n (oracle w)
    | Some k =>
        exists err cleanup,
          fst r = (Some err, dropped m)
          /\ trace (snd r)
             = trace w ++ sent k
               ++ [send_event d (touchHIDID m) false
                              (down_report startX endX (i + Z.of_nat k))]
               ++ cleanup
          /\ Forall (fun e => is_send_event e = false) cleanup
    end.
Proof.
  induction n as [|n IH]; intros i w; cbv zeta.
  - cbn. rewrite app_nil_r. auto.
  - cbn [Swipe_loop first_failure].
    rewrite bind_run, SendReportTo_run. fold (next_ok w).
    destruct (next_ok w); cbn [fst snd].
    + rewrite bind_run.
      set (w1 := snd ((if i <? swipe_steps
                       then sleep (25 * Millisecond) else ret tt) _)).
      assert (Ht : trace w1 = trace w ++ [send_event d (touchHIDID m) true
                                            (down_report startX endX i)])
        by (unfold w1; destruct (i <? swipe_steps); reflexivity).
      assert (Ho : oracle w1 = tl (oracle w))
        by (unfold w1; destruct (i <? swipe_steps); reflexivity).
      specialize (IH (i + 1) w1). cbv zeta in IH. rewrite Ho in IH.
      destruct (first_failure n (tl (oracle w))) as [k|]; cbn [option_map].
      * destruct IH as (err & cleanup & H1 & H2 & H3).
        exists err, cleanup. split; [exact H1|]. split; [|exact H3].
        rewrite H2, Ht, zseq_S. cbn [map].
        rewrite <- !app_assoc. cbn [app].
        replace (i + Z.of_nat (S k)) with (i + 1 + Z.of_nat k) by lia.
        reflexivity.
      * destruct IH as (H1 & H2 & H3).
        split; [exact H1|]. split.
        -- rewrite H2, Ht, zseq_S. cbn [map].
           rewrite <- !app_assoc. reflexivity.
        -- rewrite H3. destruct (oracle w); [cbn; now rewrite skipn_nil|].
           reflexivity.
    + rewrite bind_run.
      match goal with
      | |- context [handleError m ?w'] =>
          destruct (handleError_run m d0 w' Hd) as (evs & H1 & H2 & H3 & _)
      end.
      eexists _, evs. cbn [fst snd ret]. rewrite H1, H2. cbn [trace].
      split; [reflexivity|]. split; [|exact H3].
      cbn. rewrite Z.add_0_r, <- !app_assoc. reflexivity.
Qed.

Lemma touchActivity_run (m : Manager) (w : World) :
  touchActivity m w = (touched m w, w).
Proof. reflexivity. Qed.

Lemma wake_touched (m : Manager) (d : aoa.Device) (w w' : World) :
  wake (touched m w') d w = wake m d w.
Proof. reflexivity. Qed.

(** One [Swipe] on a manager with a session, after the wake sequence: the
    ten reports go out in order until one fails. *)
Lemma Swipe_run (m : Manager) (d : aoa.Device) (w : World) :
  dev m = Some d ->
  let w1 := snd (wake m d w) in
  let reports := swipe_reports (swipe_start m) (swipe_end m) in
  let sent := map (send_event d (touchHIDID m) true) in
  match first_failure 10 (oracle w1) with
  | None =>
      fst (Swipe m w) = (None, swiped m w)
      /\ trace (snd (Swipe m w)) = trace w1 ++ sent reports
  | Some k =>
      exists err cleanup,
        fst (Swipe m w) = (Some err, dropped (swiped m w))
        /\ trace (snd (Swipe m w))
           = trace w1 ++ sent (firstn k reports)
             ++ [send_event d (touchHIDID m) false (nth k reports [])]
             ++ cleanup
        /\ Forall (fun e => is_send_event e = false) cleanup
  end.
Proof.
  intros Hd w1 reports sent.
  assert (Hd1 : dev (swiped m w) = Some d) by (destruct m; exact Hd).
  assert (Hid : touchHIDID (swiped m w) = touchHIDID m) by reflexivity.
  pose proof (Swipe_loop_run (swipe_start m) (swipe_end m) d d (swiped m w)
                Hd1 9 0 w1) as L.
  cbv zeta in L. rewrite Hid in L.
  assert (E : Swipe m w =
              ('(e, m') <- Swipe_loop 9 0 (swipe_start m) (swipe_end m) d
                                      (swiped m w) ;;
               match e with
               | Some err => ret (Some err, m')
               | None =>
                   e <- aoa.SendReportTo d (touchHIDID m')
                          (aoa.TouchReport false (swipe_end m) swipe_y) ;;
                   match e with
                   | Some err =>
                       m' <- handleError m' ;; ret (Some (ErrSwipeLift err), m')
                   | None => ret (None, m')
                   end
               end) w1).
  { unfold Swipe, w1. rewrite Hd, bind_run, touchActivity_run.
    cbn [fst snd]. rewrite bind_run, wake_touched.
    unfold swiped, swipe_start, swipe_end.
    destruct m as [? ? ? ? ? ? ? ? [|] ? ? ? ?]; reflexivity. }
  rewrite E, bind_run, first_failure_S. clear E.
  destruct (first_failure 9 (oracle w1)) as [k|] eqn:E9.
  - destruct L as (err & cleanup & H1 & H2 & H3).
    exists err, cleanup.
    destruct (Swipe_loop 9 0 (swipe_start m) (swipe_end m) d (swiped m w) w1)
      as [[e m'] w2].
    cbn [fst snd] in *. injection H1 as -> ->. unfold ret. cbn [fst snd].
    split; [reflexivity|]. split; [|exact H3].
    apply first_failure_lt in E9.
    do 9 (destruct k as [|k]; [exact H2|]). lia.
  - destruct L as (H1 & H2 & H3).
    destruct (Swipe_loop 9 0 (swipe_start m) (swipe_end m) d (swiped m w) w1)
      as [[e m'] w2].
    cbn [fst snd] in *. injection H1 as -> ->.
    rewrite bind_run, SendReportTo_run, Hid. unfold next_ok. rewrite H3.
    destruct (hd true (skipn 9 (oracle w1))); cbn [fst snd].
    + unfold ret. cbn [fst snd trace]. split; [reflexivity|].
      rewrite H2. unfold sent, reports, swipe_reports.
      rewrite map_app, <- app_assoc. reflexivity.
    + rewrite bind_run.
      match goal with
      | |- context [handleError _ ?w'] =>
          destruct (handleError_run (swiped m w) d w' Hd1)
            as (evs & G1 & G2 & G3 & _)
      end.
      eexists _, evs. unfold ret. cbn [fst snd]. rewrite G1, G2.
      cbn [trace]. split; [reflexivity|]. split; [|exact G3].
      rewrite H2. rewrite <- !app_assoc. reflexivity.
Qed.

Lemma swipe_reports_left :
  swipe_reports 27000 5000 = swipe_reports_spec 27000 5000.
Proof. vm_compute. reflexivity. Qed.

Lemma swipe_reports_right :
  swipe_reports 5000 27000 = swipe_reports_spec 5000 27000.
Proof. vm_compute. reflexivity. Qed.

Lemma swipe_reports_refine (m : Manager) :
  swipe_reports (swipe_start m) (swipe_end m)
  = swipe_reports_spec (swipe_start m) (swipe_end m).
Proof.
  unfold swipe_start, swipe_end.
  destruct (swipeLeft m); [apply swipe_reports_left|apply swipe_reports_right].
Qed.

(** C7: on a manager with a session, after the wake sequence, a [Swipe]
    that succeeds has sent exactly the nine touch-down reports of steps
    0..8, with X equal to start + (i/8)(end - start) truncated (27000 to
    5000 when sweeping left, 5000 to 27000 when sweeping right) and Y at
    32590, and then the one touch-up report at the end X; it succeeds when
    the ten transfers do. A [Swipe] that fails has sent the reports before
    the first failing one, then that one, and no report after it: what
    follows is the teardown of the session. *)
Theorem Swipe_gesture (m : Manager) (d : aoa.Device) (w : World) :
  dev m = Some d ->
  let startX := swipe_start m in
  let endX := swipe_end m in
  let reports := swipe_reports_spec startX endX in
  let sent := map (send_event d (touchHIDID m) true) in
  (swipeLeft m = true -> startX = 27000 /\ endX = 5000)
  /\ (swipeLeft m = false -> startX = 5000 /\ endX = 27000)
  /\ (fst (fst (Swipe m w)) = None ->
      emitted (Swipe m) w = emitted (wake m d) w ++ sent reports)
  /\ (first_failure 10 (oracle (snd (wake m d w))) = None ->
      fst (fst (Swipe m w)) = None)
  /\ (forall err : error,
         fst (fst (Swipe m w)) = Some err ->
         exists (k : nat) (cleanup : list IO),
           (k < 10)%nat
           /\ emitted (Swipe m) w
              = emitted (wake m d) w ++ sent (firstn k reports)
                ++ [send_event d (touchHIDID m) false (nth k reports [])]
                ++ cleanup
           /\ Forall (fun e => is_send_event e = false) cleanup).
Proof.
  intros Hd startX endX reports sent.
  split; [unfold startX, endX, swipe_start, swipe_end; now intros ->|].
  split; [unfold startX, endX, swipe_start, swipe_end; now intros ->|].
  pose proof (Swipe_run m d w Hd) as R. cbv zeta in R.
  rewrite swipe_reports_refine in R. fold startX endX reports in R.
  destruct (first_failure 10 (oracle (snd (wake m d w)))) as [k|] eqn:E.
  - destruct R as (err & cleanup & R1 & R2 & R3).
    rewrite wake_trace, <- app_assoc in R2.
    split; [rewrite R1; discriminate|]. split; [discriminate|].
    intros err' _. exists k, cleanup.
    split; [apply first_failure_lt in E; exact E|].
    split; [|exact R3]. apply emitted_intro. exact R2.
  - destruct R as (R1 & R2).
    rewrite wake_trace, <- app_assoc in R2.
    split; [intros _; apply emitted_intro; exact R2|].
    split; [intros _; now rewrite R1|].
    intros err He. rewrite R1 in He. discriminate.
Qed.

(** C7 on a connected manager whose transfers all go through. *)
Lemma Swipe_gesture_witness :
  let m := fst connected in
  let w := snd connected in
  let d := aoa.mkDevice (r1 1 "R1A") "" 3 [1; 2] 2 in
  emitted (Swipe m) w
  = emitted (wake m d) w
    ++ map (send_event d 2 true) (swipe_reports_spec 27000 5000).
Proof.
  pose proof (Swipe_gesture (fst connected)
                (aoa.mkDevice (r1 1 "R1A") "" 3 [1; 2] 2)
                (snd connected) eq_refl) as (_ & _ & H & _).
  apply H. vm_compute. reflexivity.
Defined.

(** ** The clock across the manager's operations *)

Lemma Mono_notify m st : Mono (notify m st).
Proof. unfold notify. mono. Qed.

Lemma Mono_touchActivity m : Mono (touchActivity m).
Proof. unfold touchActivity. mono. Qed.

Lemma Mono_SetKeepAwake b mins m : Mono (SetKeepAwake b mins m).
Proof. unfold SetKeepAwake. mono. Qed.

Lemma Mono_wake m d : Mono (wake m d).
Proof. unfold wake. mono. Qed.
#[global] Hint Resolve Mono_notify Mono_touchActivity Mono_SetKeepAwake
  Mono_wake : mono.

Lemma Mono_keepAwakePing m : Mono (keepAwakePing m).
Proof. unfold keepAwakePing. mono. Qed.

Lemma Mono_handleError m : Mono (handleError m).
Proof. unfold handleError. mono. Qed.
#[global] Hint Resolve Mono_keepAwakePing Mono_handleError : mono.

Lemma Mono_tryConnect bus enum_err m : Mono (tryConnect bus enum_err m).
Proof. unfold tryConnect. mono. Qed.

Lemma Mono_healthCheck m : Mono (healthCheck m).
Proof. unfold healthCheck. mono. Qed.

Lemma Mono_PTTDown m : Mono (PTTDown m).
Proof. unfold PTTDown. mono. Qed.

Lemma Mono_PTTUp m : Mono (PTTUp m).
Proof. unfold PTTUp. mono. Qed.

Lemma Mono_Swipe_loop startX endX d m n :
  forall i, Mono (Swipe_loop n i startX endX d m).
Proof. induction n as [|n IH]; intros i; cbn [Swipe_loop]; mono. Qed.
#[global] Hint Resolve Mono_Swipe_loop : mono.

Lemma Mono_Swipe m : Mono (Swipe m).
Proof. unfold Swipe. mono. Qed.

Lemma Mono_shutdown m : Mono (Close m).
Proof. unfold Close. mono. Qed.
#[global] Hint Resolve Mono_tryConnect Mono_healthCheck Mono_PTTDown
  Mono_PTTUp Mono_Swipe Mono_shutdown : mono.

Lemma Mono_step e m : Mono (step e m).
Proof. unfold step, Run_poll. destruct e; mono. Qed.
#[global] Hint Resolve Mono_step : mono.

Lemma Mono_run evs : forall m, Mono (run evs m).
Proof. induction evs as [|e evs IH]; intros m; cbn [run]; mono. Qed.

(** ** What each operation leaves in the manager *)

Lemma handleError_manager (m : Manager) (w : World) :
  fst (handleError m w) = dropped m.
Proof.
  unfold handleError, dropped.
  destruct (dev m) as [d|] eqn:Hd; rewrite !bind_run; cbn [fst snd ret];
    [|destruct m; cbn in *; subst]; reflexivity.
Qed.

Lemma Close_manager (m : Manager) (w : World) : fst (Close m w) = dropped m.
Proof.
  unfold Close, dropped.
  destruct (dev m) as [d|] eqn:Hd; rewrite !bind_run; cbn [fst snd ret];
    [|destruct m; cbn in *; subst]; reflexivity.
Qed.

Lemma keepAwakePing_manager (m : Manager) (w : World) :
  fst (keepAwakePing m w) = m \/ fst (keepAwakePing m w) = set_sleeping true m.
Proof.
  unfold keepAwakePing.
  destruct (dev m); [|now left].
  destruct (negb (State_eqb (state m) Connected)); [now left|].
  destruct (negb (keepAwake m)); [now left|].
  rewrite bind_run.
  match goal with |- context [if fst ?c then _ else _] => destruct (fst c) end.
  - destruct (negb (sleeping m)); [now right|now left].
  - left. rewrite !bind_run. reflexivity.
Qed.

Lemma healthCheck_manager (m : Manager) (w : World) :
  fst (healthCheck m w) = m \/ fst (healthCheck m w) = dropped m.
Proof.
  unfold healthCheck. destruct (dev m); [|now left].
  rewrite bind_run. destruct (fst (aoa.Ping d w)); [|now left].
  right. rewrite !bind_run. reflexivity.
Qed.

Lemma tryConnect_manager bus enum_err (m : Manager) (w : World) :
  fst (tryConnect bus enum_err m w) = m
  \/ exists d pttID touchID t,
      (fst (tryConnect bus enum_err m w) = connected_as m d pttID touchID t
       \/ fst (tryConnect bus enum_err m w)
          = set_sleeping true (connected_as m d pttID touchID t))
      /\ now w + 600 * Millisecond <= now (snd (tryConnect bus enum_err m w)).
Proof.
  unfold tryConnect. rewrite bind_run.
  pose proof (aoa_facts.Mono_Open bus enum_err (serial m) w) as T0.
  destruct (aoa.Open bus enum_err (serial m) w) as [[d0|e0] w1];
    cbn [fst snd] in *; [|now left].
  rewrite bind_run.
  pose proof (aoa_facts.RegisterDescriptor_settle aoa.DescSystemControl d0 w1)
    as T1.
  destruct (aoa.RegisterDescriptor aoa.DescSystemControl d0 w1)
    as [[[pttID|e1] d1] w2]; cbn [fst snd] in *;
    [|left; rewrite !bind_run; reflexivity].
  specialize (T1 pttID eq_refl). rewrite bind_run.
  pose proof (aoa_facts.RegisterDescriptor_settle aoa.DescTouchScreen d1 w2)
    as T2.
  destruct (aoa.RegisterDescriptor aoa.DescTouchScreen d1 w2)
    as [[[touchID|e2] d2] w3]; cbn [fst snd] in *;
    [|left; rewrite !bind_run; reflexivity].
  specialize (T2 touchID eq_refl).
  right. exists d2, pttID, touchID, (At (now w3)).
  rewrite !bind_run. unfold Now. cbn [fst snd].
  match goal with
  | |- context [keepAwakePing ?m' ?w'] =>
      pose proof (Mono_keepAwakePing m' w') as T3;
      pose proof (Mono_notify m' Connected w3) as T4;
      destruct (keepAwakePing_manager m' w') as [K|K]; rewrite K
  end; (split; [auto|]); unfold Millisecond in *; lia.
Qed.

Lemma PTTDown_manager (m : Manager) (d : aoa.Device) (w : World) :
  dev m = Some d ->
  let m1 := touched (set_pttPressTime (At (now w)) m) w in
  if pttToggled m
  then snd (fst (PTTDown m w)) = m1
  else snd (fst (PTTDown m w)) = set_state PTTActive m1
       \/ snd (fst (PTTDown m w)) = dropped m1.
Proof.
  intros Hd. unfold PTTDown. rewrite Hd.
  rewrite bind_run. unfold Now. cbn [fst snd].
  rewrite bind_run, touchActivity_run. cbn [fst snd].
  change (pttToggled (touched (set_pttPressTime (At (now w)) m) w))
    with (pttToggled m).
  destruct (pttToggled m); [reflexivity|].
  rewrite !bind_run.
  match goal with |- context [match fst ?c with _ => _ end] => destruct (fst c) end.
  - right. rewrite bind_run, handleError_manager. reflexivity.
  - left. rewrite bind_run. reflexivity.
Qed.

Lemma PTTUp_manager (m : Manager) (d : aoa.Device) (w : World) :
  dev m = Some d ->
  if (elapsed_since_press m w <? toggleThreshold) && negb (pttToggled m)
  then snd (fst (PTTUp m w)) = set_pttToggled true m
  else snd (fst (PTTUp m w)) = released m
       \/ snd (fst (PTTUp m w)) = dropped m.
Proof.
  intros Hd.
  destruct ((elapsed_since_press m w <? toggleThreshold)
            && negb (pttToggled m)) eqn:E.
  - apply andb_prop in E. destruct E as [E1 E2].
    apply negb_true_iff in E2.
    unfold PTTUp, elapsed_since_press in *. rewrite Hd, bind_run, E1, E2.
    reflexivity.
  - destruct (next_ok w) eqn:Hok.
    + left. destruct (PTTUp_release m d w Hd E Hok) as [-> _]. reflexivity.
    + right. rewrite (PTTUp_transfer_failure m d w Hd E Hok). reflexivity.
Qed.

Lemma Swipe_manager (m : Manager) (d : aoa.Device) (w : World) :
  dev m = Some d ->
  snd (fst (Swipe m w)) = swiped m w
  \/ snd (fst (Swipe m w)) = dropped (swiped m w).
Proof.
  intros Hd. pose proof (Swipe_run m d w Hd) as R. cbv zeta in R.
  destruct (first_failure 10 (oracle (snd (wake m d w)))).
  - destruct R as (err & cleanup & -> & _). now right.
  - destruct R as (-> & _). now left.
Qed.

Lemma no_session (m : Manager) (w : World) :
  dev m = None ->
  PTTDown m w = (Some ErrNoDevice, m, w)
  /\ PTTUp m w = (Some ErrNoDevice, m, w)
  /\ Swipe m w = (Some ErrNoDevice, m, w).
Proof.
  intros H. unfold PTTDown, PTTUp, Swipe. rewrite H. repeat split.
Qed.

(** ** Invariants of the manager *)

Lemma saturate64_spec (x : Z) :
  saturate64 x = Z.max minInt64 (Z.min maxInt64 x).
Proof.
  unfold saturate64, maxInt64, minInt64.
  destruct (Z.gtb_spec x (2 ^ 63 - 1)); [lia|].
  destruct (Z.ltb_spec x (- 2 ^ 63)); lia.
Qed.

Lemma elapsed_later (t : Time) (w w' : World) :
  now w <= now w' -> fst (Since t w) <= fst (Since t w').
Proof.
  intros H. destruct t as [|u]; cbn; [lia|].
  rewrite !saturate64_spec. lia.
Qed.

Lemma elapsed_settled (t : Time) (w w' : World) :
  (forall u, t = At u -> u <= now w) ->
  now w + 600 * Millisecond <= now w' ->
  toggleThreshold <= fst (Since t w').
Proof.
  intros Hu H. destruct t as [|u]; cbn.
  - unfold toggleThreshold, Millisecond, maxInt64. lia.
  - specialize (Hu u eq_refl). rewrite saturate64_spec.
    unfold toggleThreshold, Millisecond, maxInt64, minInt64 in *. lia.
Qed.

(** The invariant carries over to a later time and a manager with the same
    state, toggle flag, session slot and press time. *)
Lemma paired_inv_frame (p : bool) (m m' : Manager) (w w' : World) :
  paired_inv p m w ->
  now w <= now w' ->
  state m' = state m -> pttToggled m' = pttToggled m ->
  (dev m' = None <-> dev m = None) -> pttPressTime m' = pttPressTime m ->
  paired_inv p m' w'.
Proof.
  intros (I1 & I2 & I3 & I4) T Hs Ht Hd Hp.
  unfold paired_inv, session_iff_connected, elapsed_since_press in *.
  rewrite Hs, Ht, Hp. repeat split.
  - exact I1.
  - intros H. apply I2, Hd, H.
  - intros H. apply Hd, I2, H.
  - intros t E. specialize (I3 t E). lia.
  - intros Hpend Hc. specialize (I4 Hpend Hc).
    pose proof (elapsed_later (pttPressTime m) w w' T). lia.
Qed.

Lemma paired_inv_dropped (p p' : bool) (m m1 : Manager) (w w' : World) :
  paired_inv p m w ->
  now w <= now w' ->
  (forall t, pttPressTime m1 = At t -> t <= now w') ->
  paired_inv p' (dropped m1) w'.
Proof.
  intros _ T Hp. unfold paired_inv, session_iff_connected.
  destruct m1; cbn in *. repeat split; auto; discriminate.
Qed.

Lemma paired_inv_connected (p : bool) (m m' : Manager) (w w' : World) :
  paired_inv p m w ->
  now w + 600 * Millisecond <= now w' ->
  state m' = Connected -> pttToggled m' = false ->
  dev m' <> None -> pttPressTime m' = pttPressTime m ->
  paired_inv p m' w'.
Proof.
  intros (I1 & I2 & I3 & I4) T Hs Ht Hd Hp.
  unfold paired_inv, session_iff_connected, elapsed_since_press in *.
  rewrite Hs, Ht, Hp. repeat split; try congruence.
  - intros t E. specialize (I3 t E). unfold Millisecond in T. lia.
  - intros _ _. apply (elapsed_settled _ w w'); assumption.
Qed.

Ltac inv_close I3 :=
  repeat split; try congruence; try discriminate; try (intros; lia);
  try (intros;
       match goal with
       | H : _ = At ?t |- _ => pose proof (I3 t H)
       end; lia).

Lemma step_paired_inv (e : Event) (p : bool) (m : Manager) (w : World) :
  paired_inv p m w ->
  match e with EvPTTUp => p = true | _ => True end ->
  paired_inv (next_pending e p) (fst (step e m w)) (snd (step e m w)).
Proof.
  intros I Hp. pose proof (Mono_step e m w) as T.
  assert (F : forall m', state m' = state m -> pttToggled m' = pttToggled m ->
                         (dev m' = None <-> dev m = None) ->
                         pttPressTime m' = pttPressTime m ->
                         paired_inv p m' (snd (step e m w)))
    by (intros; eapply paired_inv_frame; eauto).
  assert (D : forall p' m1, pttPressTime m1 = pttPressTime m \/
                            pttPressTime m1 = At (now w) ->
                            paired_inv p' (dropped m1) (snd (step e m w))).
  { intros p' m1 H. eapply paired_inv_dropped; eauto.
    destruct I as (_ & _ & I3 & _).
    intros t E. destruct H as [H|H]; rewrite H in E.
    - specialize (I3 t E). lia.
    - injection E as <-. lia. }
  destruct e; cbn [next_pending]; cbn [step] in *.
  - (* EvWait *)
    apply F; reflexivity.
  - (* EvConnect *)
    destruct (tryConnect_manager bus enum_err m w)
      as [E|(d & a & b & t & [E|E] & T6)]; rewrite E.
    + apply F; reflexivity.
    + eapply paired_inv_connected; eauto; try reflexivity. discriminate.
    + eapply paired_inv_connected; eauto; try reflexivity. discriminate.
  - (* EvHealth *)
    destruct (healthCheck_manager m w) as [E|E]; rewrite E.
    + apply F; reflexivity.
    + apply D. now left.
  - (* EvPoll *)
    unfold Run_poll in *. destruct (State_eqb (state m) Disconnected).
    + destruct (tryConnect_manager bus enum_err m w)
        as [E|(d & a & b & t & [E|E] & T6)]; rewrite E.
      * apply F; reflexivity.
      * eapply paired_inv_connected; eauto; try reflexivity. discriminate.
      * eapply paired_inv_connected; eauto; try reflexivity. discriminate.
    + destruct (healthCheck_manager m w) as [E|E]; rewrite E.
      * apply F; reflexivity.
      * apply D. now left.
  - (* EvTick *)
    destruct (keepAwakePing_manager m w) as [E|E]; rewrite E;
      apply F; reflexivity.
  - (* EvPTTDown *)
    rewrite bind_run in *.
    destruct (dev m) as [d|] eqn:Hd.
    + pose proof (PTTDown_manager m d w Hd) as C. cbv zeta in C.
      destruct (PTTDown m w) as [[r m'] w']. cbn [fst snd] in *.
      destruct I as (I1 & I2 & I3 & I4).
      destruct (pttToggled m) eqn:Ht.
      * subst m'. specialize (I1 eq_refl).
        unfold paired_inv, session_iff_connected, elapsed_since_press.
        destruct m; cbn in *. subst.
        inv_close I3.
      * destruct C as [C|C]; subst m'.
        -- unfold paired_inv, session_iff_connected, elapsed_since_press.
           destruct m; cbn in *. subst.
           inv_close I3.
        -- apply D. now right.
    + destruct (no_session m w Hd) as (E & _). rewrite E in *.
      cbn [fst snd ret] in *.
      destruct I as (I1 & I2 & I3 & I4).
      unfold paired_inv. repeat split; auto; try apply I2.
      intros _ Hc. apply I2 in Hd. congruence.
  - (* EvPTTUp *)
    subst p. rewrite bind_run in *.
    destruct (dev m) as [d|] eqn:Hd.
    + pose proof (PTTUp_manager m d w Hd) as C.
      destruct (PTTUp m w) as [[r m'] w']. cbn [fst snd ret] in *.
      destruct I as (I1 & I2 & I3 & I4).
      destruct ((elapsed_since_press m w <? toggleThreshold)
                && negb (pttToggled m)) eqn:E.
      * subst m'. apply andb_prop in E. destruct E as [E1 E2].
        apply Z.ltb_lt in E1.
        assert (Hst : state m = PTTActive).
        { destruct (state m) eqn:S.
          - apply I2 in S. congruence.
          - specialize (I4 eq_refl eq_refl). lia.
          - reflexivity. }
        unfold paired_inv, session_iff_connected, elapsed_since_press.
        destruct m; cbn in *. subst.
        inv_close I3.
      * destruct C as [C|C]; subst m'.
        -- unfold paired_inv, session_iff_connected, elapsed_since_press,
             released.
           destruct m; cbn in *. subst.
           inv_close I3.
        -- apply D. now left.
    + destruct (no_session m w Hd) as (_ & E & _). rewrite E in *.
      cbn [fst snd ret] in *.
      destruct I as (I1 & I2 & I3 & I4).
      unfold paired_inv. repeat split; auto; try apply I2; discriminate.
  - (* EvSwipe *)
    rewrite bind_run in *.
    destruct (dev m) as [d|] eqn:Hd.
    + pose proof (Swipe_manager m d w Hd) as C.
      destruct (Swipe m w) as [[r m'] w']. cbn [fst snd ret] in *.
      destruct C as [C|C]; subst m'.
      * apply F; try reflexivity.
        split; intros H; [change (dev m = None) in H; congruence|discriminate].
      * apply D. now left.
    + destruct (no_session m w Hd) as (_ & _ & E). rewrite E in *.
      cbn [fst snd ret] in *. exact I.
  - (* EvSetKeepAwake *)
    apply F; reflexivity.
  - (* EvClose *)
    rewrite Close_manager. apply D. now left.
Qed.

Lemma history_run filter cb (evs : list Event) (w : World) :
  history filter cb evs w = run evs (fst (NewManager filter cb w)) w.
Proof. reflexivity. Qed.

Lemma run_cons (e : Event) (evs : list Event) (m : Manager) (w : World) :
  run (e :: evs) m w = run evs (fst (step e m w)) (snd (step e m w)).
Proof. cbn [run]. apply bind_run. Qed.

Lemma run_paired_inv (evs : list Event) :
  forall (p : bool) (m : Manager) (w : World),
    paired_inv p m w ->
    paired_from p evs = true ->
    exists p', paired_inv p' (fst (run evs m w)) (snd (run evs m w)).
Proof.
  induction evs as [|e evs IH]; intros p m w I Hp.
  - exists p. exact I.
  - rewrite run_cons. cbn [paired_from] in Hp.
    apply andb_prop in Hp. destruct Hp as [He Hp].
    apply (IH (next_pending e p)); [|exact Hp].
    apply step_paired_inv; [exact I|]. destruct e; auto.
Qed.

Lemma NewManager_paired_inv filter cb (w : World) :
  paired_inv false (fst (NewManager filter cb w)) w.
Proof.
  unfold paired_inv, session_iff_connected. cbn.
  repeat split; auto; discriminate.
Qed.

(** C9, for paired presses and releases: in every state the manager
    reaches from [NewManager] through calls of connect, health check, poll,
    keep-awake tick, [PTTDown], [PTTUp], [Swipe], [SetKeepAwake] and
    [Close], with any time in between and any behaviour of the accessory,
    provided each [PTTUp] answers a [PTTDown] not yet answered, a set
    toggle flag implies the state PTTActive. *)
Theorem toggled_implies_active_when_paired
        (filter : string) (cb : bool) (evs : list Event) (w : World) :
  paired evs = true ->
  pttToggled (fst (history filter cb evs w)) = true ->
  state (fst (history filter cb evs w)) = PTTActive.
Proof.
  intros Hp Ht. rewrite history_run in *.
  destruct (run_paired_inv evs false _ w
              (NewManager_paired_inv filter cb w) Hp)
    as (p' & I1 & _).
  exact (I1 Ht).
Qed.

Lemma toggled_implies_active_when_paired_witness :
  state (fst (history "" true
                 [EvConnect [r1 1 "R1A"] false; EvPTTDown; EvPTTUp] w0))
  = PTTActive.
Proof.
  apply (toggled_implies_active_when_paired "" true
           [EvConnect [r1 1 "R1A"] false; EvPTTDown; EvPTTUp] w0);
    reflexivity.
Defined.

(** C9, as stated, fails: after connect, one press and three releases in
    quick succession the toggle flag is set while the state is Connected. *)
Lemma toggled_while_connected :
  pttToggled (fst tapped_thrice) = true
  /\ state (fst tapped_thrice) = Connected
  /\ state (fst tapped_thrice) <> PTTActive.
Proof.
  assert (E : state (fst tapped_thrice) = Connected) by reflexivity.
  split; [reflexivity|]. split; [exact E|]. rewrite E. discriminate.
Qed.

(** A session is held exactly in the states other than Disconnected,
    whatever the calls. *)
Lemma step_session (e : Event) (m : Manager) (w : World) :
  session_iff_connected m -> session_iff_connected (fst (step e m w)).
Proof.
  intros I.
  assert (D : forall m1, session_iff_connected (dropped m1))
    by (intros m1; unfold session_iff_connected; destruct m1; cbn; tauto).
  assert (C : forall d a b t,
             session_iff_connected (connected_as m d a b t)
             /\ session_iff_connected
                  (set_sleeping true (connected_as m d a b t)))
    by (intros; unfold session_iff_connected; cbn; split; split; discriminate).
  assert (S : session_iff_connected (set_sleeping true m))
    by (unfold session_iff_connected in *; destruct m; exact I).
  destruct e; cbn [step].
  - exact I.
  - destruct (tryConnect_manager bus enum_err m w)
      as [E|(d & a & b & t & [E|E] & _)]; rewrite E; auto; apply C.
  - destruct (healthCheck_manager m w) as [E|E]; rewrite E; auto.
  - unfold Run_poll. destruct (State_eqb (state m) Disconnected).
    + destruct (tryConnect_manager bus enum_err m w)
        as [E|(d & a & b & t & [E|E] & _)]; rewrite E; auto; apply C.
    + destruct (healthCheck_manager m w) as [E|E]; rewrite E; auto.
  - destruct (keepAwakePing_manager m w) as [E|E]; rewrite E; auto.
  - rewrite bind_run. destruct (dev m) as [d|] eqn:Hd.
    + pose proof (PTTDown_manager m d w Hd) as P. cbv zeta in P.
      destruct (PTTDown m w) as [[r m'] w']. cbn [fst snd ret] in *.
      destruct (pttToggled m); [|destruct P as [P|P]]; subst m'; auto;
        unfold session_iff_connected in *;
        destruct m; cbn in *; subst; try tauto; split; discriminate.
    + destruct (no_session m w Hd) as (E & _). rewrite E. exact I.
  - rewrite bind_run. destruct (dev m) as [d|] eqn:Hd.
    + pose proof (PTTUp_manager m d w Hd) as P.
      destruct (PTTUp m w) as [[r m'] w']. cbn [fst snd ret] in *.
      destruct (_ && _); [|destruct P as [P|P]]; subst m'; auto;
        unfold session_iff_connected, released in *;
        destruct m; cbn in *; subst; try tauto; split; discriminate.
    + destruct (no_session m w Hd) as (_ & E & _). rewrite E. exact I.
  - rewrite bind_run. destruct (dev m) as [d|] eqn:Hd.
    + pose proof (Swipe_manager m d w Hd) as P.
      destruct (Swipe m w) as [[r m'] w']. cbn [fst snd ret] in *.
      destruct P as [P|P]; subst m'; auto;
        unfold session_iff_connected in *; destruct m; exact I.
    + destruct (no_session m w Hd) as (_ & _ & E). rewrite E. exact I.
  - unfold session_iff_connected in *. destruct m; exact I.
  - rewrite Close_manager. apply D.
Qed.

Lemma history_session filter cb (evs : list Event) (w : World) :
  session_iff_connected (fst (history filter cb evs w)).
Proof.
  rewrite history_run.
  assert (H : forall (m : Manager) (w' : World),
             session_iff_connected m ->
             session_iff_connected (fst (run evs m w'))).
  { induction evs as [|e evs IH]; intros m w' I; [exact I|].
    rewrite run_cons. apply IH, step_session, I. }
  apply H. unfold session_iff_connected. cbn. tauto.
Qed.

(** ** The keep-awake watchdog *)

Lemma wrap64_le_max (x : Z) : wrap64 x <= maxInt64.
Proof.
  unfold wrap64, maxInt64.
  pose proof (Z.mod_pos_bound (x + 2 ^ 63) (2 ^ 64) ltac:(lia)). lia.
Qed.

Lemma wrap64_small (x : Z) : minInt64 <= x <= maxInt64 -> wrap64 x = x.
Proof.
  unfold wrap64, maxInt64, minInt64. intros H.
  rewrite Z.mod_small; lia.
Qed.

(** The idle test of [keepAwakePing] fires once the idle time has reached
    the configured minutes, also where the [int64] product wraps. *)
Lemma idle_limit_reached (m : Manager) (w : World) :
  0 < sleepAfterMinutes m ->
  sleepAfterMinutes m * Minute <= idle_time m w ->
  (fst (Since (lastActivity m) w) >=? wrap64 (sleepAfterMinutes m * Minute))
  = true.
Proof.
  intros Hpos Hidle. apply Z.geb_le.
  pose proof (wrap64_le_max (sleepAfterMinutes m * Minute)) as Hmax.
  unfold idle_time in Hidle.
  unfold Since.
  destruct (lastActivity m) as [|t]; cbn [fst]; [exact Hmax|].
  rewrite saturate64_spec.
  destruct (Z_le_gt_dec (sleepAfterMinutes m * Minute) maxInt64) as [Hle|Hgt].
  - rewrite wrap64_small; unfold Minute, Second, Millisecond, minInt64,
      maxInt64 in *; lia.
  - unfold Minute, Second, Millisecond, minInt64, maxInt64 in *. lia.
Qed.

Lemma keepAwakePing_idle (m : Manager) (d : aoa.Device) (w : World) :
  dev m = Some d -> state m = Connected -> keepAwake m = true ->
  0 < sleepAfterMinutes m ->
  sleepAfterMinutes m * Minute <= idle_time m w ->
  keepAwakePing m w = (if sleeping m then m else set_sleeping true m, w).
Proof.
  intros Hd Hs Hk Hpos Hidle. unfold keepAwakePing.
  rewrite Hd, Hs, Hk. cbn [State_eqb negb].
  apply Z.gtb_lt in Hpos. rewrite Hpos.
  rewrite !bind_run. cbn [fst snd ret].
  unfold Since at 2. cbn [snd].
  rewrite (idle_limit_reached m w) by (try apply Z.gtb_lt; assumption).
  destruct (sleeping m); reflexivity.
Qed.

Lemma emitted_nothing {A : Type} (c : M A) (w : World) :
  snd (c w) = w -> emitted c w = [].
Proof. unfold emitted. intros ->. apply skipn_all. Qed.

(** C6, amended: a keep-awake tick sends nothing and leaves the world as
    it is whenever the state is not Connected, or keep-awake is disabled,
    or a positive threshold is configured and the idle time has reached it.
    In the first two cases the manager, and with it the flag [sleeping], is
    left as it is, whatever the idle time. In the third case, on a manager
    reached from [NewManager] that is Connected with keep-awake enabled,
    the tick sets [sleeping] and changes nothing else; with [sleeping]
    already set it changes nothing at all. The flag is cleared by
    [touchActivity], hence by [PTTDown] and [Swipe] on a manager with a
    session, and by [SetKeepAwake]. *)
Theorem keepAwakePing_quiet :
  (forall (m : Manager) (w : World),
      state m <> Connected
      \/ keepAwake m = false
      \/ (0 < sleepAfterMinutes m
          /\ sleepAfterMinutes m * Minute <= idle_time m w) ->
      snd (keepAwakePing m w) = w
      /\ emitted (keepAwakePing m) w = [])
  /\ (forall (m : Manager) (w : World),
        state m <> Connected \/ keepAwake m = false ->
        keepAwakePing m w = (m, w))
  /\ (forall (filter : string) (cb : bool) (evs : list Event) (w0 : World),
        let m := fst (history filter cb evs w0) in
        let w := snd (history filter cb evs w0) in
        state m = Connected -> keepAwake m = true ->
        0 < sleepAfterMinutes m ->
        sleepAfterMinutes m * Minute <= idle_time m w ->
        keepAwakePing m w = (set_sleeping true m, w)
        /\ sleeping (fst (keepAwakePing m w)) = true
        /\ (sleeping m = true -> keepAwakePing m w = (m, w)))
  /\ (forall (m : Manager) (w : World),
        sleeping (fst (touchActivity m w)) = false)
  /\ (forall (m : Manager) (d : aoa.Device) (w : World),
        dev m = Some d ->
        sleeping (snd (fst (PTTDown m w))) = false
        /\ sleeping (snd (fst (Swipe m w))) = false)
  /\ (forall (enabled : bool) (mins : Z) (m : Manager) (w : World),
        sleeping (fst (SetKeepAwake enabled mins m w)) = false).
Proof.
  assert (Q : forall (m : Manager) (w : World),
             state m <> Connected \/ keepAwake m = false ->
             keepAwakePing m w = (m, w)).
  { intros m w H. unfold keepAwakePing.
    destruct (dev m) as [d|]; [|reflexivity].
    destruct (State_eqb (state m) Connected) eqn:Hs; [|reflexivity].
    destruct (keepAwake m) eqn:Hk; [|reflexivity].
    destruct H as [H|H]; [|discriminate].
    destruct (state m); try discriminate. congruence. }
  split; [|split; [exact Q|split; [|split; [reflexivity|split;
                                                 [|reflexivity]]]]].
  - intros m w H.
    assert (E : snd (keepAwakePing m w) = w).
    { destruct H as [H|[H|[H1 H2]]];
        [rewrite Q by (left; exact H); reflexivity
        |rewrite Q by (right; exact H); reflexivity|].
      destruct (dev m) as [d|] eqn:Hd;
        [|unfold keepAwakePing; now rewrite Hd].
      destruct (State_eqb (state m) Connected) eqn:Hs;
        [|unfold keepAwakePing; now rewrite Hd, Hs].
      destruct (keepAwake m) eqn:Hk;
        [|unfold keepAwakePing; now rewrite Hd, Hs, Hk].
      rewrite (keepAwakePing_idle m d w); auto.
      destruct (state m); try discriminate. reflexivity. }
    split; [exact E|]. apply emitted_nothing, E.
  - intros filter cb evs w0 m w Hs Hk Hpos Hidle.
    destruct (dev m) as [d|] eqn:Hd.
    + rewrite (keepAwakePing_idle m d w Hd Hs Hk Hpos Hidle).
      destruct (sleeping m) eqn:Hsl.
      * assert (E : set_sleeping true m = m)
          by (destruct m; cbn in *; subst; reflexivity).
        rewrite E. repeat split. exact Hsl.
      * repeat split. discriminate.
    + pose proof (history_session filter cb evs w0) as I. apply I in Hd.
      fold m in Hd. congruence.
  - intros m d w Hd. split.
    + pose proof (PTTDown_manager m d w Hd) as P. cbv zeta in P.
      destruct (pttToggled m); [|destruct P as [P|P]]; rewrite P;
        destruct m; reflexivity.
    + destruct (Swipe_manager m d w Hd) as [P|P]; rewrite P;
        destruct m; reflexivity.
Qed.

(** C6 on the scenario of the design document: threshold 60 minutes, last
    activity 61 minutes ago, keep-awake enabled, state Connected. *)
Lemma keepAwakePing_quiet_witness :
  let m := fst idle_61_minutes in
  let w := snd idle_61_minutes in
  keepAwakePing m w = (set_sleeping true m, w)
  /\ emitted (keepAwakePing m) w = [].
Proof.
  destruct keepAwakePing_quiet as (H1 & _ & H2 & _).
  split.
  - apply (H2 EmptyString true
              [EvConnect [r1 1 "R1A"] false; EvWait 3660000000000] w0);
      vm_compute; first [reflexivity|discriminate].
  - apply (H1 (fst idle_61_minutes) (snd idle_61_minutes)).
    right. right. vm_compute. split; [reflexivity|discriminate].
Defined.

(** C6, as stated, fails: connected, PTT tapped on, then left alone for 61
    minutes with the threshold at 60, the idle time has reached a positive
    threshold, yet the tick does not set [sleeping], the state being
    PTTActive. *)
Lemma keepAwakePing_flag_stays_clear :
  let h := history EmptyString true
             [EvConnect [r1 1 "R1A"] false; EvPTTDown; EvPTTUp;
              EvWait 3660000000000] w0 in
  let m := fst h in
  let w := snd h in
  0 < sleepAfterMinutes m
  /\ sleepAfterMinutes m * Minute <= idle_time m w
  /\ state m = PTTActive
  /\ keepAwake m = true
  /\ sleeping m = false
  /\ sleeping (fst (keepAwakePing m w)) = false.
Proof.
  cbv zeta. repeat split; vm_compute; first [reflexivity|discriminate].
Qed.

(** ** The swipe direction *)

Lemma step_swipeLeft (e : Event) (m : Manager) (w : World) :
  swipeLeft (fst (step e m w)) =
  match e, dev m with
  | EvSwipe, Some _ => negb (swipeLeft m)
  | _, _ => swipeLeft m
  end.
Proof.
  destruct e; cbn [step].
  - reflexivity.
  - destruct (tryConnect_manager bus enum_err m w)
      as [E|(d & a & b & t & [E|E] & _)]; rewrite E; reflexivity.
  - destruct (healthCheck_manager m w) as [E|E]; rewrite E; reflexivity.
  - unfold Run_poll. destruct (State_eqb (state m) Disconnected).
    + destruct (tryConnect_manager bus enum_err m w)
        as [E|(d & a & b & t & [E|E] & _)]; rewrite E; reflexivity.
    + destruct (healthCheck_manager m w) as [E|E]; rewrite E; reflexivity.
  - destruct (keepAwakePing_manager m w) as [E|E]; rewrite E; reflexivity.
  - rewrite bind_run. destruct (dev m) as [d|] eqn:Hd.
    + pose proof (PTTDown_manager m d w Hd) as P. cbv zeta in P.
      destruct (PTTDown m w) as [[r m'] w']. cbn [fst snd ret] in *.
      destruct (pttToggled m); [|destruct P as [P|P]]; subst m'; reflexivity.
    + destruct (no_session m w Hd) as (E & _). rewrite E. reflexivity.
  - rewrite bind_run. destruct (dev m) as [d|] eqn:Hd.
    + pose proof (PTTUp_manager m d w Hd) as P.
      destruct (PTTUp m w) as [[r m'] w']. cbn [fst snd ret] in *.
      destruct (_ && _); [|destruct P as [P|P]]; subst m'; reflexivity.
    + destruct (no_session m w Hd) as (_ & E & _). rewrite E. reflexivity.
  - rewrite bind_run. destruct (dev m) as [d|] eqn:Hd.
    + pose proof (Swipe_manager m d w Hd) as P.
      destruct (Swipe m w) as [[r m'] w']. cbn [fst snd ret] in *.
      destruct P as [P|P]; subst m'; reflexivity.
    + destruct (no_session m w Hd) as (_ & _ & E). rewrite E. reflexivity.
  - reflexivity.
  - rewrite Close_manager. reflexivity.
Qed.

Lemma run_swipeLeft (evs : list Event) :
  forall (m : Manager) (w : World),
    swipeLeft (fst (run evs m w)) =
    if Nat.even (swipes_served evs m w) then swipeLeft m
    else negb (swipeLeft m).
Proof.
  induction evs as [|e evs IH]; intros m w; [reflexivity|].
  rewrite run_cons, IH, step_swipeLeft. cbn [swipes_served].
  set (n := swipes_served evs (fst (step e m w)) (snd (step e m w))).
  destruct e; try reflexivity.
  destruct (dev m); [|reflexivity].
  change (1 + n)%nat with (S n). rewrite Nat.even_succ, <- Nat.negb_even.
  destruct (Nat.even n), (swipeLeft m); reflexivity.
Qed.

Lemma swipe_reports_spec_head (startX endX : Z) :
  exists rest,
    swipe_reports_spec startX endX
    = aoa.TouchReport true startX 32590 :: rest.
Proof.
  unfold swipe_reports_spec. cbn [map app]. eexists. f_equal.
  unfold swipe_x_spec.
  rewrite Z.mul_0_l, Z.add_0_r, Z.mul_comm, Z.quot_mul by lia. reflexivity.
Qed.

(** The first report of a gesture is the touch-down at its start X. *)
Lemma Swipe_first_report (m : Manager) (d : aoa.Device) (w : World) :
  dev m = Some d ->
  exists ok rest,
    emitted (Swipe m) w
    = emitted (wake m d) w
      ++ send_event d (touchHIDID m) ok
           (aoa.TouchReport true (swipe_start m) 32590) :: rest.
Proof.
  intros Hd. pose proof (Swipe_run m d w Hd) as R. cbv zeta in R.
  rewrite swipe_reports_refine in R.
  destruct (swipe_reports_spec_head (swipe_start m) (swipe_end m))
    as [more Hr].
  rewrite Hr in R.
  destruct (first_failure 10 (oracle (snd (wake m d w)))) as [k|].
  - destruct R as (err & cleanup & _ & R & _).
    rewrite wake_trace, <- app_assoc in R. apply emitted_intro in R.
    rewrite R. destruct k as [|k]; cbn [firstn nth map app];
      eexists _, _; reflexivity.
  - destruct R as (_ & R).
    rewrite wake_trace, <- app_assoc in R. apply emitted_intro in R.
    rewrite R. cbn [map app]. eexists _, _; reflexivity.
Qed.

(** C2, for the invocations that find a session: a [Swipe] on a manager
    holding a session flips [swipeLeft] whether its transfers succeed or
    fail, and its first report is the touch-down at X = 27000 when
    [swipeLeft] was set (a left sweep, to 5000) and at X = 5000 otherwise
    (a right sweep, to 27000). [NewManager] starts with the left direction,
    and no other call touches the flag: after any sequence of calls it is
    set exactly when an even number of [Swipe] invocations have found a
    session, so that these invocations strictly alternate, left first. *)
Theorem Swipe_alternates_with_session :
  (forall (m : Manager) (d : aoa.Device) (w : World),
      dev m = Some d ->
      swipeLeft (snd (fst (Swipe m w))) = negb (swipeLeft m)
      /\ exists ok rest,
          emitted (Swipe m) w
          = emitted (wake m d) w
            ++ send_event d (touchHIDID m) ok
                 (aoa.TouchReport true (if swipeLeft m then 27000 else 5000)
                                  32590) :: rest)
  /\ (forall (filter : string) (cb : bool) (w : World),
        swipeLeft (fst (NewManager filter cb w)) = true)
  /\ (forall (filter : string) (cb : bool) (evs : list Event) (w : World),
        swipeLeft (fst (history filter cb evs w))
        = Nat.even (swipes_served evs (fst (NewManager filter cb w)) w)).
Proof.
  split; [|split].
  - intros m d w Hd. split; [|apply Swipe_first_report, Hd].
    destruct (Swipe_manager m d w Hd) as [E|E]; rewrite E; reflexivity.
  - reflexivity.
  - intros filter cb evs w. rewrite history_run, run_swipeLeft.
    destruct (Nat.even _); reflexivity.
Qed.

(** C2 on a connected manager whose swipe fails at its first report: the
    direction flips all the same. *)
Lemma Swipe_alternates_with_session_witness :
  let m := fst connected in
  let w := mkWorld (now (snd connected)) [] [true; true; false] in
  fst (fst (Swipe m w)) <> None
  /\ swipeLeft m = true
  /\ swipeLeft (snd (fst (Swipe m w))) = false.
Proof.
  destruct Swipe_alternates_with_session as (H & _ & _).
  destruct (H (fst connected)
              (aoa.mkDevice (r1 1 "R1A") "" 3 [1; 2] 2)
              (mkWorld (now (snd connected)) [] [true; true; false])
              eq_refl) as [H1 _].
  split; [vm_compute; discriminate|]. split; [reflexivity|exact H1].
Defined.

(** C2, as stated, fails: a [Swipe] invoked while no session exists fails
    and leaves the direction as it was, so the invocation after it, the
    second one, still sweeps left. *)
Lemma Swipe_without_session_keeps_direction :
  let m := fst (NewManager "" true w0) in
  fst (fst (Swipe m w0)) = Some ErrNoDevice
  /\ swipeLeft m = true
  /\ swipeLeft (snd (fst (Swipe m w0))) = true
  /\ swipeLeft (fst (history "" true
                          [EvSwipe; EvConnect [r1 1 "R1A"] false] w0))
     = true.
Proof. vm_compute. repeat split. Qed.

End device_facts.

(** * Further properties of the session *)

Module aoa_more.
Import aoa.

(** ** Open and the handles it opened *)

Lemma Open_select_world (filter : string) (devs : list UsbDev) :
  forall (dev : option UsbDev) (w : World),
    snd (Open_select filter devs dev w)
    = mkWorld (now w) (trace w ++ flat_map (Open_visit filter) devs) (oracle w).
Proof.
  induction devs as [|u devs IH]; intros dev w.
  - destruct w. cbn. now rewrite app_nil_r.
  - cbn [Open_select flat_map]. rewrite bind_run. unfold Open_visit at 1.
    fold (serial_matches filter u).
    destruct (serial_matches filter u).
    + rewrite IH. cbn. now rewrite <- app_assoc.
    + rewrite bind_run, IH. cbn. now rewrite <- !app_assoc.
Qed.

Lemma closed_handles_visits (filter : string) (devs : list UsbDev) :
  closed_handles (flat_map (Open_visit filter) devs)
  = List.filter (fun u => negb (serial_matches filter u)) devs.
Proof.
  induction devs as [|u devs IH]; [reflexivity|].
  cbn [flat_map List.filter]. unfold closed_handles in *.
  rewrite flat_map_app, IH. unfold Open_visit.
  destruct (serial_matches filter u); reflexivity.
Qed.

Lemma Open_world (bus : list UsbDev) (enum_err : bool) (filter : string)
      (w : World) :
  snd (Open bus enum_err filter w)
  = mkWorld (now w)
      (trace w
       ++ (if enum_err && Nat.eqb (List.length (List.filter isR1 bus)) 0
           then []
           else flat_map (Open_visit filter) (List.filter isR1 bus))
       ++ match candidates filter bus with
          | [] => [CloseContext]
          | _ :: _ => []
          end)
      (oracle w).
Proof.
  pose proof (aoa_facts.Open_run bus enum_err filter w) as R.
  unfold Open in *.
  destruct (enum_err && Nat.eqb (List.length (List.filter isR1 bus)) 0) eqn:E.
  - destruct (candidates filter bus); [reflexivity|].
    rewrite bind_run in R. discriminate.
  - rewrite bind_run in *. rewrite Open_select_world.
    destruct (fst (Open_select filter (List.filter isR1 bus) None w)).
    + destruct (candidates filter bus); [discriminate|].
      cbn. now rewrite app_nil_r.
    + destruct (candidates filter bus); [|discriminate].
      rewrite bind_run. cbn. now rewrite <- app_assoc.
Qed.

(** X1. Of the handles [Open] opened, it releases exactly those of the R1s
    that fail the serial filter, in enumeration order; a device that passes
    the filter is never released, also when a later one is chosen in its
    place. The context is released exactly when [Open] fails, and no
    transfer outcome is consumed. *)
Theorem Open_releases_rejected_only
        (bus : list UsbDev) (enum_err : bool) (filter : string) (w : World) :
  let evs := emitted (Open bus enum_err filter) w in
  closed_handles evs
  = List.filter (fun u => negb (serial_matches filter u))
                (List.filter isR1 bus)
  /\ (forall c, In c (candidates filter bus) -> ~ In c (closed_handles evs))
  /\ (In CloseContext evs <-> exists e, fst (Open bus enum_err filter w) = Err e)
  /\ oracle (snd (Open bus enum_err filter w)) = oracle w
  /\ now (snd (Open bus enum_err filter w)) = now w.
Proof.
  cbv zeta.
  assert (Ev : emitted (Open bus enum_err filter) w
               = (if enum_err && Nat.eqb (List.length (List.filter isR1 bus)) 0
                  then []
                  else flat_map (Open_visit filter) (List.filter isR1 bus))
                 ++ match candidates filter bus with
                    | [] => [CloseContext]
                    | _ :: _ => []
                    end).
  { apply emitted_intro. rewrite Open_world. reflexivity. }
  assert (Hc : closed_handles (emitted (Open bus enum_err filter) w)
               = List.filter (fun u => negb (serial_matches filter u))
                             (List.filter isR1 bus)).
  { rewrite Ev. unfold closed_handles. rewrite flat_map_app.
    fold (closed_handles
            (if enum_err && Nat.eqb (List.length (List.filter isR1 bus)) 0
             then [] else flat_map (Open_visit filter) (List.filter isR1 bus))).
    destruct (enum_err && Nat.eqb (List.length (List.filter isR1 bus)) 0) eqn:E.
    - apply andb_prop in E. destruct E as [_ E]. unfold candidates.
      destruct (List.filter isR1 bus); [|discriminate].
      reflexivity.
    - rewrite closed_handles_visits.
      destruct (candidates filter bus); cbn; now rewrite app_nil_r. }
  split; [exact Hc|]. split; [|split; [|split]].
  - intros c Hin. rewrite Hc. intros Hrej.
    unfold candidates in Hin. apply filter_In in Hin. apply filter_In in Hrej.
    destruct Hin as [_ H1]. destruct Hrej as [_ H2]. rewrite H1 in H2.
    discriminate.
  - rewrite Ev, aoa_facts.Open_run.
    assert (Hv : ~ In CloseContext
                   (if enum_err && Nat.eqb (List.length (List.filter isR1 bus)) 0
                    then []
                    else flat_map (Open_visit filter) (List.filter isR1 bus))).
    { destruct (enum_err && _); [intros []|].
      intros H. apply in_flat_map in H. destruct H as (u & _ & H).
      unfold Open_visit in H.
      destruct (serial_matches filter u); cbn in H;
        intuition discriminate. }
    destruct (candidates filter bus); split.
    + intros _. eexists. reflexivity.
    + intros _. apply in_or_app. right. left. reflexivity.
    + intros H. apply in_app_or in H. destruct H as [H|[]]. contradiction.
    + intros [e H]. discriminate.
  - rewrite Open_world. reflexivity.
  - rewrite Open_world. reflexivity.
Qed.

Lemma Open_releases_rejected_only_witness :
  closed_handles
    (emitted (Open [r1 1 "R1A"; r1 2 "R1B"; r1 3 "R1C"] false "R1B") w0)
  = [r1 1 "R1A"; r1 3 "R1C"].
Proof.
  destruct (Open_releases_rejected_only
              [r1 1 "R1A"; r1 2 "R1B"; r1 3 "R1C"] false "R1B" w0) as [H _].
  exact H.
Defined.

(** ** RegisterDescriptor, outcome by outcome *)

Lemma GetDescriptor_known (dt : DescriptorType) :
  known dt <-> 0 <= dt <= 4.
Proof.
  unfold known, GetDescriptor, DescKeyboard, DescConsumerControl,
    DescSystemControl, DescCameraControl, DescTouchScreen.
  destruct (Z.eqb_spec dt 0); [split; [lia|discriminate]|].
  destruct (Z.eqb_spec dt 1); [split; [lia|discriminate]|].
  destruct (Z.eqb_spec dt 2); [split; [lia|discriminate]|].
  destruct (Z.eqb_spec dt 3); [split; [lia|discriminate]|].
  destruct (Z.eqb_spec dt 4); [split; [lia|discriminate]|].
  split; [congruence|lia].
Qed.

Lemma descriptor_length (dt : DescriptorType) (desc : list Z) :
  GetDescriptor dt = Some desc ->
  wrap16 (Z.of_nat (List.length desc)) = Z.of_nat (List.length desc).
Proof.
  unfold GetDescriptor. intros H.
  repeat match type of H with
         | (if ?c then _ else _) = _ =>
             destruct c; [injection H as <-; reflexivity|]
         end.
  discriminate.
Qed.

Lemma RegisterDescriptor_run (dt : DescriptorType) (desc : list Z)
      (d : Device) (w : World) :
  GetDescriptor dt = Some desc ->
  let id := nextHIDID d in
  let o2 := hd true (tl (oracle w)) in
  let o3 := hd true (tl (tl (oracle w))) in
  RegisterDescriptor dt d w =
  if next_ok w
  then
    if o2
    then (Ok id, id_registered d,
          mkWorld (now w + 300 * Millisecond)
            (trace w ++ [register_request d id desc true;
                         set_descriptor_request d id desc true])
            (tl (tl (oracle w))))
    else (Err (ErrSetHIDReportDesc
                 (ErrControlTransfer reqSetHIDDesc id 0 ErrUsb)),
          id_drawn d,
          mkWorld (now w)
            (trace w ++ [register_request d id desc true;
                         set_descriptor_request d id desc false;
                         unregister_request d (id, o3)])
            (tl (tl (tl (oracle w)))))
  else (Err (ErrRegisterHID
               (ErrControlTransfer reqRegisterHID id
                  (Z.of_nat (List.length desc)) ErrUsb)),
        id_drawn d,
        mkWorld (now w) (trace w ++ [register_request d id desc false])
                (tl (oracle w))).
Proof.
  intros H. cbv zeta. unfold RegisterDescriptor, register_request.
  rewrite H, (descriptor_length dt desc H).
  destruct w as [n t o].
  destruct o as [|[|] [|[|] [|b3 o]]]; cbn; rewrite <- ?app_assoc;
    reflexivity.
Qed.

(** X2. A descriptor type outside the five known ones (0..4) makes
    [RegisterDescriptor] fail before anything happens: no transfer, no
    delay, and the id counter is not consumed. *)
Theorem RegisterDescriptor_unknown_type
        (dt : DescriptorType) (d : Device) (w : World) :
  dt < 0 \/ 4 < dt ->
  RegisterDescriptor dt d w = (Err (ErrUnknownDescriptor dt), d, w).
Proof.
  intros H. unfold RegisterDescriptor.
  destruct (GetDescriptor dt) as [desc|] eqn:E; [|reflexivity].
  assert (K : known dt) by (unfold known; congruence).
  apply GetDescriptor_known in K. lia.
Qed.

Lemma RegisterDescriptor_unknown_type_witness :
  RegisterDescriptor 5 (fresh_session (r1 1 "R1A")) w0
  = (Err (ErrUnknownDescriptor 5), fresh_session (r1 1 "R1A"), w0).
Proof.
  apply (RegisterDescriptor_unknown_type 5 (fresh_session (r1 1 "R1A")) w0).
  right. lia.
Defined.

(** X3. On a known descriptor type [RegisterDescriptor] draws the next id
    and then behaves by the outcome of its transfers. Both succeed: exactly
    the register request, carrying the descriptor's byte length, and the
    set-descriptor request, carrying its bytes, then 300 ms; the id is
    returned, appended to the registered ids and becomes [lastHIDID]. The
    register request fails: nothing else is sent. The set-descriptor
    request fails: one unregister request for the id follows, whose own
    outcome is ignored. In both failures there is no delay and the
    registered ids and [lastHIDID] stay as they were. *)
Theorem RegisterDescriptor_outcomes
        (dt : DescriptorType) (desc : list Z) (d : Device) (w : World) :
  GetDescriptor dt = Some desc ->
  let id := nextHIDID d in
  let r := RegisterDescriptor dt d w in
  let evs := emitted (RegisterDescriptor dt d) w in
  (next_ok w = true -> hd true (tl (oracle w)) = true ->
   fst r = (Ok id, id_registered d)
   /\ evs = [register_request d id desc true;
             set_descriptor_request d id desc true]
   /\ now (snd r) = now w + 300 * Millisecond)
  /\ (next_ok w = false ->
      (exists e, fst (fst r) = Err (ErrRegisterHID e))
      /\ snd (fst r) = id_drawn d
      /\ evs = [register_request d id desc false]
      /\ now (snd r) = now w)
  /\ (next_ok w = true -> hd true (tl (oracle w)) = false ->
      (exists e, fst (fst r) = Err (ErrSetHIDReportDesc e))
      /\ snd (fst r) = id_drawn d
      /\ evs = [register_request d id desc true;
                set_descriptor_request d id desc false;
                unregister_request d (id, hd true (tl (tl (oracle w))))]
      /\ now (snd r) = now w)
  /\ registered (id_drawn d) = registered d
  /\ lastHIDID (id_drawn d) = lastHIDID d
  /\ registered (id_registered d) = registered d ++ [id]
  /\ lastHIDID (id_registered d) = id.
Proof.
  intros H id r evs. subst r evs.
  pose proof (RegisterDescriptor_run dt desc d w H) as R. cbv zeta in R.
  unfold emitted. rewrite R. fold id.
  split; [|split; [|split]].
  - intros -> ->. cbn [fst snd trace now].
    rewrite skipn_length_app. repeat split.
  - intros ->. cbn [fst snd trace now].
    rewrite skipn_length_app. repeat split. eexists. reflexivity.
  - intros -> ->. cbn [fst snd trace now].
    rewrite skipn_length_app. repeat split. eexists. reflexivity.
  - repeat split.
Qed.

Lemma RegisterDescriptor_outcomes_witness :
  fst (RegisterDescriptor DescTouchScreen (fresh_session (r1 1 "R1A"))
         (mkWorld 0 [] [true; false; false]))
  = (Err (ErrSetHIDReportDesc (ErrControlTransfer 56 1 0 ErrUsb)),
     id_drawn (fresh_session (r1 1 "R1A")))
  /\ emitted (RegisterDescriptor DescTouchScreen (fresh_session (r1 1 "R1A")))
             (mkWorld 0 [] [true; false; false])
     = [register_request (fresh_session (r1 1 "R1A")) 1
          touchScreenDescriptor true;
        set_descriptor_request (fresh_session (r1 1 "R1A")) 1
          touchScreenDescriptor false;
        unregister_request (fresh_session (r1 1 "R1A")) (1, false)].
Proof.
  destruct (RegisterDescriptor_outcomes DescTouchScreen touchScreenDescriptor
              (fresh_session (r1 1 "R1A"))
              (mkWorld 0 [] [true; false; false]) eq_refl)
    as (_ & _ & H & _).
  destruct (H eq_refl eq_refl) as (_ & _ & H2 & _).
  split; [reflexivity|exact H2].
Defined.

(** ** UnregisterDescriptor *)

Lemma UnregisterDescriptor_run (d : Device) (w : World) (ids : list Z)
      (id : Z) :
  registered d = ids ++ [id] ->
  UnregisterDescriptor d w
  = (if next_ok w then None
     else Some (ErrControlTransfer reqUnregisterHID id 0 ErrUsb),
     set_registered ids d,
     mkWorld (now w + 200 * Millisecond)
       (trace w ++ [unregister_request d (id, next_ok w)])
       (tl (oracle w))).
Proof.
  intros H. unfold UnregisterDescriptor. rewrite H.
  rewrite length_app, Nat.add_comm. cbn [List.length Nat.add].
  rewrite last_last, removelast_last.
  rewrite !bind_run, controlTransfer_run. reflexivity.
Qed.

(** X4. [UnregisterDescriptor] does nothing at all when no id is
    registered. Otherwise it removes the most recently registered id and
    only that one, sends one unregister request for it and waits 200 ms;
    the id is removed also when the request fails (the error is returned),
    and [lastHIDID] keeps naming it. *)
Theorem UnregisterDescriptor_pops_last (d : Device) (w : World) :
  (registered d = [] -> UnregisterDescriptor d w = (None, d, w))
  /\ (forall (ids : list Z) (id : Z),
        registered d = ids ++ [id] ->
        UnregisterDescriptor d w
        = (if next_ok w then None
           else Some (ErrControlTransfer reqUnregisterHID id 0 ErrUsb),
           set_registered ids d,
           mkWorld (now w + 200 * Millisecond)
             (trace w ++ [unregister_request d (id, next_ok w)])
             (tl (oracle w)))
        /\ lastHIDID (set_registered ids d) = lastHIDID d
        /\ nextHIDID (set_registered ids d) = nextHIDID d).
Proof.
  split.
  - intros H. unfold UnregisterDescriptor. rewrite H. reflexivity.
  - intros ids id H. split; [|split; reflexivity].
    apply UnregisterDescriptor_run, H.
Qed.

Lemma UnregisterDescriptor_pops_last_witness :
  let '(d, w) := two_registrations in
  fst (UnregisterDescriptor d w) = (None, set_registered [1] d).
Proof.
  destruct (UnregisterDescriptor_pops_last (fst two_registrations)
              (snd two_registrations)) as [_ H].
  destruct (H [1] 2 eq_refl) as [E _].
  change (fst (UnregisterDescriptor (fst two_registrations)
                 (snd two_registrations))
          = (None, set_registered [1] (fst two_registrations))).
  rewrite E. reflexivity.
Defined.

(** X5. Registering and then unregistering gives the registered ids back
    as they were and sends the unregister request for the id just
    returned, but the id is spent: the counter stays advanced and
    [lastHIDID], the target of [SendReport], still names the id that is no
    longer registered. *)
Theorem Register_then_Unregister
        (dt : DescriptorType) (d : Device) (w : World) (id : Z) :
  fst (fst (RegisterDescriptor dt d w)) = Ok id ->
  let d1 := snd (fst (RegisterDescriptor dt d w)) in
  let w1 := snd (RegisterDescriptor dt d w) in
  let d2 := snd (fst (UnregisterDescriptor d1 w1)) in
  id = nextHIDID d
  /\ registered d2 = registered d
  /\ request_ids reqUnregisterHID (emitted (UnregisterDescriptor d1) w1) = [id]
  /\ nextHIDID d2 = wrap16 (id + 1)
  /\ lastHIDID d2 = id.
Proof.
  intros H. cbv zeta.
  destruct (GetDescriptor dt) as [desc|] eqn:G;
    [|unfold RegisterDescriptor in H; rewrite G in H; discriminate].
  pose proof (RegisterDescriptor_run dt desc d w G) as R. cbv zeta in R.
  rewrite R in *.
  destruct (next_ok w); [|discriminate].
  destruct (hd true (tl (oracle w))); [|discriminate].
  cbn [fst snd] in *. injection H as <-.
  unfold emitted.
  rewrite (UnregisterDescriptor_run (id_registered d) _ (registered d)
             (nextHIDID d) eq_refl).
  cbn [fst snd trace].
  rewrite skipn_length_app. repeat split.
Qed.

Lemma Register_then_Unregister_witness :
  let d := fresh_session (r1 1 "R1A") in
  let d1 := snd (fst (RegisterDescriptor DescSystemControl d w0)) in
  let w1 := snd (RegisterDescriptor DescSystemControl d w0) in
  registered (snd (fst (UnregisterDescriptor d1 w1))) = []
  /\ lastHIDID (snd (fst (UnregisterDescriptor d1 w1))) = 1.
Proof.
  destruct (Register_then_Unregister DescSystemControl
              (fresh_session (r1 1 "R1A")) w0 1 eq_refl)
    as (_ & H1 & _ & _ & H2).
  split; [exact H1|exact H2].
Defined.

(** ** TapTo *)

(** X6. [TapTo] sends the key-down report and, 80 ms later, the key-up
    report to the same id; when the key-down transfer fails the key-up
    report is never sent and there is no delay. The error names the report
    that failed. *)
Theorem TapTo_down_then_up (d : Device) (hid : Z) (down up : list Z)
        (w : World) :
  let o2 := hd true (tl (oracle w)) in
  TapTo d hid down up w =
  if next_ok w
  then (if o2 then None
        else Some (ErrKeyUp (ErrControlTransfer reqSendHIDEvent hid 0 ErrUsb)),
        mkWorld (now w + 80 * Millisecond)
          (trace w ++ [send_event d hid true down; send_event d hid o2 up])
          (tl (tl (oracle w))))
  else (Some (ErrKeyDown (ErrControlTransfer reqSendHIDEvent hid 0 ErrUsb)),
        mkWorld (now w) (trace w ++ [send_event d hid false down])
                (tl (oracle w))).
Proof.
  cbv zeta. unfold TapTo, SendReportTo.
  rewrite bind_run, controlTransfer_run.
  destruct (next_ok w); cbn [fst snd]; [|reflexivity].
  rewrite !bind_run, controlTransfer_run. unfold next_ok. cbn.
  rewrite <- app_assoc.
  destruct (hd true (tl (oracle w))); reflexivity.
Qed.

(** ** The report encoders lose nothing *)

Lemma uint16_split (x : Z) :
  0 <= x < 65536 -> x = 256 * Z.shiftr x 8 + Z.land x 0xFF.
Proof.
  intros H. rewrite Z.shiftr_div_pow2 by lia.
  change 0xFF with (Z.ones 8). rewrite Z.land_ones by lia.
  change (2 ^ 8) with 256. apply Z.div_mod. lia.
Qed.

(** X7. For [uint16] arguments the byte encoders are injective: a touch
    report determines the tip flag and both coordinates, and a consumer
    control report determines its usage code (low byte first). *)
Theorem report_encoders_injective :
  (forall (tip tip' : bool) (x y x' y' : Z),
      0 <= x < 65536 -> 0 <= y < 65536 ->
      0 <= x' < 65536 -> 0 <= y' < 65536 ->
      TouchReport tip x y = TouchReport tip' x' y' ->
      tip = tip' /\ x = x' /\ y = y')
  /\ (forall u u' : Z,
        0 <= u < 65536 -> 0 <= u' < 65536 ->
        ccDown u = ccDown u' -> u = u')
  /\ (forall u : Z,
        0 <= u < 65536 ->
        exists lo hi, ccDown u = [lo; hi] /\ u = lo + 256 * hi
                      /\ 0 <= lo < 256 /\ 0 <= hi < 256).
Proof.
  split; [|split].
  - intros tip tip' x y x' y' Hx Hy Hx' Hy' E. unfold TouchReport in E.
    rewrite !aoa_facts.byte_land, !aoa_facts.byte_high in E by assumption.
    injection E as Ef E1 E2 E3 E4.
    split; [destruct tip, tip'; congruence|].
    rewrite (uint16_split x Hx), (uint16_split x' Hx'),
      (uint16_split y Hy), (uint16_split y' Hy').
    rewrite E1, E2, E3, E4. split; reflexivity.
  - intros u u' Hu Hu' E. unfold ccDown in E.
    rewrite !aoa_facts.byte_land, !aoa_facts.byte_high in E by assumption.
    injection E as E1 E2.
    rewrite (uint16_split u Hu), (uint16_split u' Hu'), E1, E2. reflexivity.
  - intros u Hu. unfold ccDown.
    rewrite aoa_facts.byte_land, aoa_facts.byte_high by assumption.
    exists (Z.land u 0xFF), (Z.shiftr u 8).
    split; [reflexivity|]. split; [rewrite (uint16_split u Hu) at 1; lia|].
    rewrite Z.shiftr_div_pow2 by lia.
    change 0xFF with (Z.ones 8). rewrite Z.land_ones by lia.
    change (2 ^ 8) with 256. split; [apply Z.mod_pos_bound; lia|].
    split; [apply Z.div_pos; lia|apply Z.div_lt_upper_bound; lia].
Qed.

Lemma report_encoders_injective_witness :
  ccDown 0x0223 = [0x23; 0x02] /\ 0x0223 = 0x23 + 256 * 0x02.
Proof.
  destruct report_encoders_injective as (_ & _ & H).
  destruct (H 0x0223 ltac:(lia)) as (lo & hi & E & Hs & _).
  cbv in E. injection E as <- <-. split; [reflexivity|exact Hs].
Defined.

End aoa_more.

(** * Further properties of the manager *)

Module device_more.
Import device.

Lemma Close_world (d : aoa.Device) (w : World) :
  aoa.Close d w
  = (aoa.set_registered [] d,
     mkWorld (now w) (trace w ++ teardown d (oracle w))
             (skipn (List.length (aoa.registered d)) (oracle w))).
Proof. rewrite aoa_facts.Close_run. reflexivity. Qed.

Lemma teardown_no_notify (d : aoa.Device) (o : list bool) :
  Forall (fun e => is_notify e = false) (teardown d o).
Proof.
  unfold teardown. apply Forall_app. split; [|repeat constructor].
  apply Forall_forall. intros e H. apply in_map_iff in H.
  destruct H as (p & <- & _). reflexivity.
Qed.

(** ** healthCheck *)

Lemma healthCheck_run (m : Manager) (d : aoa.Device) (w : World) :
  dev m = Some d ->
  healthCheck m w =
  if next_ok w
  then (m, mkWorld (now w) (trace w ++ [ReadSerial (aoa.handle d) true])
                   (tl (oracle w)))
  else (dropped m,
        mkWorld (now w)
          (trace w ++ [ReadSerial (aoa.handle d) false]
           ++ teardown d (tl (oracle w)) ++ notes m Disconnected)
          (skipn (List.length (aoa.registered d)) (tl (oracle w)))).
Proof.
  intros Hd. unfold healthCheck. rewrite Hd.
  rewrite bind_run. unfold aoa.Ping at 1 2.
  assert (P : aoa.Ping d w
              = (if next_ok w then None else Some ErrUsb,
                 mkWorld (now w)
                   (trace w ++ [ReadSerial (aoa.handle d) (next_ok w)])
                   (tl (oracle w))))
    by (destruct w as [n t [|b o]]; reflexivity).
  fold (aoa.Ping d). rewrite P.
  destruct (next_ok w); cbn [fst snd]; [reflexivity|].
  rewrite bind_run, Close_world. cbn [fst snd].
  rewrite bind_run, device_facts.notify_run. cbn [fst snd ret now trace oracle].
  unfold dropped, notes. cbn [onChange set_dev set_state set_pttToggled].
  rewrite <- !app_assoc. reflexivity.
Qed.

(** X8. [healthCheck] without a session does nothing. With a session it
    reads the serial number and sends no control transfer as long as the
    read succeeds, leaving the manager as it is. When the read fails it
    tears the session down (one unregister request per registered id, then
    the handle and the context), drops to Disconnected with the session
    slot empty and the toggle flag cleared, and notifies the observer of
    Disconnected. *)
Theorem healthCheck_outcomes (m : Manager) (w : World) :
  (dev m = None -> healthCheck m w = (m, w))
  /\ (forall d, dev m = Some d -> next_ok w = true ->
        fst (healthCheck m w) = m
        /\ emitted (healthCheck m) w = [ReadSerial (aoa.handle d) true])
  /\ (forall d, dev m = Some d -> next_ok w = false ->
        fst (healthCheck m w) = dropped m
        /\ emitted (healthCheck m) w
           = ReadSerial (aoa.handle d) false
             :: teardown d (tl (oracle w)) ++ notes m Disconnected
        /\ dev (dropped m) = None /\ state (dropped m) = Disconnected
        /\ pttToggled (dropped m) = false).
Proof.
  split; [|split].
  - intros H. unfold healthCheck. rewrite H. reflexivity.
  - intros d Hd Hok. unfold emitted.
    rewrite (healthCheck_run m d w Hd), Hok. cbn [fst snd trace].
    rewrite skipn_length_app. split; reflexivity.
  - intros d Hd Hok. unfold emitted.
    rewrite (healthCheck_run m d w Hd), Hok. cbn [fst snd trace].
    rewrite skipn_length_app. repeat split.
Qed.

Lemma healthCheck_outcomes_witness :
  let m := fst connected in
  let w := mkWorld (now (snd connected)) [] [false; false] in
  fst (healthCheck m w) = dropped m
  /\ emitted (healthCheck m) w
     = [ReadSerial (r1 1 "R1A") false;
        Control (r1 1 "R1A") 64 55 1 0 [] false;
        Control (r1 1 "R1A") 64 55 2 0 [] true;
        CloseHandle (r1 1 "R1A"); CloseContext; Notify Disconnected].
Proof.
  destruct (healthCheck_outcomes (fst connected)
              (mkWorld (now (snd connected)) [] [false; false]))
    as (_ & _ & H).
  destruct (H (aoa.mkDevice (r1 1 "R1A") "" 3 [1; 2] 2) eq_refl eq_refl)
    as (H1 & H2 & _).
  split; [exact H1|]. rewrite H2. reflexivity.
Defined.

(** ** Close *)

Lemma handleError_world (m : Manager) (d : aoa.Device) (w : World) :
  dev m = Some d ->
  handleError m w
  = (dropped m,
     mkWorld (now w)
       (trace w ++ teardown d (oracle w) ++ notes m Disconnected)
       (skipn (List.length (aoa.registered d)) (oracle w))).
Proof.
  intros Hd. unfold handleError. rewrite Hd.
  rewrite !bind_run, Close_world. cbn [fst snd ret].
  rewrite device_facts.notify_run. cbn [fst snd ret now trace oracle].
  unfold dropped, notes. cbn [onChange set_dev set_state set_pttToggled].
  rewrite <- !app_assoc. reflexivity.
Qed.

Lemma shutdown_run (m : Manager) (d : aoa.Device) (w : World) :
  dev m = Some d ->
  Close m w =
  if State_eqb (state m) PTTActive
  then (dropped m,
        mkWorld (now w)
          (trace w ++ send_event d (pttHIDID m) (next_ok w) powerUp
                      :: teardown d (tl (oracle w)))
          (skipn (List.length (aoa.registered d)) (tl (oracle w))))
  else (dropped m,
        mkWorld (now w) (trace w ++ teardown d (oracle w))
          (skipn (List.length (aoa.registered d)) (oracle w))).
Proof.
  intros Hd. unfold Close. rewrite Hd.
  destruct (State_eqb (state m) PTTActive).
  - rewrite !bind_run, device_facts.SendReportTo_run. cbn [fst snd ret].
    rewrite Close_world. cbn [fst snd now trace oracle].
    rewrite <- app_assoc. reflexivity.
  - rewrite !bind_run. cbn [fst snd ret]. rewrite Close_world. reflexivity.
Qed.

(** X9. The manager's [Close] always ends Disconnected with the session
    slot empty and the toggle flag cleared. With a session it first sends
    the release report on the PTT channel if and only if the state is
    PTTActive, ignoring its outcome, and then tears the session down; it
    never notifies the observer, also when the state changes. Without a
    session it touches nothing in the world, so that a second [Close]
    changes nothing. *)
Theorem Close_outcomes (m : Manager) (w : World) :
  dev (fst (Close m w)) = None
  /\ state (fst (Close m w)) = Disconnected
  /\ pttToggled (fst (Close m w)) = false
  /\ Forall (fun e => is_notify e = false) (emitted (Close m) w)
  /\ (dev m = None -> snd (Close m w) = w)
  /\ (forall d, dev m = Some d ->
        emitted (Close m) w
        = if State_eqb (state m) PTTActive
          then send_event d (pttHIDID m) (next_ok w) powerUp
               :: teardown d (tl (oracle w))
          else teardown d (oracle w))
  /\ Close (fst (Close m w)) (snd (Close m w)) = Close m w.
Proof.
  assert (F : fst (Close m w) = dropped m) by apply device_facts.Close_manager.
  assert (N : dev m = None -> Close m w = (dropped m, w)).
  { intros H. rewrite <- F. unfold Close. rewrite H. reflexivity. }
  assert (E : forall d, dev m = Some d ->
                emitted (Close m) w
                = if State_eqb (state m) PTTActive
                  then send_event d (pttHIDID m) (next_ok w) powerUp
                       :: teardown d (tl (oracle w))
                  else teardown d (oracle w)).
  { intros d Hd. unfold emitted. rewrite (shutdown_run m d w Hd).
    destruct (State_eqb (state m) PTTActive); cbn [snd trace];
      apply skipn_length_app. }
  rewrite F. repeat split.
  - destruct (dev m) as [d|] eqn:Hd.
    + rewrite (E d eq_refl).
      destruct (State_eqb (state m) PTTActive);
        [constructor; [reflexivity|]|]; apply teardown_no_notify.
    + unfold emitted. rewrite (N eq_refl). cbn [snd].
      rewrite skipn_all. constructor.
  - intros H. now rewrite (N H).
  - exact E.
  - assert (D : forall w', Close (dropped m) w' = (dropped m, w')).
    { intros w'. unfold Close. cbn [dev dropped set_pttToggled set_state
                                       set_dev].
      rewrite bind_run. cbn [fst snd ret]. destruct m; reflexivity. }
    rewrite D. rewrite <- F. destruct (Close m w); reflexivity.
Qed.

Lemma Close_outcomes_witness :
  let m := fst toggled_on in
  let w := snd toggled_on in
  emitted (Close m) w
  = [Control (r1 1 "R1A") 64 57 1 0 [0] true;
     Control (r1 1 "R1A") 64 55 1 0 [] true;
     Control (r1 1 "R1A") 64 55 2 0 [] true;
     CloseHandle (r1 1 "R1A"); CloseContext].
Proof.
  destruct (Close_outcomes (fst toggled_on) (snd toggled_on))
    as (_ & _ & _ & _ & _ & H & _).
  cbv zeta.
  rewrite (H (aoa.mkDevice (r1 1 "R1A") "" 3 [1; 2] 2) eq_refl).
  reflexivity.
Defined.

(** ** PTTDown *)

Lemma PTTDown_run (m : Manager) (d : aoa.Device) (w : World) :
  dev m = Some d ->
  PTTDown m w =
  if pttToggled m then (None, pressed m w, w)
  else
    let w1 := snd (wake m d w) in
    if next_ok w1
    then (None, set_state PTTActive (pressed m w),
          mkWorld (now w1)
            (trace w1 ++ send_event d (pttHIDID m) true powerDown
                         :: notes m PTTActive)
            (tl (oracle w1)))
    else (Some (ErrControlTransfer aoa.reqSendHIDEvent (pttHIDID m) 0 ErrUsb),
          dropped (pressed m w),
          mkWorld (now w1)
            (trace w1 ++ send_event d (pttHIDID m) false powerDown
                         :: teardown d (tl (oracle w1))
                            ++ notes m Disconnected)
            (skipn (List.length (aoa.registered d)) (tl (oracle w1)))).
Proof.
  intros Hd. unfold PTTDown. rewrite Hd.
  rewrite bind_run. unfold Now. cbn [fst snd].
  rewrite bind_run, device_facts.touchActivity_run. cbn [fst snd].
  fold (pressed m w).
  change (pttToggled (pressed m w)) with (pttToggled m).
  destruct (pttToggled m); [reflexivity|].
  cbv zeta. rewrite bind_run.
  change (wake (pressed m w) d w) with (wake m d w).
  rewrite bind_run, device_facts.SendReportTo_run.
  change (pttHIDID (pressed m w)) with (pttHIDID m).
  destruct (next_ok (snd (wake m d w))); cbn [fst snd].
  - rewrite bind_run, device_facts.notify_run. cbn [fst snd ret now trace oracle].
    rewrite <- app_assoc. reflexivity.
  - assert (Hp : dev (pressed m w) = Some d) by (destruct m; exact Hd).
    rewrite bind_run, (handleError_world (pressed m w) d _ Hp).
    cbn [fst snd ret now trace oracle]. rewrite <- app_assoc.
    reflexivity.
Qed.

(** X10. [PTTDown] on a manager with a session records the press time and
    resets the idle timer first. With the toggle flag set it then returns
    at once: nothing is sent and the state is kept. Otherwise it runs the
    wake sequence and sends the power-down report; the outcome of the wake
    transfers does not matter to the caller. If the power-down transfer
    succeeds the state is PTTActive and the observer is notified; if it
    fails the error is returned, the session is torn down and the manager
    is Disconnected. *)
Theorem PTTDown_outcomes (m : Manager) (d : aoa.Device) (w : World) :
  dev m = Some d ->
  let w1 := snd (wake m d w) in
  pttPressTime (pressed m w) = At (now w)
  /\ lastActivity (pressed m w) = At (now w)
  /\ sleeping (pressed m w) = false
  /\ (pttToggled m = true ->
      PTTDown m w = (None, pressed m w, w)
      /\ state (pressed m w) = state m)
  /\ (pttToggled m = false -> next_ok w1 = true ->
      fst (PTTDown m w) = (None, set_state PTTActive (pressed m w))
      /\ emitted (PTTDown m) w
         = emitted (wake m d) w
           ++ send_event d (pttHIDID m) true powerDown :: notes m PTTActive)
  /\ (pttToggled m = false -> next_ok w1 = false ->
      fst (PTTDown m w)
      = (Some (ErrControlTransfer aoa.reqSendHIDEvent (pttHIDID m) 0 ErrUsb),
         dropped (pressed m w))
      /\ emitted (PTTDown m) w
         = emitted (wake m d) w
           ++ send_event d (pttHIDID m) false powerDown
              :: teardown d (tl (oracle w1)) ++ notes m Disconnected).
Proof.
  intros Hd w1. pose proof (PTTDown_run m d w Hd) as R. cbv zeta in R.
  subst w1.
  assert (Hw : trace (snd (wake m d w)) = trace w ++ emitted (wake m d) w)
    by apply device_facts.wake_trace.
  split; [reflexivity|]. split; [reflexivity|]. split; [reflexivity|].
  split; [|split].
  - intros Ht. rewrite Ht in R. split; [exact R|reflexivity].
  - intros Ht Hok. rewrite Ht, Hok in R. rewrite R. split; [reflexivity|].
    apply emitted_intro. rewrite R. cbn [snd trace].
    rewrite Hw, <- app_assoc. reflexivity.
  - intros Ht Hok. rewrite Ht, Hok in R. rewrite R. split; [reflexivity|].
    apply emitted_intro. rewrite R. cbn [snd trace].
    rewrite Hw, <- app_assoc. reflexivity.
Qed.

(** X10 on a connected manager whose wake transfer fails while the
    power-down transfer succeeds. *)
Lemma PTTDown_outcomes_witness :
  let m := fst connected in
  let w := mkWorld (now (snd connected)) [] [false; true] in
  fst (fst (PTTDown m w)) = None
  /\ state (snd (fst (PTTDown m w))) = PTTActive
  /\ emitted (PTTDown m) w
     = [Control (r1 1 "R1A") 64 57 1 0 [3] false;
        Control (r1 1 "R1A") 64 57 1 0 [1] true;
        Notify PTTActive].
Proof.
  destruct (PTTDown_outcomes (fst connected)
              (aoa.mkDevice (r1 1 "R1A") "" 3 [1; 2] 2)
              (mkWorld (now (snd connected)) [] [false; true]) eq_refl)
    as (_ & _ & _ & _ & H & _).
  destruct (H eq_refl eq_refl) as [H1 H2].
  cbv zeta. rewrite H1, H2. repeat split.
Defined.

(** ** The keep-awake ping *)

Lemma idle_limit_not_reached (m : Manager) (w : World) :
  sleepAfterMinutes m <= 0
  \/ (sleepAfterMinutes m * Minute <= maxInt64
      /\ idle_time m w < sleepAfterMinutes m * Minute) ->
  (if sleepAfterMinutes m >? 0
   then
     idle <- Since (lastActivity m) ;;
     ret (idle >=? wrap64 (sleepAfterMinutes m * Minute))
   else ret false) w = (false, w).
Proof.
  intros H. destruct (Z.gtb_spec (sleepAfterMinutes m) 0) as [Hpos|Hle];
    [|reflexivity].
  destruct H as [H|[Hmax Hidle]]; [lia|].
  rewrite bind_run. unfold Since, ret. cbn [fst snd]. f_equal.
  rewrite Z.geb_leb. apply Z.leb_gt. unfold idle_time in Hidle.
  rewrite device_facts.wrap64_small
    by (unfold minInt64, maxInt64, Minute, Second, Millisecond in *; lia).
  destruct (lastActivity m) as [|t]; [lia|].
  rewrite device_facts.saturate64_spec.
  unfold minInt64, maxInt64, Minute, Second, Millisecond in *. lia.
Qed.



(** ** Press and release together *)

Lemma PTTUp_run (m : Manager) (d : aoa.Device) (w : World) :
  dev m = Some d ->
  PTTUp m w =
  if (elapsed_since_press m w <? toggleThreshold) && negb (pttToggled m)
  then (None, set_pttToggled true m, w)
  else if next_ok w
  then (None, released m,
        mkWorld (now w)
          (trace w ++ send_event d (pttHIDID m) true powerUp
                      :: notes m Connected)
          (tl (oracle w)))
  else (Some (ErrControlTransfer aoa.reqSendHIDEvent (pttHIDID m) 0 ErrUsb),
        dropped m,
        mkWorld (now w)
          (trace w ++ send_event d (pttHIDID m) false powerUp
                      :: teardown d (tl (oracle w)) ++ notes m Disconnected)
          (skipn (List.length (aoa.registered d)) (tl (oracle w)))).
Proof.
  intros Hd. unfold PTTUp, elapsed_since_press. rewrite Hd, bind_run.
  assert (Hd' : dev (set_pttToggled false m) = Some d)
    by (destruct m; exact Hd).
  assert (Hdrop : dropped (set_pttToggled false m) = dropped m)
    by (destruct m; reflexivity).
  destruct (fst (Since (pttPressTime m) w) <? toggleThreshold);
    [destruct (pttToggled m) eqn:T; [|reflexivity]|];
    cbn [andb negb]; unfold Since at 1; cbn [fst snd];
    rewrite bind_run, device_facts.SendReportTo_run;
    change (pttHIDID (set_pttToggled false m)) with (pttHIDID m);
    (destruct (next_ok w); cbn [fst snd];
     [rewrite bind_run, device_facts.notify_run;
      cbn [fst snd ret now trace oracle]; rewrite <- app_assoc;
      unfold released, notes
     |rewrite bind_run, (handleError_world _ d _ Hd'), Hdrop;
      cbn [fst snd ret now trace oracle]; rewrite <- app_assoc;
      unfold notes]).
  - destruct m; cbn in *; subst; reflexivity.
  - destruct m; reflexivity.
  - destruct m; reflexivity.
  - destruct m; reflexivity.
Qed.

Lemma saturate64_small (x : Z) :
  minInt64 <= x <= maxInt64 -> saturate64 x = x.
Proof. intros H. rewrite device_facts.saturate64_spec. lia. Qed.

(** [PTTDown], then [delta] nanoseconds, then [PTTUp]. *)
Lemma press_wait_release (m : Manager) (d : aoa.Device) (w : World)
      (delta : N) :
  dev m = Some d -> pttToggled m = false ->
  next_ok (snd (wake m d w)) = true ->
  let w1 := snd (PTTDown m w) in
  let m1 := set_state PTTActive (pressed m w) in
  let w2 := mkWorld (now w1 + Z.of_N delta) (trace w1) (oracle w1) in
  run [EvPTTDown; EvWait delta; EvPTTUp] m w
  = (snd (fst (PTTUp m1 w2)), snd (PTTUp m1 w2))
  /\ now w1 = now (snd (wake m d w))
  /\ oracle w1 = tl (oracle (snd (wake m d w))).
Proof.
  intros Hd Ht Hok. cbv zeta.
  pose proof (PTTDown_run m d w Hd) as R. cbv zeta in R.
  rewrite Ht, Hok in R.
  rewrite !device_facts.run_cons. cbn [step run].
  rewrite !bind_run, R. cbn [fst snd ret].
  unfold sleep. cbn [fst snd now trace oracle].
  destruct (PTTUp _ _) as [[e m'] w']. repeat split.
Qed.

(** X12. The press time is taken before the wake sequence, so the time
    [PTTDown] itself takes counts against the 300 ms toggle threshold. From
    an untoggled manager with a session whose power-down transfer
    succeeds, the release toggles PTT on exactly when the clock at the
    call of [PTTUp] is less than 300 ms after the clock at the call of
    [PTTDown]; when it toggles on the state stays PTTActive, otherwise the
    flag stays clear and the release report is sent, the state being
    Connected once that transfer succeeds. When the wake-up transfer
    succeeds [PTTDown] takes 150 ms at least, so that a release called
    150 ms or more after [PTTDown] has returned is never a tap. *)
Theorem tap_window (m : Manager) (d : aoa.Device) (w : World) (delta : N) :
  dev m = Some d -> pttToggled m = false ->
  next_ok (snd (wake m d w)) = true ->
  let returned := now (snd (PTTDown m w)) in
  let released := clock_after [EvPTTDown; EvWait delta] m w in
  let m' := fst (run [EvPTTDown; EvWait delta; EvPTTUp] m w) in
  (if released - now w <? 300 * Millisecond
   then pttToggled m' = true /\ state m' = PTTActive
   else pttToggled m' = false
        /\ (hd true (oracle (snd (PTTDown m w))) = true ->
            state m' = Connected))
  /\ released = returned + Z.of_N delta
  /\ (next_ok w = true -> now w + 150 * Millisecond <= returned)
  /\ (next_ok w = true -> 150 * Millisecond <= Z.of_N delta ->
      pttToggled m' = false).
Proof.
  intros Hd Ht Hok. cbv zeta.
  destruct (press_wait_release m d w delta Hd Ht Hok) as (E & N1 & O1).
  cbv zeta in E.
  assert (Hd1 : dev (set_state PTTActive (pressed m w)) = Some d)
    by (destruct m; exact Hd).
  assert (C : clock_after [EvPTTDown; EvWait delta] m w
              = now (snd (PTTDown m w)) + Z.of_N delta).
  { unfold clock_after. rewrite !device_facts.run_cons. cbn [step run ret].
    rewrite !bind_run. destruct (PTTDown m w) as [[e m1] w1]. reflexivity. }
  pose proof (device_facts.Mono_PTTDown m w) as Mn.
  assert (K : next_ok w = true ->
              now w + 150 * Millisecond <= now (snd (PTTDown m w))).
  { intros O. rewrite N1, device_facts.wake_run, O. cbn [snd now].
    unfold Millisecond. lia. }
  assert (T : if clock_after [EvPTTDown; EvWait delta] m w - now w
                 <? 300 * Millisecond
              then pttToggled
                     (fst (run [EvPTTDown; EvWait delta; EvPTTUp] m w)) = true
                   /\ state
                        (fst (run [EvPTTDown; EvWait delta; EvPTTUp] m w))
                      = PTTActive
              else pttToggled
                     (fst (run [EvPTTDown; EvWait delta; EvPTTUp] m w)) = false
                   /\ (hd true (oracle (snd (PTTDown m w))) = true ->
                       state
                         (fst (run [EvPTTDown; EvWait delta; EvPTTUp] m w))
                       = Connected)).
  { rewrite C, E. cbn [fst].
    rewrite (PTTUp_run _ d _ Hd1).
    unfold elapsed_since_press, Since. cbn [fst snd now oracle next_ok].
    change (pttPressTime (set_state PTTActive (pressed m w)))
      with (At (now w)).
    change (pttToggled (set_state PTTActive (pressed m w)))
      with (pttToggled m).
    rewrite Ht. cbn [negb]. rewrite andb_true_r.
    unfold toggleThreshold, Millisecond in *.
    destruct (Z.ltb_spec (now (snd (PTTDown m w)) + Z.of_N delta - now w)
                (300 * 1000000)) as [L|L].
    - rewrite saturate64_small by (unfold minInt64, maxInt64 in *; lia).
      destruct (Z.ltb_spec (now (snd (PTTDown m w)) + Z.of_N delta - now w)
                  (300 * 1000000)); [|lia].
      cbn [snd fst]. destruct m; split; reflexivity.
    - assert (S : (saturate64
                     (now (snd (PTTDown m w)) + Z.of_N delta - now w)
                   <? 300 * 1000000) = false).
      { apply Z.ltb_ge. rewrite device_facts.saturate64_spec.
        unfold minInt64, maxInt64. lia. }
      rewrite S. unfold next_ok. cbn [oracle].
      destruct (hd true (oracle (snd (PTTDown m w)))); cbn [snd fst].
      + split; [destruct m; reflexivity|]. intros _. destruct m; reflexivity.
      + split; [destruct m; reflexivity|]. discriminate. }
  split; [exact T|]. split; [exact C|]. split; [exact K|].
  intros O Hdel. specialize (K O). rewrite C in T.
  destruct (Z.ltb_spec (now (snd (PTTDown m w)) + Z.of_N delta - now w)
              (300 * Millisecond)) as [L|L];
    [unfold Millisecond in *; lia|apply T].
Qed.

(** X12 on a connected manager: released 100 ms after [PTTDown] returns,
    the press is a tap; released 200 ms after, it is a hold. *)
Lemma tap_window_witness :
  let m := fst connected in
  let w := snd connected in
  pttToggled (fst (run [EvPTTDown; EvWait 100000000; EvPTTUp] m w)) = true
  /\ pttToggled (fst (run [EvPTTDown; EvWait 200000000; EvPTTUp] m w))
     = false.
Proof.
  split.
  - destruct (tap_window (fst connected)
                (aoa.mkDevice (r1 1 "R1A") EmptyString 3 [1; 2] 2)
                (snd connected) 100000000 eq_refl eq_refl eq_refl)
      as [H _].
    assert (B : (clock_after [EvPTTDown; EvWait 100000000] (fst connected)
                   (snd connected) - now (snd connected)
                 <? 300 * Millisecond) = true)
      by (vm_compute; reflexivity).
    rewrite B in H. exact (proj1 H).
  - destruct (tap_window (fst connected)
                (aoa.mkDevice (r1 1 "R1A") EmptyString 3 [1; 2] 2)
                (snd connected) 200000000 eq_refl eq_refl eq_refl)
      as (_ & _ & _ & H).
    apply H; [reflexivity|vm_compute; discriminate].
Defined.

Lemma step_PTTDown (m : Manager) (w : World) :
  step EvPTTDown m w = (snd (fst (PTTDown m w)), snd (PTTDown m w)).
Proof. cbn [step]. rewrite bind_run. destruct (PTTDown m w) as [[e m'] w'].
  reflexivity. Qed.

Lemma step_PTTUp (m : Manager) (w : World) :
  step EvPTTUp m w = (snd (fst (PTTUp m w)), snd (PTTUp m w)).
Proof. cbn [step]. rewrite bind_run. destruct (PTTUp m w) as [[e m'] w'].
  reflexivity. Qed.

Lemma step_EvWait (n : N) (m : Manager) (w : World) :
  step (EvWait n) m w
  = (m, mkWorld (now w + Z.of_N n) (trace w) (oracle w)).
Proof. reflexivity. Qed.

(** X13. Two taps make a full cycle. From an untoggled manager with a
    session whose next four transfers succeed, a tap (the release called
    less than 300 ms after the press was called), any pause, and a second
    tap (released less than 300 ms after the second press, which sends
    nothing and does not wait) end in state Connected with the toggle flag
    clear and the session kept. The whole cycle sends the wake-up and
    release of the wake sequence, one power-down and one release. *)
Theorem tap_twice_returns (m : Manager) (d : aoa.Device) (w : World)
        (a b c : N) :
  dev m = Some d -> pttToggled m = false ->
  outcomes 4 (oracle w) = [true; true; true; true] ->
  clock_after [EvPTTDown; EvWait a] m w - now w < 300 * Millisecond ->
  Z.of_N c < 300 * Millisecond ->
  let evs := [EvPTTDown; EvWait a; EvPTTUp; EvWait b;
              EvPTTDown; EvWait c; EvPTTUp] in
  let m' := fst (run evs m w) in
  state m' = Connected /\ pttToggled m' = false /\ dev m' = Some d
  /\ emitted (run evs m) w
     = [send_event d (pttHIDID m) true wakeUp;
        send_event d (pttHIDID m) true powerUp;
        send_event d (pttHIDID m) true powerDown]
       ++ notes m PTTActive
       ++ [send_event d (pttHIDID m) true powerUp]
       ++ notes m Connected.
Proof.
  intros Hd Ht Ho Hrel Hc evs m'. subst m' evs.
  cbn [outcomes] in Ho. injection Ho as O1 O2 O3 O4.
  pose proof (device_facts.wake_run m d w) as W.
  unfold next_ok in W. rewrite O1, O2 in W.
  pose proof (PTTDown_run m d w Hd) as R1. cbv zeta in R1.
  rewrite Ht, W in R1. unfold next_ok in R1. cbn [snd oracle now trace] in R1.
  rewrite O3 in R1.
  assert (Ha : Z.of_N a < 150 * Millisecond).
  { unfold clock_after in Hrel.
    rewrite device_facts.run_cons, step_PTTDown, R1 in Hrel.
    cbn [fst snd] in Hrel.
    rewrite device_facts.run_cons, step_EvWait in Hrel.
    cbn [fst snd run ret now] in Hrel. unfold Millisecond in *. lia. }
  set (m1 := set_state PTTActive (pressed m w)) in *.
  assert (Hd1 : dev m1 = Some d) by (destruct m; exact Hd).
  set (m2 := set_pttToggled true m1).
  assert (Hd2 : dev m2 = Some d) by (destruct m; exact Hd).
  unfold emitted.
  (* the first press *)
  rewrite device_facts.run_cons, step_PTTDown, R1. cbn [fst snd].
  rewrite device_facts.run_cons, step_EvWait. cbn [fst snd now trace oracle].
  (* the first release: a tap *)
  rewrite device_facts.run_cons, step_PTTUp.
  rewrite (PTTUp_run m1 d _ Hd1).
  unfold elapsed_since_press, Since. cbn [fst now].
  change (pttPressTime m1) with (At (now w)).
  change (pttToggled m1) with (pttToggled m).
  rewrite Ht. cbn [negb].
  rewrite saturate64_small
    by (unfold minInt64, maxInt64, Millisecond in *; lia).
  assert (L1 : (now w + 50 * Millisecond + 100 * Millisecond + Z.of_N a
                - now w <? toggleThreshold) = true)
    by (apply Z.ltb_lt; unfold toggleThreshold, Millisecond in *; lia).
  rewrite L1. cbn [andb fst snd]. fold m2.
  rewrite device_facts.run_cons, step_EvWait. cbn [fst snd now trace oracle].
  (* the second press: toggled, nothing is sent *)
  rewrite device_facts.run_cons, step_PTTDown.
  rewrite (PTTDown_run m2 d _ Hd2).
  change (pttToggled m2) with true. cbn iota. cbn [fst snd].
  rewrite device_facts.run_cons, step_EvWait. cbn [fst snd now trace oracle].
  (* the second release: a tap on a toggled manager *)
  rewrite device_facts.run_cons, step_PTTUp.
  match goal with
  | |- context [PTTUp ?m3 ?w4] =>
      assert (Hd3 : dev m3 = Some d) by (destruct m; exact Hd);
      rewrite (PTTUp_run m3 d w4 Hd3);
      change (pttToggled m3) with true
  end.
  rewrite andb_false_r. unfold next_ok. cbn [oracle]. rewrite O4.
  cbn [fst snd run ret trace].
  split; [reflexivity|]. split; [reflexivity|]. split; [exact Hd|].
  rewrite <- !app_assoc. rewrite skipn_length_app. reflexivity.
Qed.

Lemma tap_twice_returns_witness :
  let m := fst connected in
  let w := snd connected in
  state (fst (run [EvPTTDown; EvWait 100000000; EvPTTUp; EvWait 5000000000;
                   EvPTTDown; EvWait 100000000; EvPTTUp] m w)) = Connected.
Proof.
  destruct (tap_twice_returns (fst connected)
              (aoa.mkDevice (r1 1 "R1A") EmptyString 3 [1; 2] 2)
              (snd connected) 100000000 5000000000 100000000
              eq_refl eq_refl eq_refl eq_refl eq_refl) as [H _].
  exact H.
Defined.

(** ** tryConnect *)

Lemma Open_no_notify (bus : list UsbDev) (enum_err : bool) (filter : string)
      (w : World) :
  Forall (fun e => is_notify e = false) (emitted (aoa.Open bus enum_err filter) w).
Proof.
  unfold emitted. rewrite aoa_more.Open_world. cbn [snd trace].
  rewrite skipn_length_app. apply Forall_app. split.
  - destruct (enum_err && _); [constructor|].
    apply Forall_forall. intros e H. apply in_flat_map in H.
    destruct H as (u & _ & H). unfold Open_visit in H.
    destruct (serial_matches filter u); cbn in H;
      intuition (subst; reflexivity).
  - destruct (candidates filter bus); repeat constructor.
Qed.

Lemma Open_trace (bus : list UsbDev) (enum_err : bool) (filter : string)
      (w : World) :
  snd (aoa.Open bus enum_err filter w)
  = mkWorld (now w) (trace w ++ emitted (aoa.Open bus enum_err filter) w)
            (oracle w).
Proof.
  unfold emitted. rewrite aoa_more.Open_world. cbn [snd trace].
  rewrite skipn_length_app. reflexivity.
Qed.

Lemma tryConnect_run (bus : list UsbDev) (enum_err : bool) (m : Manager)
      (w : World) :
  let opened := emitted (aoa.Open bus enum_err (serial m)) w in
  let o := oracle w in
  match candidates (serial m) bus with
  | [] => tryConnect bus enum_err m w
          = (m, mkWorld (now w) (trace w ++ opened) o)
  | c :: cs =>
      let d0 := fresh_session (last cs c) in
      let d1 := id_registered d0 in
      let reg1 := register_request d0 1 aoa.systemControlDescriptor in
      let set1 := set_descriptor_request d0 1 aoa.systemControlDescriptor in
      let reg2 := register_request d0 2 aoa.touchScreenDescriptor in
      let set2 := set_descriptor_request d0 2 aoa.touchScreenDescriptor in
      if hd true o
      then
        if hd true (tl o)
        then
          if hd true (tl (tl o))
          then
            if hd true (tl (tl (tl o)))
            then
              let m' := connected_as m (session_12 (last cs c)) 1 2
                          (At (now w + 600 * Millisecond)) in
              let w3 := mkWorld (now w + 600 * Millisecond)
                          (trace w ++ opened
                           ++ [reg1 true; set1 true; reg2 true; set2 true]
                           ++ notes m Connected)
                          (tl (tl (tl (tl o)))) in
              tryConnect bus enum_err m w = keepAwakePing m' w3
            else
              tryConnect bus enum_err m w
              = (m, mkWorld (now w + 300 * Millisecond)
                      (trace w ++ opened
                       ++ [reg1 true; set1 true; reg2 true; set2 false;
                           unregister_request d0
                             (2, hd true (tl (tl (tl (tl o)))))]
                       ++ teardown (id_drawn d1) (tl (tl (tl (tl (tl o))))))
                      (skipn 1 (tl (tl (tl (tl (tl o)))))))
          else
            tryConnect bus enum_err m w
            = (m, mkWorld (now w + 300 * Millisecond)
                    (trace w ++ opened
                     ++ [reg1 true; set1 true; reg2 false]
                     ++ teardown (id_drawn d1) (tl (tl (tl o))))
                    (skipn 1 (tl (tl (tl o)))))
        else
          tryConnect bus enum_err m w
          = (m, mkWorld (now w)
                  (trace w ++ opened
                   ++ [reg1 true; set1 false;
                       unregister_request d0 (1, hd true (tl (tl o)))]
                   ++ teardown (id_drawn d0) (tl (tl (tl o))))
                  (tl (tl (tl o))))
      else
        tryConnect bus enum_err m w
        = (m, mkWorld (now w)
                (trace w ++ opened ++ [reg1 false]
                 ++ teardown (id_drawn d0) (tl o))
                (tl o))
  end.
Proof.
  cbv zeta. unfold tryConnect. rewrite bind_run.
  pose proof (aoa_facts.Open_run bus enum_err (serial m) w) as R.
  rewrite Open_trace.
  destruct (candidates (serial m) bus) as [|c cs]; rewrite R;
    [reflexivity|].
  rewrite bind_run.
  rewrite (aoa_more.RegisterDescriptor_run aoa.DescSystemControl
             aoa.systemControlDescriptor _ _ eq_refl).
  unfold next_ok. cbn [oracle now trace].
  destruct (hd true (oracle w)); cbn [fst snd];
    [|rewrite bind_run, Close_world; cbn [fst snd ret now trace oracle];
      rewrite <- !app_assoc; reflexivity].
  destruct (hd true (tl (oracle w))); cbn [fst snd];
    [|rewrite bind_run, Close_world; cbn [fst snd ret now trace oracle];
      rewrite <- !app_assoc; reflexivity].
  rewrite bind_run.
  rewrite (aoa_more.RegisterDescriptor_run aoa.DescTouchScreen
             aoa.touchScreenDescriptor _ _ eq_refl).
  unfold next_ok. cbn [oracle now trace].
  destruct (hd true (tl (tl (oracle w)))); cbn [fst snd];
    [|rewrite bind_run, Close_world; cbn [fst snd ret now trace oracle];
      rewrite <- !app_assoc; reflexivity].
  destruct (hd true (tl (tl (tl (oracle w))))); cbn [fst snd];
    [|rewrite bind_run, Close_world; cbn [fst snd ret now trace oracle];
      rewrite <- !app_assoc; reflexivity].
  rewrite bind_run. unfold Now. cbn [fst snd now].
  rewrite bind_run, device_facts.notify_run. cbn [fst snd now trace oracle].
  unfold notes. cbn [onChange set_sleeping set_lastActivity set_pttToggled
                       set_touchHIDID set_pttHIDID set_state set_dev].
  rewrite <- !app_assoc. cbn [app].
  replace (now w + 300 * Millisecond + 300 * Millisecond)
    with (now w + 600 * Millisecond) by (unfold Millisecond; lia).
  reflexivity.
Qed.

Lemma keepAwakePing_events (m : Manager) (w : World) :
  exists post,
    trace (snd (keepAwakePing m w)) = trace w ++ post
    /\ Forall (fun e => is_send_event e = true) post.
Proof.
  assert (Z0 : exists post, trace w = trace w ++ post
                 /\ Forall (fun e => is_send_event e = true) post)
    by (exists []; rewrite app_nil_r; split; [reflexivity|constructor]).
  unfold keepAwakePing.
  destruct (dev m) as [d|]; [|exact Z0].
  destruct (negb (State_eqb (state m) Connected)); [exact Z0|].
  destruct (negb (keepAwake m)); [exact Z0|].
  rewrite bind_run.
  assert (W : snd ((if sleepAfterMinutes m >? 0
                    then
                      idle <- Since (lastActivity m) ;;
                      ret (idle >=? wrap64 (sleepAfterMinutes m * Minute))
                    else ret false) w) = w)
    by (destruct (sleepAfterMinutes m >? 0); reflexivity).
  rewrite W.
  match goal with |- context [if fst ?c then _ else _] => destruct (fst c) end.
  - exact Z0.
  - rewrite !bind_run, !device_facts.SendReportTo_run.
    unfold sleep, ret. cbn [fst snd trace now oracle].
    rewrite <- !app_assoc. cbn [app]. eexists. split; [reflexivity|].
    repeat constructor.
Qed.

(** X14. Connecting is all or nothing. When no candidate is found the
    manager is unchanged and only the enumeration shows in the trace. With
    a candidate, the four transfers of the two registrations decide: if one
    of them fails, the manager is left exactly as it was, no state change
    is reported, and the trace ends with the handle and the context being
    released; if all four succeed, the manager is Connected on a session
    holding ids 1 and 2, with the toggle cleared and the activity time set
    600 ms after the start, Connected is reported, the handle is not
    released, and what follows is a keep-awake ping (reports only). *)
Theorem tryConnect_all_or_nothing (bus : list UsbDev) (enum_err : bool)
        (m : Manager) (w : World) :
  let r := tryConnect bus enum_err m w in
  let evs := emitted (tryConnect bus enum_err m) w in
  let opened := emitted (aoa.Open bus enum_err (serial m)) w in
  match candidates (serial m) bus with
  | [] => fst r = m /\ evs = opened
  | c :: cs =>
      let h := last cs c in
      let d0 := fresh_session h in
      match first_failure 4 (oracle w) with
      | Some _ =>
          fst r = m
          /\ (exists pre, evs = pre ++ [CloseHandle h; CloseContext])
          /\ Forall (fun e => is_notify e = false) evs
      | None =>
          let m' := connected_as m (session_12 h) 1 2
                      (At (now w + 600 * Millisecond)) in
          (fst r = m' \/ fst r = set_sleeping true m')
          /\ now w + 600 * Millisecond <= now (snd r)
          /\ exists ping,
               evs = opened
                     ++ [register_request d0 1 aoa.systemControlDescriptor true;
                         set_descriptor_request d0 1
                           aoa.systemControlDescriptor true;
                         register_request d0 2 aoa.touchScreenDescriptor true;
                         set_descriptor_request d0 2
                           aoa.touchScreenDescriptor true]
                     ++ notes m Connected ++ ping
               /\ Forall (fun e => is_send_event e = true) ping
      end
  end.
Proof.
  cbv zeta. pose proof (tryConnect_run bus enum_err m w) as R. cbv zeta in R.
  pose proof (Open_no_notify bus enum_err (serial m) w) as N.
  destruct (candidates (serial m) bus) as [|c cs].
  - rewrite R. split; [reflexivity|].
    apply emitted_intro. rewrite R. reflexivity.
  - assert (T : forall d o, exists pre,
                 teardown d o
                 = pre ++ [CloseHandle (aoa.handle d); CloseContext])
      by (intros d o; eexists; reflexivity).
    cbn [first_failure].
    destruct (hd true (oracle w));
      [destruct (hd true (tl (oracle w)));
       [destruct (hd true (tl (tl (oracle w))));
        [destruct (hd true (tl (tl (tl (oracle w)))))|]|]|];
      cbn [option_map].
    + destruct (device_facts.keepAwakePing_manager
                  (connected_as m (session_12 (last cs c)) 1 2
                     (At (now w + 600 * Millisecond)))
                  (mkWorld (now w + 600 * Millisecond)
                     (trace w ++ emitted (aoa.Open bus enum_err (serial m)) w
                      ++ [register_request (fresh_session (last cs c)) 1
                            aoa.systemControlDescriptor true;
                          set_descriptor_request (fresh_session (last cs c)) 1
                            aoa.systemControlDescriptor true;
                          register_request (fresh_session (last cs c)) 2
                            aoa.touchScreenDescriptor true;
                          set_descriptor_request (fresh_session (last cs c)) 2
                            aoa.touchScreenDescriptor true]
                      ++ notes m Connected)
                     (tl (tl (tl (tl (oracle w))))))) as [E|E];
        (split; [rewrite R; auto|]);
        (split; [rewrite R;
                 match goal with
                 | |- _ <= now (snd (keepAwakePing ?a ?b)) =>
                     exact (device_facts.Mono_keepAwakePing a b)
                 end|]);
        match goal with
        | _ : fst (keepAwakePing ?a ?b) = _ |- _ =>
            destruct (keepAwakePing_events a b) as (ping & P & F)
        end;
        exists ping; (split; [|exact F]);
        apply emitted_intro; rewrite R, P; cbn [trace];
        rewrite <- !app_assoc; reflexivity.
    + rewrite R. split; [reflexivity|].
      assert (Ev : emitted (tryConnect bus enum_err m) w
                   = emitted (aoa.Open bus enum_err (serial m)) w
                     ++ [register_request (fresh_session (last cs c)) 1
                           aoa.systemControlDescriptor true;
                         set_descriptor_request (fresh_session (last cs c)) 1
                           aoa.systemControlDescriptor true;
                         register_request (fresh_session (last cs c)) 2
                           aoa.touchScreenDescriptor true;
                         set_descriptor_request (fresh_session (last cs c)) 2
                           aoa.touchScreenDescriptor false;
                         unregister_request (fresh_session (last cs c))
                           (2, hd true (tl (tl (tl (tl (oracle w))))))]
                     ++ teardown
                          (id_drawn (id_registered (fresh_session (last cs c))))
                          (tl (tl (tl (tl (tl (oracle w)))))))
        by (apply emitted_intro; rewrite R; reflexivity).
      rewrite Ev. split.
      * destruct (T (id_drawn (id_registered (fresh_session (last cs c))))
                    (tl (tl (tl (tl (tl (oracle w))))))) as (pre & ->).
        eexists. rewrite !app_assoc. reflexivity.
      * apply Forall_app. split; [exact N|]. apply Forall_app.
        split; [repeat constructor|apply teardown_no_notify].
    + rewrite R. split; [reflexivity|].
      assert (Ev : emitted (tryConnect bus enum_err m) w
                   = emitted (aoa.Open bus enum_err (serial m)) w
                     ++ [register_request (fresh_session (last cs c)) 1
                           aoa.systemControlDescriptor true;
                         set_descriptor_request (fresh_session (last cs c)) 1
                           aoa.systemControlDescriptor true;
                         register_request (fresh_session (last cs c)) 2
                           aoa.touchScreenDescriptor false]
                     ++ teardown
                          (id_drawn (id_registered (fresh_session (last cs c))))
                          (tl (tl (tl (oracle w)))))
        by (apply emitted_intro; rewrite R; reflexivity).
      rewrite Ev. split.
      * destruct (T (id_drawn (id_registered (fresh_session (last cs c))))
                    (tl (tl (tl (oracle w))))) as (pre & ->).
        eexists. rewrite !app_assoc. reflexivity.
      * apply Forall_app. split; [exact N|]. apply Forall_app.
        split; [repeat constructor|apply teardown_no_notify].
    + rewrite R. split; [reflexivity|].
      assert (Ev : emitted (tryConnect bus enum_err m) w
                   = emitted (aoa.Open bus enum_err (serial m)) w
                     ++ [register_request (fresh_session (last cs c)) 1
                           aoa.systemControlDescriptor true;
                         set_descriptor_request (fresh_session (last cs c)) 1
                           aoa.systemControlDescriptor false;
                         unregister_request (fresh_session (last cs c))
                           (1, hd true (tl (tl (oracle w))))]
                     ++ teardown (id_drawn (fresh_session (last cs c)))
                          (tl (tl (tl (oracle w)))))
        by (apply emitted_intro; rewrite R; reflexivity).
      rewrite Ev. split.
      * destruct (T (id_drawn (fresh_session (last cs c)))
                    (tl (tl (tl (oracle w))))) as (pre & ->).
        eexists. rewrite !app_assoc. reflexivity.
      * apply Forall_app. split; [exact N|]. apply Forall_app.
        split; [repeat constructor|apply teardown_no_notify].
    + rewrite R. split; [reflexivity|].
      assert (Ev : emitted (tryConnect bus enum_err m) w
                   = emitted (aoa.Open bus enum_err (serial m)) w
                     ++ [register_request (fresh_session (last cs c)) 1
                           aoa.systemControlDescriptor false]
                     ++ teardown (id_drawn (fresh_session (last cs c)))
                          (tl (oracle w)))
        by (apply emitted_intro; rewrite R; reflexivity).
      rewrite Ev. split.
      * destruct (T (id_drawn (fresh_session (last cs c))) (tl (oracle w)))
          as (pre & ->).
        eexists. rewrite !app_assoc. reflexivity.
      * apply Forall_app. split; [exact N|]. apply Forall_app.
        split; [repeat constructor|apply teardown_no_notify].
Qed.

(** ** What every reachable manager satisfies *)

Lemma tryConnect_session (bus : list UsbDev) (enum_err : bool) (m : Manager)
      (w : World) :
  fst (tryConnect bus enum_err m w) = m
  \/ exists h t,
       fst (tryConnect bus enum_err m w) = connected_as m (session_12 h) 1 2 t
       \/ fst (tryConnect bus enum_err m w)
          = set_sleeping true (connected_as m (session_12 h) 1 2 t).
Proof.
  pose proof (tryConnect_run bus enum_err m w) as R. cbv zeta in R.
  destruct (candidates (serial m) bus) as [|c cs]; [rewrite R; now left|].
  destruct (hd true (oracle w)); [|rewrite R; now left].
  destruct (hd true (tl (oracle w))); [|rewrite R; now left].
  destruct (hd true (tl (tl (oracle w)))); [|rewrite R; now left].
  destruct (hd true (tl (tl (tl (oracle w))))); [|rewrite R; now left].
  right. exists (last cs c), (At (now w + 600 * Millisecond)).
  rewrite R. apply device_facts.keepAwakePing_manager.
Qed.

Lemma reachable_inv_fields filter cb (m m' : Manager) :
  reachable_inv filter cb m ->
  dev m' = dev m -> state m' <> Disconnected \/ state m' = state m ->
  (state m' = Disconnected -> pttToggled m' = false) ->
  pttHIDID m' = pttHIDID m -> touchHIDID m' = touchHIDID m ->
  serial m' = serial m -> onChange m' = onChange m ->
  dev m <> None \/ state m' = state m ->
  reachable_inv filter cb m'.
Proof.
  unfold reachable_inv, session_iff_connected.
  intros (I1 & I2 & I3 & I4 & I5) Ed Es Et Ep Eh Ef Ec Ex.
  split; [split|split; [|split; [|split]]].
  - rewrite Ed. intros H. destruct Ex as [Ex|Ex]; [contradiction|].
    rewrite Ex. apply I1, H.
  - rewrite Ed. intros H. destruct Es as [Es|Es]; [contradiction|].
    rewrite Es in H. apply I1, H.
  - rewrite Ed, Ep, Eh. exact I2.
  - exact Et.
  - rewrite Ef. exact I4.
  - rewrite Ec. exact I5.
Qed.

Lemma reachable_inv_dropped filter cb (m m1 : Manager) :
  reachable_inv filter cb m ->
  serial m1 = serial m -> onChange m1 = onChange m ->
  reachable_inv filter cb (dropped m1).
Proof.
  unfold reachable_inv, session_iff_connected.
  intros (_ & _ & _ & I4 & I5) Ef Ec.
  destruct m1; cbn in *; subst. repeat split; auto; discriminate.
Qed.

Lemma reachable_inv_connected filter cb (m : Manager) (h : UsbDev) (t : Time)
      (s : bool) :
  reachable_inv filter cb m ->
  reachable_inv filter cb (set_sleeping s (connected_as m (session_12 h) 1 2 t)).
Proof.
  unfold reachable_inv, session_iff_connected.
  intros (_ & _ & _ & I4 & I5). cbn.
  repeat split; auto; try discriminate;
    match goal with H : Some _ = Some _ |- _ => now inversion H end.
Qed.

Lemma step_reachable_inv filter cb (e : Event) (m : Manager) (w : World) :
  reachable_inv filter cb m -> reachable_inv filter cb (fst (step e m w)).
Proof.
  intros I.
  assert (S : forall b, reachable_inv filter cb (set_sleeping b m))
    by (intros b; apply (reachable_inv_fields filter cb m); auto;
        destruct m; cbn; auto; apply I).
  assert (C : forall bus enum_err,
             reachable_inv filter cb (fst (tryConnect bus enum_err m w))).
  { intros bus enum_err.
    destruct (tryConnect_session bus enum_err m w) as [E|(h & t & [E|E])];
      rewrite E; [exact I| |apply reachable_inv_connected, I].
    apply (reachable_inv_connected filter cb m h t false), I. }
  assert (H : reachable_inv filter cb (fst (healthCheck m w))).
  { destruct (device_facts.healthCheck_manager m w) as [E|E]; rewrite E;
      [exact I|apply (reachable_inv_dropped filter cb m); auto]. }
  destruct e; cbn [step].
  - exact I.
  - apply C.
  - exact H.
  - unfold Run_poll. destruct (State_eqb (state m) Disconnected);
      [apply C|exact H].
  - destruct (device_facts.keepAwakePing_manager m w) as [E|E]; rewrite E;
      [exact I|apply S].
  - rewrite bind_run. destruct (dev m) as [d|] eqn:Hd.
    + pose proof (device_facts.PTTDown_manager m d w Hd) as P.
      cbv zeta in P.
      destruct (PTTDown m w) as [[r m'] w']. cbn [fst snd ret] in *.
      destruct (pttToggled m) eqn:T; [|destruct P as [P|P]]; subst m'.
      * apply (reachable_inv_fields filter cb m); auto;
          try (destruct m; cbn in *; auto; fail).
        destruct m; cbn in *; intros Hs.
        destruct I as (I1 & _). unfold session_iff_connected in I1.
        cbn in I1. apply I1 in Hs. subst. discriminate.
      * apply (reachable_inv_fields filter cb m); auto;
          try (destruct m; cbn in *; auto; fail);
          destruct m; cbn in *; subst;
          try (left; discriminate); discriminate.
      * apply (reachable_inv_dropped filter cb m); auto;
          destruct m; reflexivity.
    + destruct (device_facts.no_session m w Hd) as (E & _). rewrite E.
      exact I.
  - rewrite bind_run. destruct (dev m) as [d|] eqn:Hd.
    + pose proof (device_facts.PTTUp_manager m d w Hd) as P.
      destruct (PTTUp m w) as [[r m'] w']. cbn [fst snd ret] in *.
      destruct (_ && _); [|destruct P as [P|P]]; subst m'.
      * apply (reachable_inv_fields filter cb m); auto;
          try (destruct m; cbn in *; auto; fail).
        destruct m; cbn in *; intros Hs.
        destruct I as (I1 & _). unfold session_iff_connected in I1.
        cbn in I1. apply I1 in Hs. subst. discriminate.
      * apply (reachable_inv_fields filter cb m); auto;
          try (destruct m; cbn in *; auto; fail);
          destruct m; cbn in *; subst;
          try (left; discriminate); discriminate.
      * apply (reachable_inv_dropped filter cb m); auto.
    + destruct (device_facts.no_session m w Hd) as (_ & E & _). rewrite E.
      exact I.
  - rewrite bind_run. destruct (dev m) as [d|] eqn:Hd.
    + pose proof (device_facts.Swipe_manager m d w Hd) as P.
      destruct (Swipe m w) as [[r m'] w']. cbn [fst snd ret] in *.
      destruct P as [P|P]; subst m'.
      * apply (reachable_inv_fields filter cb m); auto;
          try (destruct m; cbn in *; auto; fail).
        apply I.
      * apply (reachable_inv_dropped filter cb m); auto;
          destruct m; reflexivity.
    + destruct (device_facts.no_session m w Hd) as (_ & _ & E). rewrite E.
      exact I.
  - apply (reachable_inv_fields filter cb m); auto;
      try (destruct m; cbn in *; auto; fail).
    apply I.
  - rewrite device_facts.Close_manager.
    apply (reachable_inv_dropped filter cb m); auto.
Qed.

(** X15. Whatever calls, polls, ticks and waits a manager made by
    NewManager goes through, and whatever the transfers' outcomes: it holds
    a session exactly when its state is not Disconnected; the session it
    holds has ids 1 and 2 registered, in that order, and the manager sends
    PTT reports under id 1 and touch reports under id 2; a Disconnected
    manager never has the toggle set; and the serial filter and the
    callback are the ones it was made with. *)
Theorem reachable_manager (filter : string) (cb : bool) (evs : list Event)
        (w : World) :
  reachable_inv filter cb (fst (history filter cb evs w)).
Proof.
  rewrite device_facts.history_run.
  assert (H : forall (m : Manager) (w' : World),
             reachable_inv filter cb m ->
             reachable_inv filter cb (fst (run evs m w'))).
  { induction evs as [|e evs IH]; intros m w' I; [exact I|].
    rewrite device_facts.run_cons. apply IH, step_reachable_inv, I. }
  apply H. unfold reachable_inv, session_iff_connected. cbn.
  repeat split; auto; discriminate.
Qed.

(** ** Settings and the idle countdown *)

(** X16. A settings change restarts the idle countdown. On a Connected
    manager, after [SetKeepAwake true mins] with a positive threshold that
    fits the clock, the tick that comes [a] nanoseconds later pings (four
    reports, the flag [sleeping] clear) exactly when [a] is below the
    threshold, whatever the activity time and the flag were before;
    otherwise it sends nothing and sets [sleeping]. The activity time is
    the time of the change in both cases. *)
Theorem SetKeepAwake_restarts_countdown (m : Manager) (d : aoa.Device)
        (w : World) (mins : Z) (a : N) :
  dev m = Some d -> state m = Connected ->
  0 < mins -> mins * Minute <= maxInt64 ->
  let evs := [EvSetKeepAwake true mins; EvWait a; EvTick] in
  let m' := fst (run evs m w) in
  let o := oracle w in
  lastActivity m' = At (now w)
  /\ if Z.of_N a <? mins * Minute
     then sleeping m' = false
          /\ emitted (run evs m) w
             = ping_reports m d (hd true o) (hd true (tl o))
                 (hd true (tl (tl o))) (hd true (tl (tl (tl o))))
     else sleeping m' = true /\ emitted (run evs m) w = [].
Proof.
  intros Hd Hs Hpos Hfit. cbv zeta.
  set (m1 := set_sleeping false
               (set_lastActivity (At (now w))
                  (set_sleepAfterMinutes mins (set_keepAwake true m)))).
  set (w2 := mkWorld (now w + Z.of_N a) (trace w) (oracle w)).
  assert (R : run [EvSetKeepAwake true mins; EvWait a; EvTick] m w
              = keepAwakePing m1 w2).
  { rewrite !device_facts.run_cons. cbn [run].
    change (step (EvSetKeepAwake true mins) m w) with (m1, w).
    cbn [fst snd]. rewrite step_EvWait. cbn [fst snd step].
    fold w2. destruct (keepAwakePing m1 w2). reflexivity. }
  assert (Hd1 : dev m1 = Some d) by (destruct m; exact Hd).
  assert (Hs1 : state m1 = Connected) by (destruct m; exact Hs).
  assert (Hk1 : keepAwake m1 = true) by (destruct m; reflexivity).
  assert (Hm1 : sleepAfterMinutes m1 = mins) by (destruct m; reflexivity).
  assert (Hi1 : idle_time m1 w2 = Z.of_N a).
  { unfold idle_time.
    change (lastActivity m1) with (At (now w)). cbn [w2 now]. lia. }
  destruct (Z.ltb_spec (Z.of_N a) (mins * Minute)) as [Hlt|Hge].
  - assert (E : keepAwakePing m1 w2
                = (m1, mkWorld (now w2 + 230 * Millisecond)
                         (trace w2
                          ++ ping_reports m1 d (hd true (oracle w2))
                               (hd true (tl (oracle w2)))
                               (hd true (tl (tl (oracle w2))))
                               (hd true (tl (tl (tl (oracle w2))))))
                         (tl (tl (tl (tl (oracle w2))))))).
    { unfold keepAwakePing. rewrite Hd1, Hs1, Hk1. cbn [State_eqb negb].
      rewrite bind_run, (idle_limit_not_reached m1 w2)
        by (right; rewrite Hm1, Hi1; split; assumption).
      cbn [fst snd].
      rewrite !bind_run, !device_facts.SendReportTo_run.
      unfold sleep, ret, next_ok, ping_reports, Millisecond. cbn.
      rewrite <- !app_assoc. cbn [app].
      replace (now w + Z.of_N a + 50000000 + 150000000 + 30000000)
        with (now w + Z.of_N a + 230000000) by lia.
      reflexivity. }
    unfold emitted. rewrite R, E. cbn [fst snd trace w2].
    rewrite skipn_length_app.
    repeat split; destruct m; reflexivity.
  - assert (E : keepAwakePing m1 w2 = (set_sleeping true m1, w2)).
    { rewrite (device_facts.keepAwakePing_idle m1 d w2 Hd1 Hs1 Hk1)
        by (rewrite Hm1, ?Hi1; assumption).
      destruct m; reflexivity. }
    unfold emitted. rewrite R, E. cbn [fst snd trace w2].
    rewrite skipn_all.
    repeat split; destruct m; reflexivity.
Qed.

Lemma SetKeepAwake_restarts_countdown_witness :
  let m := set_sleeping true (fst idle_61_minutes) in
  let w := snd idle_61_minutes in
  let evs := [EvSetKeepAwake true 30; EvWait 25000000000; EvTick] in
  sleeping (fst (run evs m w)) = false
  /\ List.length (emitted (run evs m) w) = 4%nat.
Proof.
  cbv zeta.
  destruct (SetKeepAwake_restarts_countdown
              (set_sleeping true (fst idle_61_minutes))
              (aoa.mkDevice (r1 1 "R1A") EmptyString 3 [1; 2] 2)
              (snd idle_61_minutes) 30 25000000000
              eq_refl eq_refl eq_refl) as [_ H].
  - vm_compute. discriminate.
  - change (Z.of_N 25000000000 <? 30 * Minute) with true in H.
    destruct H as [H1 H2]. split; [exact H1|]. rewrite H2. reflexivity.
Defined.

End device_more.

(** * The hotkey names *)

Module config_more.

Lemma append_assoc (a b c : string) : ((a ++ b) ++ c = a ++ (b ++ c))%string.
Proof. induction a as [|x a IH]; cbn; [reflexivity|now rewrite IH]. Qed.

Lemma append_nil_r (a : string) : (a ++ EmptyString)%string = a.
Proof. induction a as [|x a IH]; cbn; [reflexivity|now rewrite IH]. Qed.

Lemma concat_cons_empty (l : string) (ls : list string) :
  String.concat EmptyString (l :: ls) = (l ++ String.concat EmptyString ls)%string.
Proof. destruct ls; cbn; [now rewrite append_nil_r|reflexivity]. Qed.

Lemma String_modifiers (mods : list string) (k : string) :
  config.HotkeyConfig_String (config.mkHotkeyConfig mods k)
  = (shown_modifiers mods
     ++ config.HotkeyConfig_String (config.mkHotkeyConfig [] k))%string.
Proof.
  unfold config.HotkeyConfig_String. cbn [config.Modifiers config.Key fold_left].
  assert (F : forall s,
             fold_left
               (fun (s m : string) =>
                  if String.eqb m "ctrl" then s ++ "Ctrl+"
                  else if String.eqb m "shift" then s ++ "Shift+"
                  else if String.eqb m "alt" then s ++ "Alt+"
                  else if String.eqb m "super" then s ++ "Super+"
                  else s)%string mods s
             = (s ++ shown_modifiers mods)%string).
  { induction mods as [|m mods IH]; intros s; cbn [fold_left].
    - cbn. now rewrite append_nil_r.
    - rewrite IH. unfold shown_modifiers.
      cbn [flat_map find modifier_labels fst].
      rewrite (String.eqb_sym "ctrl" m), (String.eqb_sym "shift" m),
        (String.eqb_sym "alt" m), (String.eqb_sym "super" m).
      destruct (String.eqb m "ctrl");
        [|destruct (String.eqb m "shift");
          [|destruct (String.eqb m "alt");
            [|destruct (String.eqb m "super")]]];
        cbn [app]; rewrite ?concat_cons_empty, ?append_assoc; reflexivity. }
  rewrite F. cbn [append].
  destruct (Nat.eqb (String.length k) 1); [|reflexivity].
  destruct k; [now rewrite append_nil_r|reflexivity].
Qed.

Lemma JSCodeToKeyName_listed (js k : string) :
  hotkey.JSCodeToKeyName js = (k, None) -> In (js, k) hotkey.jsCodeToName.
Proof.
  unfold hotkey.JSCodeToKeyName.
  destruct (find _ hotkey.jsCodeToName) as [[js' k']|] eqn:E; [|discriminate].
  intros H. inversion H. subst k'. apply find_some in E.
  destruct E as [I E]. cbn [fst] in E. apply String.eqb_eq in E.
  now subst js'.
Qed.

(** X17. How a hotkey is shown. For every key code
    that [JSCodeToKeyName] accepts, with any list of modifiers, the shown
    string is the labels of the modifiers spelled exactly ctrl, shift, alt
    or super (any other, such as Ctrl, is left out), followed by: the
    upper-case letter for a letter key; for a digit key, not the digit but
    the control character 32 places before it; the key name as it is for
    every other key. *)
Theorem hotkey_shown (mods : list string) (js k : string) :
  hotkey.JSCodeToKeyName js = (k, None) ->
  let shown := config.HotkeyConfig_String (config.mkHotkeyConfig mods k) in
  (forall c, js = ("Key" ++ String c EmptyString)%string ->
             shown = (shown_modifiers mods ++ String c EmptyString)%string)
  /\ (forall c, js = ("Digit" ++ String c EmptyString)%string ->
                shown = (shown_modifiers mods ++ shifted c 32)%string)
  /\ (String.length k <> 1%nat -> shown = (shown_modifiers mods ++ k)%string).
Proof.
  intros H. cbv zeta. rewrite String_modifiers.
  apply JSCodeToKeyName_listed in H.
  assert (P : Forall
                (fun p =>
                   let shown := config.HotkeyConfig_String (config.mkHotkeyConfig [] (snd p)) in
                   (forall c, fst p = ("Key" ++ String c EmptyString)%string ->
                              shown = String c EmptyString)
                   /\ (forall c, fst p = ("Digit" ++ String c EmptyString)%string ->
                                 shown = shifted c 32)
                   /\ (String.length (snd p) <> 1%nat -> shown = snd p))
                hotkey.jsCodeToName).
  { unfold hotkey.jsCodeToName.
    repeat (apply Forall_cons;
            [cbn [fst snd]; split; [|split];
             [intros c E; try discriminate E; inversion E; reflexivity
             |intros c E; try discriminate E; inversion E; reflexivity
             |intros L; try (exfalso; apply L; reflexivity); reflexivity]|]).
    apply Forall_nil. }
  rewrite Forall_forall in P. specialize (P _ H). cbn [fst snd] in P.
  destruct P as (P1 & P2 & P3). repeat split.
  - intros c E. now rewrite (P1 c E).
  - intros c E. now rewrite (P2 c E).
  - intros L. now rewrite (P3 L).
Qed.
Lemma hotkey_shown_witness :
  config.HotkeyConfig_String
    (config.mkHotkeyConfig ["ctrl"; "Alt"; "shift"]%string "5"%string)
  = ("Ctrl+Shift+" ++ String (Ascii.ascii_of_nat 21) EmptyString)%string.
Proof.
  destruct (hotkey_shown ["ctrl"; "Alt"; "shift"]%string "Digit5"%string
              "5"%string eq_refl) as (_ & P & _).
  exact (P (Ascii.ascii_of_nat 53) eq_refl).
Defined.

End config_more.
